(** * aiCodingViewer / ai_detective: the reasoning back end

    A shallow embedding of the three analysers of [ai_detective/backend]
    ([time_series_analyzer.py], [causal_reasoner.py], [deep_reasoner.py])
    and the properties of their specification.

    Python values are modelled as follows.
    - [str] is a list of Unicode code points ([N]); literals are written
      [u "..."] and decoded from the UTF-8 bytes of the Rocq string.
    - [float] is IEEE binary64, through the kernel's primitive floats.
    - [datetime] is a record of its fields, [timedelta] a number of
      microseconds.
    - [re] patterns are syntax trees run by a backtracking matcher that
      lists the outcomes in the order Python tries them.
    - an exception is a [Raise] result; [datetime.now()] reads an explicit
      clock.
    - an f-string that is only reported is kept as the list of its pieces. *)

From Stdlib Require Import String Ascii.
From Stdlib Require Import List ZArith NArith Lia Bool.
From Stdlib Require Import PrimFloat Sorted Permutation.
Import ListNotations.

Set Implicit Arguments.
Set Warnings "-inexact-float".

(** ** Python [str] *)

Module Py.

Definition str := list N.

Fixpoint bytes_of (s : string) : list N :=
  match s with
  | EmptyString => []
  | String a s' => N_of_ascii a :: bytes_of s'
  end.

(** UTF-8 decoding; [need] continuation bytes are still expected for the
    code point accumulated in [acc]. *)
Fixpoint utf8 (bs : list N) (need : nat) (acc : N) : str :=
  match bs with
  | [] => []
  | b :: t =>
      match need with
      | O => if (b <? 128)%N then b :: utf8 t 0 0%N
             else if (b <? 224)%N then utf8 t 1 (b - 192)%N
             else if (b <? 240)%N then utf8 t 2 (b - 224)%N
             else utf8 t 3 (b - 240)%N
      | S O => (acc * 64 + (b - 128))%N :: utf8 t 0 0%N
      | S k => utf8 t k (acc * 64 + (b - 128))%N
      end
  end.

Definition u (s : string) : str := utf8 (bytes_of s) 0 0%N.

Definition newline : N := 10%N.

Fixpoint str_eqb (a b : str) : bool :=
  match a, b with
  | [], [] => true
  | x :: a', y :: b' => (x =? y)%N && str_eqb a' b'
  | _, _ => false
  end.

(** [s.startswith(w)] *)
Fixpoint startswith (w s : str) : bool :=
  match w, s with
  | [], _ => true
  | x :: w', y :: s' => (x =? y)%N && startswith w' s'
  | _ :: _, [] => false
  end.

(** [kw in s] *)
Fixpoint contains (kw s : str) : bool :=
  startswith kw s ||
  match s with
  | [] => false
  | _ :: s' => contains kw s'
  end.

(** [any(kw in s for kw in kws)] *)
Definition any_in (kws : list str) (s : str) : bool :=
  existsb (fun kw => contains kw s) kws.

(** [x in l] for a list or set of strings *)
Definition mem (x : str) (l : list str) : bool := existsb (str_eqb x) l.

(** [s.find(w)], [None] standing for -1 *)
Fixpoint find (w s : str) : option nat :=
  if startswith w s then Some 0
  else match s with
       | [] => None
       | _ :: s' => option_map S (find w s')
       end.

(** [s[a:b]] for 0 <= a, 0 <= b *)
Definition slice (s : str) (a b : nat) : str := firstn (b - a) (skipn a s).

(** [s.replace(old, new)] for a non-empty [old]: the occurrences are taken
    from the left and do not overlap. [skip] characters of the occurrence
    just replaced are still to be passed over. *)
Fixpoint replace_from (old new : str) (skip : nat) (s : str) : str :=
  match s with
  | [] => []
  | c :: s' =>
      match skip with
      | S k => replace_from old new k s'
      | O => if startswith old s
             then new ++ replace_from old new (length old - 1) s'
             else c :: replace_from old new 0 s'
      end
  end.

Definition replace (s old new : str) : str := replace_from old new 0 s.

(** [c.isspace()] *)
Definition isspace (c : N) : bool :=
  ((9 <=? c) && (c <=? 13) || (28 <=? c) && (c <=? 32) || (c =? 133) ||
   (c =? 160) || (c =? 5760) || (8192 <=? c) && (c <=? 8202) ||
   (c =? 8232) || (c =? 8233) || (c =? 8239) || (c =? 8287) ||
   (c =? 12288))%N.

Fixpoint lstrip (s : str) : str :=
  match s with
  | c :: s' => if isspace c then lstrip s' else s
  | [] => []
  end.

(** [s.strip()] *)
Definition strip (s : str) : str := rev (lstrip (rev (lstrip s))).

(** [s.split(sep)] for a one-character separator *)
Fixpoint split_char (sep : N) (s : str) (cur : str) : list str :=
  match s with
  | [] => [rev cur]
  | c :: s' => if (c =? sep)%N then rev cur :: split_char sep s' []
               else split_char sep s' (c :: cur)
  end.

(** [s.lower()]. Only the ASCII letters are lowered: the program searches
    lowered text for CJK keywords only, which have no case and are the image
    of no other character. *)
Definition lower (s : str) : str :=
  map (fun c => if ((65 <=? c) && (c <=? 90))%N then (c + 32)%N else c) s.

(** The decimal digits of Unicode (general category Nd, what [\d] matches
    and [int] reads): the first code point of each run of ten digits 0..9,
    with the number of consecutive runs. *)
Definition decimal_runs : list (N * N) :=
  [(48, 1); (1632, 1); (1776, 1); (1984, 1); (2406, 1); (2534, 1); (2662, 1);
   (2790, 1); (2918, 1); (3046, 1); (3174, 1); (3302, 1); (3430, 1); (3558, 1);
   (3664, 1); (3792, 1); (3872, 1); (4160, 1); (4240, 1); (6112, 1); (6160, 1);
   (6470, 1); (6608, 1); (6784, 1); (6800, 1); (6992, 1); (7088, 1); (7232, 1);
   (7248, 1); (42528, 1); (43216, 1); (43264, 1); (43472, 1); (43504, 1);
   (43600, 1); (44016, 1); (65296, 1); (66720, 1); (68912, 1); (69734, 1);
   (69872, 1); (69942, 1); (70096, 1); (70384, 1); (70736, 1); (70864, 1);
   (71248, 1); (71360, 1); (71472, 1); (71904, 1); (72016, 1); (72784, 1);
   (73040, 1); (73120, 1); (92768, 1); (92864, 1); (93008, 1); (120782, 5);
   (123200, 1); (123632, 1); (125264, 1); (130032, 1)]%N.

Definition digit_value (c : N) : option N :=
  match List.find (fun r => (fst r <=? c) && (c <? fst r + 10 * snd r))%N
                  decimal_runs with
  | Some r => Some ((c - fst r) mod 10)%N
  | None => None
  end.

Definition isdecimal (c : N) : bool :=
  match digit_value c with Some _ => true | None => false end.

(** [int(s)] for a string of decimal digits (what [\d+] matched) *)
Definition int (s : str) : Z :=
  fold_left (fun acc c =>
               match digit_value c with
               | Some d => (acc * 10 + Z.of_N d)%Z
               | None => acc
               end) s 0%Z.

(** [str(n)] for a natural number *)
Fixpoint digits_of (fuel : nat) (n : N) (acc : str) : str :=
  match fuel with
  | O => acc
  | S f => let acc' := (48 + n mod 10)%N :: acc in
           if (n <? 10)%N then acc' else digits_of f (n / 10)%N acc'
  end.

Definition str_of_nat (n : nat) : str := digits_of (S n) (N.of_nat n) [].

(** [sep.join(l)] *)
Fixpoint join (sep : str) (l : list str) : str :=
  match l with
  | [] => []
  | [x] => x
  | x :: l' => x ++ sep ++ join sep l'
  end.

(** [counts[k] = counts.get(k, 0) + 1] on a dictionary kept as the list of
    its items in insertion order *)
Fixpoint count_into (k : str) (counts : list (str * nat)) : list (str * nat) :=
  match counts with
  | [] => [(k, 1)]
  | (k', v) :: t => if str_eqb k k' then (k', S v) :: t else (k', v) :: count_into k t
  end.

(** The pairs [(l[i], l[j])] for [i < j], in the order of two nested loops. *)
Fixpoint pairs {A : Type} (l : list A) : list (A * A) :=
  match l with
  | [] => []
  | x :: l' => map (pair x) l' ++ pairs l'
  end.

Definition is_some {A : Type} (o : option A) : bool :=
  match o with Some _ => true | None => false end.

Definition is_empty {A : Type} (l : list A) : bool :=
  match l with [] => true | _ :: _ => false end.

(** [float(n)] for the length of a list (exact below 2^53) *)
Definition float_of_nat (n : nat) : float :=
  Nat.iter n (fun x => (x + 1)%float) 0%float.

(** [sum(xs)] of floats, added from the left (Python 3.12 and later
    compensate the rounding of the partial sums) *)
Definition fsum (xs : list float) : float :=
  fold_left (fun acc x => (acc + x)%float) xs 0%float.

(** [min(a, b)] of two floats: [b] if it is smaller, else [a] *)
Definition fmin (a b : float) : float := if PrimFloat.ltb b a then b else a.

(** [max(a, b)] of two floats: [b] if it is greater, else [a] *)
Definition fmax (a b : float) : float := if PrimFloat.ltb a b then b else a.

End Py.

(** ** Python [re] *)

Module Re.
Import Py.

(** The patterns of the program use literals, [.], [\d], [\s], character
    sets, sequence, alternation, counted and optional repetition (greedy or
    lazy) and numbered groups. *)
Inductive regex : Type :=
| Lit (w : str)
| Any
| Digit
| Space
| OneOf (cs : str)
| Seq (r1 r2 : regex)
| Alt (r1 r2 : regex)
| Rep (lo : nat) (hi : option nat) (greedy : bool) (r : regex)
| Group (i : nat) (r : regex).

(** A matcher state: the text still to be read and the groups captured so
    far, the latest capture first. *)
Record mstate : Type := { rest : str; caps : list (nat * str) }.

Definition consumed (before after : str) : str :=
  firstn (length before - length after) before.

Definition one_char (p : N -> bool) (st : mstate) : list mstate :=
  match rest st with
  | c :: t => if p c then [{| rest := t; caps := caps st |}] else []
  | [] => []
  end.

Section Repeat.
Variable step : mstate -> list mstate.

(** exactly [n] iterations *)
Fixpoint exactly (n : nat) (st : mstate) : list mstate :=
  match n with
  | O => [st]
  | S k => flat_map (exactly k) (step st)
  end.

(** up to [n] further iterations: a greedy repetition tries one more
    iteration before it tries to stop, a lazy one the other way round *)
Fixpoint upto (n : nat) (greedy : bool) (st : mstate) : list mstate :=
  match n with
  | O => [st]
  | S k => let longer := flat_map (upto k greedy) (step st) in
           if greedy then longer ++ [st] else st :: longer
  end.
End Repeat.

(** All the ways [r] matches at the start of [rest st], in the order the
    backtracking matcher of Python tries them; the first one is the match.
    An unbounded repetition is cut at the length of the remaining text: each
    iteration of the program's patterns reads a character. *)
Fixpoint run (r : regex) (st : mstate) {struct r} : list mstate :=
  match r with
  | Lit w => if startswith w (rest st)
             then [{| rest := skipn (length w) (rest st); caps := caps st |}]
             else []
  | Any => one_char (fun c => negb (c =? newline)%N) st
  | Digit => one_char isdecimal st
  | Space => one_char isspace st
  | OneOf cs => one_char (fun c => existsb (N.eqb c) cs) st
  | Seq r1 r2 => flat_map (run r2) (run r1 st)
  | Alt r1 r2 => run r1 st ++ run r2 st
  | Rep lo hi greedy r1 =>
      let extra := match hi with
                   | Some h => h - lo
                   | None => length (rest st)
                   end in
      flat_map (upto (run r1) extra greedy) (exactly (run r1) lo st)
  | Group i r1 =>
      map (fun st' => {| rest := rest st';
                         caps := (i, consumed (rest st) (rest st')) :: caps st' |})
          (run r1 st)
  end.

(** A match object: where it starts, [group(0)] and the captured groups. *)
Record Match : Type := { m_start : nat; m_text : str; m_caps : list (nat * str) }.

Definition match_at (r : regex) (pos : nat) (s : str) : option Match :=
  match run r {| rest := s; caps := [] |} with
  | [] => None
  | st :: _ => Some {| m_start := pos; m_text := consumed s (rest st);
                       m_caps := caps st |}
  end.

(** [re.match(r, s)] *)
Definition match_ (r : regex) (s : str) : option Match := match_at r 0 s.

(** [m.group(i)], [None] for a group that took no part in the match *)
Fixpoint group (m_caps : list (nat * str)) (i : nat) : option str :=
  match m_caps with
  | [] => None
  | (j, w) :: t => if Nat.eqb i j then Some w else group t i
  end.

(** [m.groups()] for a pattern of [n] groups *)
Definition groups (n : nat) (m : Match) : list (option str) :=
  map (group (m_caps m)) (seq 1 n).

(** [re.finditer(r, s)]: the text is scanned from the left and the search
    resumes where a match ended. No pattern of the program matches the empty
    string; an empty match would be reported and the scan moved on by one
    character. [skip] characters of the last match are still to be passed. *)
Fixpoint finditer_from (r : regex) (skip pos : nat) (s : str) : list Match :=
  match s with
  | [] => []
  | _ :: s' =>
      match skip with
      | S k => finditer_from r k (S pos) s'
      | O => match match_at r pos s with
             | Some m => m :: finditer_from r (length (m_text m) - 1) (S pos) s'
             | None => finditer_from r 0 (S pos) s'
             end
      end
  end.

Definition finditer (r : regex) (s : str) : list Match := finditer_from r 0 0 s.

(** [re.search(r, s)] *)
Definition search (r : regex) (s : str) : option Match := hd_error (finditer r s).

(** [re.findall(r, s)] for a pattern without groups *)
Definition findall (r : regex) (s : str) : list str := map m_text (finditer r s).

(** [re.split(r, s)] for a pattern without groups: the pieces between the
    matches; [cur] is the piece being read, reversed. *)
Fixpoint split_from (r : regex) (skip : nat) (s : str) (cur : str) : list str :=
  match s with
  | [] => [rev cur]
  | c :: s' =>
      match skip with
      | S k => split_from r k s' cur
      | O => match match_at r 0 s with
             | Some m => match length (m_text m) with
                         | O => split_from r 0 s' (c :: cur)
                         | S k => rev cur :: split_from r k s' []
                         end
             | None => split_from r 0 s' (c :: cur)
             end
      end
  end.

Definition split (r : regex) (s : str) : list str := split_from r 0 s [].

(** [re.sub(r, '', s)]: the matches are deleted *)
Definition sub_empty (r : regex) (s : str) : str := concat (split r s).

(** Shorthands for writing the patterns as the source has them. *)
Definition alts (ws : list str) : regex :=
  match ws with
  | [] => Lit []
  | w :: ws' => fold_left (fun r w' => Alt r (Lit w')) ws' (Lit w)
  end.

Fixpoint seqs (rs : list regex) : regex :=
  match rs with
  | [] => Lit []
  | [r] => r
  | r :: rs' => Seq r (seqs rs')
  end.

Definition opt (r : regex) : regex := Rep 0 (Some 1) true r.
Definition plus (r : regex) : regex := Rep 1 None true r.
Definition star (r : regex) : regex := Rep 0 None true r.
Definition digits (lo hi : nat) : regex := Rep lo (Some hi) true Digit.
Definition lazy_any (hi : nat) : regex := Rep 0 (Some hi) false Any.

End Re.

(** ** Exceptions *)

Inductive exn : Type := ValueError | OverflowError | IndexError.

Inductive result (A : Type) : Type :=
| Ok (a : A)
| Raise (e : exn).
Arguments Ok {A} a.
Arguments Raise {A} e.

Definition bind {A B : Type} (m : result A) (k : A -> result B) : result B :=
  match m with
  | Ok a => k a
  | Raise e => Raise e
  end.

Notation "'let*' x ':=' m 'in' k" := (bind m (fun x => k))
  (at level 10, x pattern, m at level 100, k at level 200).

(** [try: ... except Exception: return None] *)
Definition catch_none {A : Type} (m : result (option A)) : option A :=
  match m with
  | Ok a => a
  | Raise _ => None
  end.

(** ** Python [datetime] and [timedelta] *)

Module Datetime.
Local Open Scope Z_scope.

Record datetime : Type := {
  year : Z; month : Z; day : Z;
  hour : Z; minute : Z; second : Z; microsecond : Z
}.

(** A [timedelta], as its length in microseconds. *)
Definition timedelta := Z.

Definition us_per_second : Z := 1000000.
Definition us_per_day : Z := 86400 * us_per_second.

Definition MINYEAR : Z := 1.
Definition MAXYEAR : Z := 9999.
Definition MAXORDINAL : Z := 3652059.

Definition _is_leap (y : Z) : bool :=
  (y mod 4 =? 0) && (negb (y mod 100 =? 0) || (y mod 400 =? 0)).

Definition _DAYS_IN_MONTH (m : Z) : Z :=
  match m with
  | 1 => 31 | 2 => 28 | 3 => 31 | 4 => 30 | 5 => 31 | 6 => 30
  | 7 => 31 | 8 => 31 | 9 => 30 | 10 => 31 | 11 => 30 | 12 => 31
  | _ => 0
  end.

Definition _DAYS_BEFORE_MONTH (m : Z) : Z :=
  match m with
  | 1 => 0 | 2 => 31 | 3 => 59 | 4 => 90 | 5 => 120 | 6 => 151
  | 7 => 181 | 8 => 212 | 9 => 243 | 10 => 273 | 11 => 304 | 12 => 334
  | _ => 0
  end.

Definition _days_in_month (y m : Z) : Z :=
  if (m =? 2) && _is_leap y then 29 else _DAYS_IN_MONTH m.

Definition _days_before_year (y : Z) : Z :=
  let y := y - 1 in y * 365 + y / 4 - y / 100 + y / 400.

Definition _days_before_month (y m : Z) : Z :=
  _DAYS_BEFORE_MONTH m + (if (2 <? m) && _is_leap y then 1 else 0).

Definition _ymd2ord (y m d : Z) : Z :=
  _days_before_year y + _days_before_month y m + d.

Definition _ord2ymd (n : Z) : Z * Z * Z :=
  let n := n - 1 in
  let n400 := n / 146097 in
  let n := n mod 146097 in
  let y := n400 * 400 + 1 in
  let n100 := n / 36524 in
  let n := n mod 36524 in
  let n4 := n / 1461 in
  let n := n mod 1461 in
  let n1 := n / 365 in
  let n := n mod 365 in
  let y := y + n100 * 100 + n4 * 4 + n1 in
  if (n1 =? 4) || (n100 =? 4) then (y - 1, 12, 31)
  else
    let leapyear := (n1 =? 3) && (negb (n4 =? 24) || (n100 =? 3)) in
    let m := Z.shiftr (n + 50) 5 in
    let preceding :=
      _DAYS_BEFORE_MONTH m + (if (2 <? m) && leapyear then 1 else 0) in
    if n <? preceding then
      let m := m - 1 in
      let preceding :=
        preceding - (_DAYS_IN_MONTH m + (if (m =? 2) && leapyear then 1 else 0)) in
      (y, m, n - preceding + 1)
    else (y, m, n - preceding + 1).

Definition valid_date (y m d : Z) : bool :=
  (MINYEAR <=? y) && (y <=? MAXYEAR) && (1 <=? m) && (m <=? 12) &&
  (1 <=? d) && (d <=? _days_in_month y m).

Definition valid_time (H M S us : Z) : bool :=
  (0 <=? H) && (H <=? 23) && (0 <=? M) && (M <=? 59) &&
  (0 <=? S) && (S <=? 59) && (0 <=? us) && (us <=? 999999).

(** [datetime(y, m, d, H, M)]: a [ValueError] for a field out of range *)
Definition mk_datetime (y m d H M : Z) : result datetime :=
  if valid_date y m d && valid_time H M 0 0
  then Ok {| year := y; month := m; day := d;
             hour := H; minute := M; second := 0; microsecond := 0 |}
  else Raise ValueError.

(** [dt.replace(hour=H, minute=M, second=0, microsecond=0)] *)
Definition replace_time (dt : datetime) (H M : Z) : result datetime :=
  if valid_time H M 0 0
  then Ok {| year := year dt; month := month dt; day := day dt;
             hour := H; minute := M; second := 0; microsecond := 0 |}
  else Raise ValueError.

Definition toordinal (dt : datetime) : Z := _ymd2ord (year dt) (month dt) (day dt).

(** The microseconds from the start of day 0 of the proleptic calendar. *)
Definition to_us (dt : datetime) : Z :=
  toordinal dt * us_per_day +
  ((hour dt * 60 + minute dt) * 60 + second dt) * us_per_second + microsecond dt.

(** [dt - delta]: an [OverflowError] when the day leaves 1..MAXORDINAL
    (a [timedelta] too long to be built raises the same error before). *)
Definition sub_timedelta (dt : datetime) (delta : timedelta) : result datetime :=
  let t := to_us dt - delta in
  let days := t / us_per_day in
  let r := t mod us_per_day in
  if (0 <? days) && (days <=? MAXORDINAL) then
    let '(y, m, d) := _ord2ymd days in
    let secs := r / us_per_second in
    Ok {| year := y; month := m; day := d;
          hour := secs / 3600; minute := (secs mod 3600) / 60;
          second := secs mod 60; microsecond := r mod us_per_second |}
  else Raise OverflowError.

Definition days (n : Z) : timedelta := n * us_per_day.
Definition hours (n : Z) : timedelta := n * 3600 * us_per_second.
Definition minutes (n : Z) : timedelta := n * 60 * us_per_second.

(** [a - b] for two datetimes *)
Definition diff (a b : datetime) : timedelta := to_us a - to_us b.

(** [td.days] and [td.seconds] of the normalised timedelta *)
Definition td_days (td : timedelta) : Z := td / us_per_day.
Definition td_seconds (td : timedelta) : Z := (td mod us_per_day) / us_per_second.

(** Python compares naive datetimes field by field. *)
Definition fields (dt : datetime) : list Z :=
  [year dt; month dt; day dt; hour dt; minute dt; second dt; microsecond dt].

Fixpoint lex_compare (a b : list Z) : comparison :=
  match a, b with
  | x :: a', y :: b' => match x ?= y with
                        | Eq => lex_compare a' b'
                        | c => c
                        end
  | [], [] => Eq
  | [], _ :: _ => Lt
  | _ :: _, [] => Gt
  end.

Definition compare (a b : datetime) : comparison := lex_compare (fields a) (fields b).

Definition leb (a b : datetime) : bool :=
  match compare a b with Gt => false | _ => true end.

Definition ltb (a b : datetime) : bool :=
  match compare a b with Lt => true | _ => false end.

Definition max : datetime :=
  {| year := 9999; month := 12; day := 31;
     hour := 23; minute := 59; second := 59; microsecond := 999999 |}.

End Datetime.

(** ** The wall clock

    [datetime.now()] is the only effect of the program besides exceptions.
    A computation receives the successive readings of the clock and the
    number of readings already taken. *)

Definition clock : Type := nat -> Datetime.datetime.

Definition IO (A : Type) : Type := clock -> nat -> result (A * nat).

Definition ret {A : Type} (a : A) : IO A := fun _ n => Ok (a, n).

Definition bindIO {A B : Type} (m : IO A) (k : A -> IO B) : IO B :=
  fun clk n =>
    match m clk n with
    | Ok (a, n') => k a clk n'
    | Raise e => Raise e
    end.

Definition lift {A : Type} (r : result A) : IO A :=
  fun _ n => match r with Ok a => Ok (a, n) | Raise e => Raise e end.

(** [datetime.now()] *)
Definition now : IO Datetime.datetime := fun clk n => Ok (clk n, S n).

Notation "'let!' x ':=' m 'in' k" := (bindIO m (fun x => k))
  (at level 10, x pattern, m at level 100, k at level 200).

(** ** Reported text

    An f-string whose value is only reported is kept as the list of its
    pieces, each a constant or an argument with its format. *)

Inductive piece : Type :=
| PStr (s : Py.str)                                   (* text *)
| PInt (z : Z)                                        (* {n} *)
| PFloat2 (x : float)                                 (* {x:.2f} *)
| PDatetime (d : Datetime.datetime)                   (* {dt} *)
| PTimedelta (t : Datetime.timedelta)                 (* {td} *)
| PStrftime (fmt : Py.str) (d : Datetime.datetime).   (* {dt.strftime(fmt)} *)

Definition fstring : Type := list piece.

(** ** time_series_analyzer.py *)

Inductive TimePrecision : Type := YEAR | MONTH | DAY | HOUR | MINUTE | SECOND.

Module Timestamp.
Record t : Type := {
  id : Py.str;
  text : Py.str;
  datetime : option Datetime.datetime;
  precision : TimePrecision;
  event : Py.str;
  confidence : float;
  is_estimate : bool
}.
End Timestamp.

Module TimeInterval.
Record t : Type := {
  start : Timestamp.t;
  end_ : Timestamp.t;
  duration : option Datetime.timedelta;
  description : Py.str
}.
End TimeInterval.

Module Conflict.
Record t : Type := {
  id : Py.str;
  type : Py.str;
  description : fstring;
  timestamps : list Timestamp.t;
  severity : Py.str
}.
End Conflict.

Module Timeline.
Import Py.

Record t : Type := {
  id : str;
  timestamps : list Timestamp.t;
  intervals : list TimeInterval.t;
  conflicts : list Conflict.t
}.

(** [list.sort(key=...)] on datetime keys. Python's sort is stable, so its
    result is the one of any stable sort; this is insertion sort, each
    element entering before the first element that is not smaller. *)
Section Sort.
Variable A : Type.
Variable key : A -> Datetime.datetime.

Fixpoint insert (x : A) (l : list A) : list A :=
  match l with
  | [] => [x]
  | y :: l' => if Datetime.leb (key x) (key y) then x :: l else y :: insert x l'
  end.

Fixpoint sort_by (l : list A) : list A :=
  match l with
  | [] => []
  | x :: l' => insert x (sort_by l')
  end.
End Sort.

(** [t.datetime or datetime.max] *)
Definition datetime_or_max (ts : Timestamp.t) : Datetime.datetime :=
  match Timestamp.datetime ts with
  | Some d => d
  | None => Datetime.max
  end.

Definition add_timestamp (self : t) (timestamp : Timestamp.t) : t :=
  {| id := id self;
     timestamps := sort_by datetime_or_max (timestamps self ++ [timestamp]);
     intervals := intervals self;
     conflicts := conflicts self |}.

(** [t.datetime and t.datetime < dt], and the like *)
Definition resolved_and (p : Datetime.datetime -> bool) (ts : Timestamp.t) : bool :=
  match Timestamp.datetime ts with
  | Some d => p d
  | None => false
  end.

Definition get_timestamps_before (self : t) (dt : Datetime.datetime) : list Timestamp.t :=
  filter (resolved_and (fun d => Datetime.ltb d dt)) (timestamps self).

Definition get_timestamps_after (self : t) (dt : Datetime.datetime) : list Timestamp.t :=
  filter (resolved_and (fun d => Datetime.ltb dt d)) (timestamps self).

Definition get_timestamps_between (self : t) (start end_ : Datetime.datetime)
    : list Timestamp.t :=
  filter (resolved_and (fun d => Datetime.leb start d && Datetime.leb d end_))
         (timestamps self).

End Timeline.

Module TimeSeriesAnalyzer.
Import Py Re Datetime.

(** The state of an analyser object, set by [__init__]. *)
Record self_t : Type := {
  current_year : Z;
  recent_date_reference : option datetime
}.

Definition __init__ : IO self_t :=
  let! n := now in
  ret {| current_year := year n; recent_date_reference := None |}.

Definition TimePrecision_value (p : TimePrecision) : str :=
  match p with
  | YEAR => u "年" | MONTH => u "月" | DAY => u "日"
  | HOUR => u "时" | MINUTE => u "分" | SECOND => u "秒"
  end.

Definition ymd : list regex :=
  [Group 1 (digits 4 4); Lit (u "年"); Group 2 (digits 1 2); Lit (u "月");
   Group 3 (digits 1 2); Lit (u "日")].

Definition md : list regex :=
  [Group 1 (digits 1 2); Lit (u "月"); Group 2 (digits 1 2); Lit (u "日")].

(** [\s*(\d{1,2})[点时](\d{1,2})?分?] with groups [g] and [g+1] *)
Definition hm_dian (g : nat) : list regex :=
  [star Space; Group g (digits 1 2); OneOf (u "点时");
   opt (Group (S g) (digits 1 2)); opt (Lit (u "分"))].

(** [\s*(\d{1,2}):(\d{2})] with groups [g] and [g+1] *)
Definition hm_colon (g : nat) : list regex :=
  [star Space; Group g (digits 1 2); Lit (u ":"); Group (S g) (digits 2 2)].

(** [WORD(\d{1,2})[点时](\d{1,2})?分?] *)
Definition oral (word : string) : regex :=
  seqs [Lit (u word); Group 1 (digits 1 2); OneOf (u "点时");
        opt (Group 2 (digits 1 2)); opt (Lit (u "分"))].

(** The table of [extract_timestamps]. [TimePrecision] has no member
    [WEEK], so the entry of [上周] carries [DAY]. *)
Definition patterns : list (regex * TimePrecision) :=
  [ (seqs (ymd ++ hm_dian 4), MINUTE);
    (seqs (ymd ++ hm_colon 4), MINUTE);
    (seqs ymd, DAY);
    (seqs (md ++ hm_dian 3), MINUTE);
    (seqs (md ++ hm_colon 3), MINUTE);
    (seqs md, DAY);
    (Group 1 (alts [u "今天"; u "今日"]), DAY);
    (Group 1 (alts [u "昨天"; u "昨日"]), DAY);
    (Group 1 (Lit (u "前天")), DAY);
    (Group 1 (Lit (u "大前天")), DAY);
    (seqs [Group 1 (plus Digit); Lit (u "天前")], DAY);
    (seqs [Group 1 (plus Digit); Lit (u "小时前")], HOUR);
    (seqs [Group 1 (plus Digit); Lit (u "分钟前")], MINUTE);
    (Lit (u "上周"), DAY);
    (seqs [Lit (u "上周"); Group 1 Digit], DAY);
    (alts [u "上个月"; u "上上月"], MONTH);
    (Group 1 (alts [u "今年"; u "去年"; u "前年"]), YEAR);
    (oral "早上", MINUTE);
    (oral "下午", MINUTE);
    (oral "晚上", MINUTE);
    (oral "中午", MINUTE);
    (seqs [Group 1 (digits 1 2); Lit (u "点"); opt (Group 2 (digits 1 2));
           Lit (u "分")], MINUTE);
    (seqs [Group 1 (digits 1 2); Lit (u "点"); Group 2 (OneOf (u "半"))], MINUTE) ].

(** [int(m.group(i))]; the groups read by the program take part in every
    match of their patterns *)
Definition int_group (m : Match) (i : nat) : result Z :=
  match group (m_caps m) i with
  | Some w => Ok (int w)
  | None => Raise ValueError
  end.

(** The two date patterns of [_determine_reference_date]. *)
Definition date_patterns : list regex :=
  [ seqs ymd;
    seqs [Group 1 (digits 4 4); Lit (u "-"); Group 2 (digits 1 2); Lit (u "-");
          Group 3 (digits 1 2)] ].

(** The first absolute date of the text, else the current time. The
    [datetime(...)] call is not guarded: a date out of range raises. *)
Fixpoint reference_from (pats : list regex) (text : str) : IO datetime :=
  match pats with
  | [] => now
  | pattern :: pats' =>
      match search pattern text with
      | Some m =>
          lift (let* y := int_group m 1 in
                let* mo := int_group m 2 in
                let* d := int_group m 3 in
                mk_datetime y mo d 0 0)
      | None => reference_from pats' text
      end
  end.

Definition _determine_reference_date (text event_context : str) : IO datetime :=
  reference_from date_patterns text.

(** [int(parts[i])] *)
Definition int_at (parts : list str) (i : nat) : result Z :=
  match nth_error parts i with
  | Some w => Ok (int w)
  | None => Raise IndexError
  end.

Definition is_match (r : regex) (s : str) : bool :=
  match match_ r s with Some _ => true | None => false end.

Definition midnight (dt : datetime) : result datetime := replace_time dt 0 0.

(** The minute of a colloquial time: [(\d+)分] if present, else 30 for [半] *)
Definition minute_of (text : str) : result Z :=
  match search (seqs [Group 1 (plus Digit); Lit (u "分")]) text with
  | Some minute_match => int_group minute_match 1
  | None => Ok (if contains (u "半") text then 30 else 0)%Z
  end.

(** The body of the [try] of [_parse_datetime]; the branches are tested in
    the order of the source. *)
Definition parse_body (text : str) (reference : datetime)
    (precision : TimePrecision) : result (option datetime) :=
  if is_match (seqs [digits 4 4; Lit (u "年"); digits 1 2; Lit (u "月");
                     digits 1 2; Lit (u "日")]) text then
    let parts := findall (plus Digit) text in
    if 3 <=? length parts then
      let* y := int_at parts 0 in
      let* mo := int_at parts 1 in
      let* d := int_at parts 2 in
      let* hm := (if 5 <=? length parts then
                    let* h := int_at parts 3 in
                    let* mi := int_at parts 4 in Ok (h, mi)
                  else if length parts =? 4 then
                    let* h := int_at parts 3 in Ok (h, 0%Z)
                  else Ok (0%Z, 0%Z)) in
      let* dt := mk_datetime y mo d (fst hm) (snd hm) in
      Ok (Some dt)
    else Ok None
  else if is_match (seqs [digits 1 2; Lit (u "月"); digits 1 2; Lit (u "日")]) text then
    let parts := findall (plus Digit) text in
    if 2 <=? length parts then
      let* mo := int_at parts 0 in
      let* d := int_at parts 1 in
      let y := year reference in
      let* hm := (if 4 <=? length parts then
                    let* h := int_at parts 2 in
                    let* mi := int_at parts 3 in Ok (h, mi)
                  else if length parts =? 3 then
                    let* h := int_at parts 2 in Ok (h, 0%Z)
                  else Ok (0%Z, 0%Z)) in
      let* dt := mk_datetime y mo d (fst hm) (snd hm) in
      Ok (Some dt)
    else Ok None
  else if contains (u "今天") text || contains (u "今日") text then
    let* dt := midnight reference in Ok (Some dt)
  else if contains (u "昨天") text || contains (u "昨日") text then
    let* r := sub_timedelta reference (days 1) in
    let* dt := midnight r in Ok (Some dt)
  else if contains (u "前天") text then
    let* r := sub_timedelta reference (days 2) in
    let* dt := midnight r in Ok (Some dt)
  else if contains (u "大前天") text then
    let* r := sub_timedelta reference (days 3) in
    let* dt := midnight r in Ok (Some dt)
  else if is_match (seqs [plus Digit; Lit (u "天前")]) text then
    let* n := int_at (findall (plus Digit) text) 0 in
    let* dt := sub_timedelta reference (days n) in Ok (Some dt)
  else if is_match (seqs [plus Digit; Lit (u "小时前")]) text then
    let* n := int_at (findall (plus Digit) text) 0 in
    let* dt := sub_timedelta reference (hours n) in Ok (Some dt)
  else if is_match (seqs [plus Digit; Lit (u "分钟前")]) text then
    let* n := int_at (findall (plus Digit) text) 0 in
    let* dt := sub_timedelta reference (minutes n) in Ok (Some dt)
  else if is_match (seqs [OneOf (u "早中晚"); opt (Lit (u "上")); plus Digit;
                          OneOf (u "点时")]) text then
    let* h := int_at (findall (plus Digit) text) 0 in
    let h := (if contains (u "下午") text || contains (u "晚上") text then
                if negb (h =? 12) then h + 12 else h
              else if contains (u "中午") text then 12
              else h)%Z in
    let* mi := minute_of text in
    let* dt := replace_time reference h mi in Ok (Some dt)
  else if is_match (seqs [plus Digit; Lit (u "点"); opt Digit; opt (Lit (u "分"))]) text then
    let* h := int_at (findall (plus Digit) text) 0 in
    let* mi := minute_of text in
    let h := (if h <? 12 then h + 12 else h)%Z in
    let* dt := replace_time reference h mi in Ok (Some dt)
  else Ok None.

Definition _parse_datetime (text : str) (reference : datetime)
    (precision : TimePrecision) : option datetime :=
  catch_none (parse_body text reference precision).

Definition _extract_event_context (time_text full_text : str) : str :=
  match find time_text full_text with
  | None => []
  | Some idx =>
      let start := idx - 50 in
      let end_ := Nat.min (length full_text) (idx + length time_text + 50) in
      let context := strip (slice full_text start end_) in
      strip (replace context time_text [])
  end.

(** [max(group, key=lambda x: x.confidence)]: the first of the greatest *)
Definition best_of (first : Timestamp.t) (others : list Timestamp.t) : Timestamp.t :=
  fold_left (fun best x =>
               if PrimFloat.ltb (Timestamp.confidence best) (Timestamp.confidence x)
               then x else best) others first.

(** The groups of the dictionary, in the order their keys were inserted. *)
Fixpoint group_by_text (timestamps : list Timestamp.t)
    (groups : list (str * list Timestamp.t)) : list (str * list Timestamp.t) :=
  match timestamps with
  | [] => groups
  | ts :: rest =>
      let key := Timestamp.text ts in
      let groups' :=
        if existsb (fun g => str_eqb key (fst g)) groups
        then map (fun g => if str_eqb key (fst g) then (fst g, snd g ++ [ts]) else g)
                 groups
        else groups ++ [(key, [ts])] in
      group_by_text rest groups'
  end.

Definition _deduplicate_timestamps (timestamps : list Timestamp.t) : list Timestamp.t :=
  flat_map (fun g => match snd g with
                     | [] => []
                     | first :: others => [best_of first others]
                     end)
           (group_by_text timestamps []).

Definition extract_timestamps (text event_context : str) : IO (list Timestamp.t) :=
  let! reference_date := _determine_reference_date text event_context in
  let '(timestamps, _) :=
    fold_left
      (fun st pp =>
         fold_left
           (fun '(timestamps, fact_id) m =>
              let matched_text := m_text m in
              let dt := _parse_datetime matched_text reference_date (snd pp) in
              let timestamp :=
                {| Timestamp.id := u "timestamp_" ++ str_of_nat fact_id;
                   Timestamp.text := matched_text;
                   Timestamp.datetime := dt;
                   Timestamp.precision := snd pp;
                   Timestamp.event := _extract_event_context matched_text text;
                   Timestamp.confidence := if is_some dt then 0.9 else 0.7;
                   Timestamp.is_estimate := negb (is_some dt) |} in
              (timestamps ++ [timestamp], S fact_id))
           (finditer (fst pp) text) st)
      patterns ([], 1) in
  ret (_deduplicate_timestamps timestamps).

(** The intervals between neighbours that both have a time. *)
Fixpoint intervals_of (l : list Timestamp.t) : list TimeInterval.t :=
  match l with
  | a :: ((b :: _) as l') =>
      match Timestamp.datetime a, Timestamp.datetime b with
      | Some da, Some db =>
          [{| TimeInterval.start := a;
              TimeInterval.end_ := b;
              TimeInterval.duration := Some (diff db da);
              TimeInterval.description :=
                Timestamp.event a ++ u " → " ++ Timestamp.event b |}]
      | _, _ => []
      end ++ intervals_of l'
  | _ => []
  end.

Definition build_timeline (timestamps : list Timestamp.t) (event_context : str)
    : Timeline.t :=
  let timeline := {| Timeline.id := u "timeline_1"; Timeline.timestamps := [];
                     Timeline.intervals := []; Timeline.conflicts := [] |} in
  (* the key of this first sort is t.datetime, on resolved timestamps only *)
  let valid_timestamps :=
    Timeline.sort_by Timeline.datetime_or_max
      (filter (fun t => is_some (Timestamp.datetime t)) timestamps) in
  let timeline := fold_left Timeline.add_timestamp valid_timestamps timeline in
  {| Timeline.id := Timeline.id timeline;
     Timeline.timestamps := Timeline.timestamps timeline;
     Timeline.intervals :=
       Timeline.intervals timeline ++ intervals_of (Timeline.timestamps timeline);
     Timeline.conflicts := Timeline.conflicts timeline |}.

(** Called on resolved timestamps only. The list [before_keywords] of the
    source is never read. *)
Definition _has_logical_order_conflict (ts1 ts2 : Timestamp.t) : bool :=
  let after_keywords :=
    [u "之后"; u "后"; u "后"; u "然后"; u "接着"; u "第二"] in
  existsb (fun kw =>
             contains kw (Timestamp.event ts1) &&
             match Timestamp.datetime ts1, Timestamp.datetime ts2 with
             | Some d1, Some d2 => Datetime.ltb d1 d2
             | _, _ => false
             end) after_keywords.

Definition _should_be_continuous (interval : TimeInterval.t) : bool :=
  any_in [u "后"; u "立即"; u "马上"; u "随即"; u "接着"]
         (lower (TimeInterval.description interval)).

Definition _should_have_gap (interval : TimeInterval.t) : bool :=
  any_in [u "后"; u "一段时间"; u "过了一会"; u "然后"]
         (lower (TimeInterval.description interval)).

Definition _detect_precision_conflicts (timestamps : list Timestamp.t) : list str :=
  let precision_counts :=
    fold_left (fun counts ts =>
                 count_into (TimePrecision_value (Timestamp.precision ts)) counts)
              timestamps [] in
  if 1 <? length precision_counts
  then [u "时间精度不一致: " ++
        join (u ", ") (map (fun kv => fst kv ++ u ":" ++ str_of_nat (snd kv))
                           precision_counts)]
  else [].

(** [conflicts.append(Conflict(id=f"conflict_{conflict_id}", ...))] followed
    by [conflict_id += 1] *)
Definition append_conflict (st : list Conflict.t * nat)
    (type : str) (description : fstring) (timestamps : list Timestamp.t)
    (severity : str) : list Conflict.t * nat :=
  (fst st ++ [{| Conflict.id := u "conflict_" ++ str_of_nat (snd st);
                 Conflict.type := type;
                 Conflict.description := description;
                 Conflict.timestamps := timestamps;
                 Conflict.severity := severity |}],
   S (snd st)).

Definition order_conflicts (timestamps : list Timestamp.t)
    (st : list Conflict.t * nat) : list Conflict.t * nat :=
  fold_left
    (fun st '(ts1, ts2) =>
       match Timestamp.datetime ts1, Timestamp.datetime ts2 with
       | Some d1, Some d2 =>
           if _has_logical_order_conflict ts1 ts2 then
             append_conflict st (u "order")
               [PStr (u "时间顺序矛盾: "); PStr (Timestamp.event ts1); PStr (u " (");
                PStr (Timestamp.text ts1); PStr (u ") 发生于 "); PDatetime d1;
                PStr (u ", 但应在 "); PStr (Timestamp.event ts2); PStr (u " (");
                PStr (Timestamp.text ts2); PStr (u ") ("); PDatetime d2;
                PStr (u ") 之后")]
               [ts1; ts2] (u "high")
           else st
       | _, _ => st
       end)
    (pairs timestamps) st.

(** [if interval.duration:] holds for a duration that is present and not
    zero. [total_seconds()] is compared with a whole number of seconds, which
    the rounding to a float cannot cross, so the microseconds are compared. *)
Definition duration_conflicts (intervals : list TimeInterval.t)
    (st : list Conflict.t * nat) : list Conflict.t * nat :=
  fold_left
    (fun st interval =>
       match TimeInterval.duration interval with
       | Some d =>
           if (d =? 0)%Z then st else
           let st :=
             if (24 * 3600 * us_per_second <? d)%Z && _should_be_continuous interval
             then append_conflict st (u "duration")
                    [PStr (u "时间间隔异常: "); PStr (TimeInterval.description interval);
                     PStr (u " 间隔 "); PTimedelta d; PStr (u ", 可能存在问题")]
                    [TimeInterval.start interval; TimeInterval.end_ interval]
                    (u "medium")
             else st in
           if (d <? 60 * us_per_second)%Z && _should_have_gap interval
           then append_conflict st (u "duration")
                  [PStr (u "时间间隔过短: "); PStr (TimeInterval.description interval);
                   PStr (u " 间隔仅 "); PTimedelta d; PStr (u ", 可能不足以完成")]
                  [TimeInterval.start interval; TimeInterval.end_ interval]
                  (u "low")
           else st
       | None => st
       end)
    intervals st.

Definition precision_conflicts (timestamps : list Timestamp.t)
    (st : list Conflict.t * nat) : list Conflict.t * nat :=
  fold_left (fun st conflict => append_conflict st (u "precision") [PStr conflict] []
                                  (u "low"))
            (_detect_precision_conflicts timestamps) st.

(** Returns the conflicts and the timeline with [timeline.conflicts] set. *)
Definition detect_time_conflicts (timeline : Timeline.t)
    : Timeline.t * list Conflict.t :=
  let timestamps := Timeline.timestamps timeline in
  let st := order_conflicts timestamps ([], 1) in
  let st := duration_conflicts (Timeline.intervals timeline) st in
  let st := precision_conflicts timestamps st in
  let conflicts := fst st in
  ({| Timeline.id := Timeline.id timeline;
      Timeline.timestamps := Timeline.timestamps timeline;
      Timeline.intervals := Timeline.intervals timeline;
      Timeline.conflicts := conflicts |}, conflicts).

(** *** [analyze_time_logic]: the dictionaries it returns, as records *)

Module TimelineSummary.
Record t : Type := {
  total_timestamps : nat;
  time_range : fstring;
  total_duration : fstring
}.
End TimelineSummary.

(** An entry of [time_patterns["time_intervals"]] or of [time_gaps]. The
    key [duration_minutes] (or [duration_hours]) holds
    [duration.total_seconds()] divided by 60 (or 3600); the duration itself
    is kept here. [note] is absent from the pattern entries. *)
Module IntervalReport.
Record t : Type := {
  start : option fstring;
  end_ : option fstring;
  duration : Datetime.timedelta;
  description : str;
  note : option str
}.
End IntervalReport.

Module TimePatterns.
Record t : Type := {
  time_distribution : list IntervalReport.t;
  time_clustering : list IntervalReport.t;
  time_intervals : list IntervalReport.t
}.
End TimePatterns.

Module CriticalTimestamp.
Record t : Type := {
  time : fstring;
  event : str;
  precision : str;
  reason : str;
  original_text : str
}.
End CriticalTimestamp.

Module LogicAnalysis.
Record t : Type := {
  logic_valid : bool;
  logic_issues : list fstring;
  time_sequence : str
}.
End LogicAnalysis.

Module TimeLogic.
Record t : Type := {
  timeline_summary : TimelineSummary.t;
  time_patterns : TimePatterns.t;
  time_gaps : list IntervalReport.t;
  critical_timestamps : list CriticalTimestamp.t;
  time_conflicts : list Conflict.t;
  logic_analysis : LogicAnalysis.t;
  recommendations : list fstring
}.
End TimeLogic.

Definition resolved (timestamps : list Timestamp.t) : list datetime :=
  flat_map (fun t => match Timestamp.datetime t with
                     | Some d => [d]
                     | None => []
                     end) timestamps.

(** [min(l, key=...)] and [max(l, key=...)] keep the first of equal keys. *)
Definition earliest (first : datetime) (others : list datetime) : datetime :=
  fold_left (fun best x => if Datetime.ltb x best then x else best) others first.

Definition latest (first : datetime) (others : list datetime) : datetime :=
  fold_left (fun best x => if Datetime.ltb best x then x else best) others first.

Definition fmt_minute : str := u "%Y-%m-%d %H:%M".

Definition _get_time_range (timeline : Timeline.t) : fstring :=
  match Timeline.timestamps timeline with
  | [] => [PStr (u "无时间信息")]
  | _ =>
      match resolved (Timeline.timestamps timeline) with
      | [] => [PStr (u "无有效时间信息")]
      | d :: ds =>
          [PStrftime fmt_minute (earliest d ds); PStr (u " → ");
           PStrftime fmt_minute (latest d ds)]
      end
  end.

Definition _calculate_total_duration (timeline : Timeline.t) : fstring :=
  match resolved (Timeline.timestamps timeline) with
  | d :: ((_ :: _) as ds) =>
      let duration := diff (latest d ds) (earliest d ds) in
      let days := td_days duration in
      let hours := (td_seconds duration / 3600)%Z in
      let minutes := ((td_seconds duration mod 3600) / 60)%Z in
      if (0 <? days)%Z then [PInt days; PStr (u "天"); PInt hours; PStr (u "小时")]
      else if (0 <? hours)%Z
           then [PInt hours; PStr (u "小时"); PInt minutes; PStr (u "分钟")]
           else [PInt minutes; PStr (u "分钟")]
  | _ => [PStr (u "无法计算")]
  end.

Definition strftime_opt (fmt : str) (ts : Timestamp.t) : option fstring :=
  match Timestamp.datetime ts with
  | Some d => Some [PStrftime fmt d]
  | None => None
  end.

(** [duration] present and not zero *)
Definition truthy_duration (interval : TimeInterval.t) : option timedelta :=
  match TimeInterval.duration interval with
  | Some d => if (d =? 0)%Z then None else Some d
  | None => None
  end.

Definition _analyze_time_patterns (timeline : Timeline.t) : TimePatterns.t :=
  {| TimePatterns.time_distribution := [];
     TimePatterns.time_clustering := [];
     TimePatterns.time_intervals :=
       if 2 <=? length (Timeline.timestamps timeline) then
         flat_map
           (fun interval =>
              match truthy_duration interval with
              | Some d =>
                  [{| IntervalReport.start :=
                        strftime_opt (u "%H:%M") (TimeInterval.start interval);
                      IntervalReport.end_ :=
                        strftime_opt (u "%H:%M") (TimeInterval.end_ interval);
                      IntervalReport.duration := d;
                      IntervalReport.description := TimeInterval.description interval;
                      IntervalReport.note := None |}]
              | None => []
              end)
           (Timeline.intervals timeline)
       else [] |}.

Definition long_gap (interval : TimeInterval.t) : option timedelta :=
  match truthy_duration interval with
  | Some d => if (3600 * us_per_second <? d)%Z then Some d else None
  | None => None
  end.

Definition _analyze_time_gaps (timeline : Timeline.t) : list IntervalReport.t :=
  if length (Timeline.timestamps timeline) <? 2 then []
  else
    flat_map
      (fun interval =>
         match long_gap interval with
         | Some d =>
             [{| IntervalReport.start :=
                   strftime_opt fmt_minute (TimeInterval.start interval);
                 IntervalReport.end_ :=
                   strftime_opt fmt_minute (TimeInterval.end_ interval);
                 IntervalReport.duration := d;
                 IntervalReport.description := TimeInterval.description interval;
                 IntervalReport.note := Some (u "此时间段较长,可能有其他事件未记录") |}]
         | None => []
         end)
      (Timeline.intervals timeline).

Definition critical_keywords : list str :=
  [u "报警"; u "投诉"; u "发布"; u "支付"; u "退款"; u "冲突"; u "争执"].

Definition _identify_critical_timestamps (timeline : Timeline.t)
    : list CriticalTimestamp.t :=
  flat_map
    (fun ts =>
       if any_in critical_keywords (Timestamp.event ts) then
         [{| CriticalTimestamp.time :=
               match Timestamp.datetime ts with
               | Some d => [PStrftime fmt_minute d]
               | None => [PStr (Timestamp.text ts)]
               end;
             CriticalTimestamp.event := Timestamp.event ts;
             CriticalTimestamp.precision := TimePrecision_value (Timestamp.precision ts);
             CriticalTimestamp.reason := u "涉及关键事件";
             CriticalTimestamp.original_text := Timestamp.text ts |}]
       else [])
    (Timeline.timestamps timeline).

(** [c.severity in ["critical", "high"]] *)
Definition high_severity (c : Conflict.t) : bool :=
  mem (Conflict.severity c) [u "critical"; u "high"].

Definition _analyze_logic (timeline : Timeline.t) : LogicAnalysis.t :=
  let conflicts := Timeline.conflicts timeline in
  {| LogicAnalysis.logic_valid := is_empty conflicts;
     LogicAnalysis.logic_issues :=
       if is_empty conflicts then []
       else map Conflict.description (filter high_severity conflicts);
     LogicAnalysis.time_sequence :=
       if negb (is_empty conflicts) && negb (is_empty (filter high_severity conflicts))
       then u "存在矛盾" else u "正常" |}.

Definition low_precision (ts : Timestamp.t) : bool :=
  match Timestamp.precision ts with
  | YEAR | MONTH => true
  | _ => false
  end.

Definition _generate_recommendations (timeline : Timeline.t) : list fstring :=
  let low_precision_count :=
    length (filter low_precision (Timeline.timestamps timeline)) in
  let high_conflicts := filter high_severity (Timeline.conflicts timeline) in
  let long_gaps :=
    filter (fun i => is_some (long_gap i)) (Timeline.intervals timeline) in
  let recommendations :=
    (if 0 <? low_precision_count
     then [[PStr (u "⚠️ 有 "); PInt (Z.of_nat low_precision_count);
            PStr (u " 个时间点精度较低(年/月级),建议补充更精确的时间")]]
     else []) ++
    (if is_empty high_conflicts then []
     else [[PStr (u "⚠️ 发现 "); PInt (Z.of_nat (length high_conflicts));
            PStr (u " 个高严重性的时间冲突,需要核实")]]) ++
    (if (0 <? length (Timeline.intervals timeline)) && negb (is_empty long_gaps)
     then [[PStr (u "ℹ️ 有 "); PInt (Z.of_nat (length long_gaps));
            PStr (u " 个较长的时间间隔,确认是否有遗漏的事件")]]
     else []) in
  if is_empty recommendations
  then [[PStr (u "✅ 时间线逻辑清晰,无明显问题")]]
  else recommendations.

Definition analyze_time_logic (timeline : Timeline.t) : TimeLogic.t :=
  {| TimeLogic.timeline_summary :=
       {| TimelineSummary.total_timestamps := length (Timeline.timestamps timeline);
          TimelineSummary.time_range := _get_time_range timeline;
          TimelineSummary.total_duration := _calculate_total_duration timeline |};
     TimeLogic.time_patterns := _analyze_time_patterns timeline;
     TimeLogic.time_gaps := _analyze_time_gaps timeline;
     TimeLogic.critical_timestamps := _identify_critical_timestamps timeline;
     TimeLogic.time_conflicts := Timeline.conflicts timeline;
     TimeLogic.logic_analysis := _analyze_logic timeline;
     TimeLogic.recommendations := _generate_recommendations timeline |}.

(** The module-level [analyze_time_series]: it builds its own analyser. *)
Definition analyze_time_series (text event_context : str) : IO TimeLogic.t :=
  let! analyzer := __init__ in
  let! timestamps := extract_timestamps text event_context in
  let timeline := build_timeline timestamps event_context in
  let timeline := fst (detect_time_conflicts timeline) in
  ret (analyze_time_logic timeline).

End TimeSeriesAnalyzer.

(** ** causal_reasoner.py *)

Inductive CausalType : Type := DIRECT | INDIRECT | NECESSARY | SUFFICIENT | CONTRIBUTORY.

Inductive CausalStrength : Type := STRONG | MODERATE | WEAK.

Module CausalRelation.
Record t : Type := {
  id : Py.str;
  cause : Py.str;
  effect : Py.str;
  causal_type : CausalType;
  strength : CausalStrength;
  confidence : float;
  evidence : list Py.str;
  intermediate_factors : list Py.str;
  description : Py.str
}.
End CausalRelation.

Module CausalChain.
Import Py.

Record t : Type := {
  id : str;
  relations : list CausalRelation.t;
  root_cause : str;
  final_effect : str;
  completeness : float;
  gaps : list str
}.

(** [if not self.root_cause] holds for the empty string. *)
Definition add_relation (self : t) (relation : CausalRelation.t) : t :=
  {| id := id self;
     relations := relations self ++ [relation];
     root_cause := if is_empty (root_cause self)
                   then CausalRelation.cause relation else root_cause self;
     final_effect := CausalRelation.effect relation;
     completeness := completeness self;
     gaps := gaps self |}.

(** [if x not in path: path.append(x)] *)
Definition append_new (path : list str) (x : str) : list str :=
  if mem x path then path else path ++ [x].

Definition get_path (self : t) : list str :=
  fold_left (fun path rel =>
               append_new (append_new path (CausalRelation.cause rel))
                          (CausalRelation.effect rel))
            (relations self) [].

End CausalChain.

Module CausalGap.
Record t : Type := {
  id : Py.str;
  from_event : Py.str;
  to_event : Py.str;
  gap_type : Py.str;
  description : Py.str;
  possible_causes : list Py.str
}.
End CausalGap.

(** The dictionary of [_analyze_root_cause]; two of its keys may be absent. *)
Module RootCause.
Record t : Type := {
  root_cause : Py.str;
  confidence : float;
  reason : option Py.str;
  other_possibilities : option (list Py.str)
}.
End RootCause.

Module CausalAnalysis.
Record t : Type := {
  causal_relations : list CausalRelation.t;
  causal_chains : list CausalChain.t;
  causal_gaps : list CausalGap.t;
  key_causes : list Py.str;
  key_effects : list Py.str;
  root_cause_analysis : RootCause.t;
  alternative_explanations : list Py.str
}.
End CausalAnalysis.

Module CausalReasoner.
Import Py Re.

(** [self.legal_causal_patterns] *)
Definition legal_causal_patterns : list (regex * str) :=
  [ (seqs [Lit (u "因为"); Group 1 (lazy_any 100);
           Group 2 (alts [u "所以"; u "因此"; u "因而"; u "故而"])], u "direct");
    (seqs [Lit (u "由于"); Group 1 (lazy_any 100);
           Group 2 (alts [u "导致"; u "引起"; u "造成"])], u "direct");
    (seqs [Group 1 (lazy_any 30); Group 2 (alts [u "造成"; u "引起"; u "致使"]);
           Group 3 (lazy_any 30)], u "direct");
    (seqs [Group 1 (lazy_any 100); Group 2 (alts [u "所以"; u "因此"; u "因而"]);
           Group 3 (lazy_any 100)], u "direct");
    (seqs [Group 1 (lazy_any 100); Group 2 (alts [u "进而"; u "从而"]);
           Group 3 (lazy_any 100)], u "indirect") ].

(** The number of groups of a pattern, the length of [match.groups()]. *)
Fixpoint ngroups (r : regex) : nat :=
  match r with
  | Seq r1 r2 | Alt r1 r2 => ngroups r1 + ngroups r2
  | Rep _ _ _ r1 => ngroups r1
  | Group _ r1 => S (ngroups r1)
  | _ => 0
  end.

Definition _clean_cause_effect (text : str) : str :=
  let text := sub_empty (OneOf (u "，。！？；：、,;:!?" ++ [newline])) text in
  let text :=
    sub_empty (alts [u "因为"; u "由于"; u "所以"; u "因此"; u "因而"; u "导致";
                     u "引起"; u "造成"; u "使"; u "使得"; u "致使"]) text in
  strip text.

Definition _has_implicit_causality (sentence1 sentence2 : str) : bool :=
  let time_keywords_1 := [u "先"; u "开始"; u "首先"; u "最初"] in
  let time_keywords_2 := [u "后"; u "接着"; u "然后"; u "随后"; u "最后"] in
  any_in time_keywords_1 sentence1 && any_in time_keywords_2 sentence2.

(** The loop over [range(len(sentences) - 1)], from index [i]. *)
Fixpoint implicit_from (i : nat) (sentences : list str) : list CausalRelation.t :=
  match sentences with
  | s1 :: ((s2 :: _) as sentences') =>
      let sentence1 := strip s1 in
      let sentence2 := strip s2 in
      (if (length sentence1 <? 5) || (length sentence2 <? 5) then []
       else if _has_implicit_causality sentence1 sentence2 then
         [{| CausalRelation.id := u "causal_implicit_" ++ str_of_nat i;
             CausalRelation.cause := sentence1;
             CausalRelation.effect := sentence2;
             CausalRelation.causal_type := INDIRECT;
             CausalRelation.strength := WEAK;
             CausalRelation.confidence := 0.6;
             CausalRelation.evidence := [];
             CausalRelation.intermediate_factors := [];
             CausalRelation.description :=
               u "隐式因果: " ++ sentence1 ++ u " → " ++ sentence2 |}]
       else []) ++ implicit_from (S i) sentences'
  | _ => []
  end.

Definition _extract_implicit_relations (text : str) : list CausalRelation.t :=
  implicit_from 0 (split (OneOf (u "。！？" ++ [newline])) text).

Definition same_key (a b : CausalRelation.t) : bool :=
  str_eqb (CausalRelation.cause a) (CausalRelation.cause b) &&
  str_eqb (CausalRelation.effect a) (CausalRelation.effect b).

(** [seen] holds the relations whose (cause, effect) key was met. *)
Fixpoint dedup_from (seen relations : list CausalRelation.t) : list CausalRelation.t :=
  match relations with
  | [] => []
  | rel :: rest =>
      if existsb (same_key rel) seen then dedup_from seen rest
      else rel :: dedup_from (rel :: seen) rest
  end.

Definition _deduplicate_relations (relations : list CausalRelation.t)
    : list CausalRelation.t :=
  dedup_from [] relations.

(** The relation, if any, that one match of an explicit pattern adds: the
    cause is read from group 1 and the effect from group 2, which take part
    in every match of the five patterns. *)
Definition relation_of_match (causal_type_str : str) (n : nat) (m : Match)
    (relation_id : nat) : option CausalRelation.t :=
  let causal_type := if str_eqb causal_type_str (u "direct") then DIRECT else INDIRECT in
  if 2 <=? n then
    match group (m_caps m) 1, group (m_caps m) 2 with
    | Some g0, Some g1 =>
        let cause := _clean_cause_effect (strip g0) in
        let effect := _clean_cause_effect (strip g1) in
        if (2 <? length cause) && (2 <? length effect) then
          Some {| CausalRelation.id := u "causal_" ++ str_of_nat relation_id;
                  CausalRelation.cause := cause;
                  CausalRelation.effect := effect;
                  CausalRelation.causal_type := causal_type;
                  CausalRelation.strength := MODERATE;
                  CausalRelation.confidence := 0.85;
                  CausalRelation.evidence := [];
                  CausalRelation.intermediate_factors := [];
                  CausalRelation.description := cause ++ u " → " ++ effect |}
        else None
    | _, _ => None
    end
  else None.

(** The first loop of [extract_causal_relations]: the relations found and
    the next [relation_id]. *)
Definition explicit_relations (text : str) : list CausalRelation.t * nat :=
  fold_left
    (fun st pt =>
       fold_left
         (fun '(relations, relation_id) m =>
            match relation_of_match (snd pt) (ngroups (fst pt)) m relation_id with
            | Some relation => (relations ++ [relation], S relation_id)
            | None => (relations, relation_id)
            end)
         (finditer (fst pt) text) st)
    legal_causal_patterns ([], 1).

Definition extract_causal_relations (text : str) : list CausalRelation.t :=
  let relations := fst (explicit_relations text) in
  let implicit_relations := _extract_implicit_relations text in
  _deduplicate_relations (relations ++ implicit_relations).

(** *** Chains *)

(** The graph is a dictionary from a node to the list of its effects, kept
    as the list of its items. *)
Definition graph_t : Type := list (str * list str).

Definition has_key (k : str) (graph : graph_t) : bool :=
  existsb (fun kv => str_eqb k (fst kv)) graph.

(** [graph[k]] *)
Fixpoint get (graph : graph_t) (k : str) : list str :=
  match graph with
  | [] => []
  | (k', v) :: t => if str_eqb k k' then v else get t k
  end.

(** [if k not in graph: graph[k] = []] *)
Definition setdefault (graph : graph_t) (k : str) : graph_t :=
  if has_key k graph then graph else graph ++ [(k, [])].

(** [graph[k].append(x)] *)
Fixpoint append_to (graph : graph_t) (k x : str) : graph_t :=
  match graph with
  | [] => []
  | (k', v) :: t => if str_eqb k k' then (k', v ++ [x]) :: t
                    else (k', v) :: append_to t k x
  end.

Definition _build_causal_graph (relations : list CausalRelation.t) : graph_t :=
  fold_left (fun graph rel =>
               let cause := CausalRelation.cause rel in
               let effect := CausalRelation.effect rel in
               let graph := setdefault graph cause in
               let graph := setdefault graph effect in
               append_to graph cause effect)
            relations [].

(** The loop [for next_node in graph[start]] of [_trace_chain], over the
    recursive call [rec]. The set [visited] is shared by the calls, so each
    one receives it and returns it with its chain. *)
Section TraceLoop.
Variable rec : str -> list str -> option (list str * list str).

Fixpoint trace_loop (nodes : list str) (chain visited : list str)
    : option (list str * list str) :=
  match nodes with
  | [] => Some (chain, visited)
  | next_node :: nodes' =>
      if mem next_node visited then trace_loop nodes' chain visited
      else
        match rec next_node visited with
        | None => None
        | Some (sub_chain, visited') => trace_loop nodes' (chain ++ sub_chain) visited'
        end
  end.
End TraceLoop.

(** [_trace_chain(start, graph, visited)], returning the chain and the
    set [visited] as the call leaves it. [fuel] bounds the depth of the
    recursion; [None] means it ran out. The recursion limit of the
    interpreter is not modelled. *)
Fixpoint _trace_chain (fuel : nat) (start : str) (graph : graph_t)
    (visited : list str) : option (list str * list str) :=
  match fuel with
  | O => None
  | S fuel' =>
      if mem start visited || negb (has_key start graph) then Some ([start], visited)
      else trace_loop (fun next_node visited => _trace_chain fuel' next_node graph visited)
                      (get graph start) [start] (start :: visited)
  end.

Definition _calculate_chain_completeness (chain : CausalChain.t) : float :=
  match CausalChain.relations chain with
  | [] => 0.0
  | rels => (fsum (map CausalRelation.confidence rels) / float_of_nat (length rels))%float
  end.

Fixpoint chain_gaps (rels : list CausalRelation.t) : list str :=
  match rels with
  | rel1 :: ((rel2 :: _) as rels') =>
      (if str_eqb (CausalRelation.effect rel1) (CausalRelation.cause rel2) then []
       else [u "因果链断裂: " ++ CausalRelation.effect rel1 ++ u " → " ++
             CausalRelation.cause rel2 ++ u " 之间缺少中间环节"]) ++ chain_gaps rels'
  | _ => []
  end.

Definition _identify_chain_gaps (chain : CausalChain.t) : list str :=
  chain_gaps (CausalChain.relations chain).

(** The first relation from [cause] to [effect] *)
Definition find_relation (relations : list CausalRelation.t) (cause effect : str)
    : option CausalRelation.t :=
  List.find (fun rel => str_eqb (CausalRelation.cause rel) cause &&
                        str_eqb (CausalRelation.effect rel) effect) relations.

Fixpoint add_links (nodes : list str) (relations : list CausalRelation.t)
    (chain : CausalChain.t) : CausalChain.t :=
  match nodes with
  | cause :: ((effect :: _) as nodes') =>
      add_links nodes' relations
        match find_relation relations cause effect with
        | Some rel => CausalChain.add_relation chain rel
        | None => chain
        end
  | _ => chain
  end.

(** Called with a list of at least two nodes. *)
Definition _create_causal_chain (nodes : list str) (relations : list CausalRelation.t)
    : CausalChain.t :=
  let chain := {| CausalChain.id := u "chain_" ++ firstn 10 (hd [] nodes);
                  CausalChain.relations := [];
                  CausalChain.root_cause := [];
                  CausalChain.final_effect := [];
                  CausalChain.completeness := 0.0;
                  CausalChain.gaps := [] |} in
  let chain := add_links nodes relations chain in
  let chain := {| CausalChain.id := CausalChain.id chain;
                  CausalChain.relations := CausalChain.relations chain;
                  CausalChain.root_cause := CausalChain.root_cause chain;
                  CausalChain.final_effect := CausalChain.final_effect chain;
                  CausalChain.completeness := _calculate_chain_completeness chain;
                  CausalChain.gaps := CausalChain.gaps chain |} in
  {| CausalChain.id := CausalChain.id chain;
     CausalChain.relations := CausalChain.relations chain;
     CausalChain.root_cause := CausalChain.root_cause chain;
     CausalChain.final_effect := CausalChain.final_effect chain;
     CausalChain.completeness := CausalChain.completeness chain;
     CausalChain.gaps := _identify_chain_gaps chain |}.

(** The loop of [build_causal_chain] over the relations still to visit. *)
Fixpoint chains_from (fuel : nat) (graph : graph_t) (all todo : list CausalRelation.t)
    (chains : list CausalChain.t) (visited : list str)
    : option (list CausalChain.t) :=
  match todo with
  | [] => Some chains
  | relation :: todo' =>
      if mem (CausalRelation.cause relation) visited
      then chains_from fuel graph all todo' chains visited
      else
        match _trace_chain fuel (CausalRelation.cause relation) graph [] with
        | None => None
        | Some (chain, _) =>
            let chains := if 1 <? length chain
                          then chains ++ [_create_causal_chain chain all]
                          else chains in
            chains_from fuel graph all todo' chains (chain ++ visited)
        end
  end.

Definition build_causal_chain_fuel (fuel : nat) (relations : list CausalRelation.t)
    : option (list CausalChain.t) :=
  match relations with
  | [] => Some []
  | _ => chains_from fuel (_build_causal_graph relations) relations relations [] []
  end.

(** A depth that no traversal of the graph of [relations] exceeds. *)
Definition enough_fuel (relations : list CausalRelation.t) : nat :=
  S (length (_build_causal_graph relations)).

Definition build_causal_chain (relations : list CausalRelation.t)
    : list CausalChain.t :=
  match build_causal_chain_fuel (enough_fuel relations) relations with
  | Some chains => chains
  | None => []
  end.

(** *** Gaps *)

Definition _infer_missing_causes (from_event to_event : str) : list str :=
  (if contains (u "争执") to_event || contains (u "冲突") to_event
   then [u "情绪激动"; u "言语冲突"; u "行为不当"; u "误解"] else []) ++
  (if contains (u "投诉") to_event
   then [u "权益受损"; u "服务不满"; u "期望未满足"; u "纠纷未解决"] else []).

Definition _infer_missing_effects (from_event : str) : list str :=
  (if contains (u "投诉") from_event
   then [u "行政介入"; u "媒体曝光"; u "舆论发酵"; u "声誉受损"] else []) ++
  (if contains (u "冲突") from_event
   then [u "报警"; u "肢体冲突"; u "人身伤害"; u "财产损失"] else []).

Definition arrow : N := 8594%N.

(** The first loop of [detect_causal_gaps]: the gap descriptions of the chain
    are parsed back into events. *)
Definition intermediate_gaps (descs : list str) : list CausalGap.t * nat :=
  fold_left
    (fun '(gaps, gap_id) gap_desc =>
       if contains [arrow] gap_desc then
         let parts := split_char arrow gap_desc [] in
         let from_event := strip (replace (nth 0 parts []) (u "因果链断裂: ") []) in
         let to_event := strip (replace (nth 1 parts []) (u " 之间缺少中间环节") []) in
         (gaps ++ [{| CausalGap.id := u "gap_" ++ str_of_nat gap_id;
                      CausalGap.from_event := from_event;
                      CausalGap.to_event := to_event;
                      CausalGap.gap_type := u "missing_intermediate";
                      CausalGap.description := gap_desc;
                      CausalGap.possible_causes :=
                        _infer_missing_causes from_event to_event |}],
          S gap_id)
       else (gaps, gap_id))
    descs ([], 1).

(** [gap_id] is not advanced after the missing-cause gap. *)
Definition detect_causal_gaps (chain : CausalChain.t) : list CausalGap.t :=
  let '(gaps, gap_id) := intermediate_gaps (CausalChain.gaps chain) in
  match CausalChain.relations chain with
  | [] => gaps
  | first_relation :: _ =>
      let cause := CausalRelation.cause first_relation in
      let gaps :=
        if length cause <? 10 then
          gaps ++ [{| CausalGap.id := u "gap_" ++ str_of_nat gap_id;
                      CausalGap.from_event := u "?";
                      CausalGap.to_event := cause;
                      CausalGap.gap_type := u "missing_cause";
                      CausalGap.description :=
                        u "缺少根本原因: " ++ cause ++ u " 之前可能有其他原因";
                      CausalGap.possible_causes := _infer_missing_causes (u "?") cause |}]
        else gaps in
      let effect :=
        CausalRelation.effect (last (CausalChain.relations chain) first_relation) in
      if length effect <? 10 then
        gaps ++ [{| CausalGap.id := u "gap_" ++ str_of_nat gap_id;
                    CausalGap.from_event := effect;
                    CausalGap.to_event := u "?";
                    CausalGap.gap_type := u "missing_effect";
                    CausalGap.description :=
                      u "缺少最终结果: " ++ effect ++ u " 之后可能有其他结果";
                    CausalGap.possible_causes := _infer_missing_effects effect |}]
      else gaps
  end.

(** *** The full analysis *)

(** [sorted(counts.items(), key=lambda x: x[1], reverse=True)]: stable, the
    greater counts first. *)
Fixpoint insert_desc (x : str * nat) (l : list (str * nat)) : list (str * nat) :=
  match l with
  | [] => [x]
  | y :: l' => if snd y <=? snd x then x :: l else y :: insert_desc x l'
  end.

Definition sorted_desc (l : list (str * nat)) : list (str * nat) :=
  fold_right insert_desc [] l.

Definition top5 (keys : list str) : list str :=
  map fst (firstn 5 (sorted_desc (fold_left (fun counts k => count_into k counts) keys []))).

Definition _identify_key_causes (relations : list CausalRelation.t) : list str :=
  top5 (map CausalRelation.cause relations).

Definition _identify_key_effects (relations : list CausalRelation.t) : list str :=
  top5 (map CausalRelation.effect relations).

Definition undetermined : RootCause.t :=
  {| RootCause.root_cause := u "无法确定"; RootCause.confidence := 0.0;
     RootCause.reason := None; RootCause.other_possibilities := None |}.

(** [min(l, key=len)]: the first of the shortest *)
Definition shortest (first : str) (others : list str) : str :=
  fold_left (fun best x => if length x <? length best then x else best) others first.

Definition _analyze_root_cause (chains : list CausalChain.t) : RootCause.t :=
  match chains with
  | [] => undetermined
  | _ =>
      let root_causes :=
        filter (fun r => negb (is_empty r)) (map CausalChain.root_cause chains) in
      match root_causes with
      | [] => undetermined
      | [r] =>
          {| RootCause.root_cause := r; RootCause.confidence := 0.9;
             RootCause.reason := Some (u "单一因果链,根本原因明确");
             RootCause.other_possibilities := None |}
      | r :: rs =>
          {| RootCause.root_cause := shortest r rs; RootCause.confidence := 0.7;
             RootCause.reason := Some (u "存在多条因果链,选择最可能的原因");
             RootCause.other_possibilities := Some root_causes |}
      end
  end.

Definition _generate_alternative_explanations (text : str)
    (relations : list CausalRelation.t) : list str :=
  (if contains (u "投诉") text
   then [u "替代解释: 投诉可能是出于维护自身合法权益,而非恶意"] else []) ++
  (if contains (u "争执") text || contains (u "冲突") text
   then [u "替代解释: 争执可能是双方沟通不畅导致,而非单方面责任"] else []) ++
  (if contains (u "网络") text && contains (u "发布") text
   then [u "替代解释: 网络发布可能是出于警示他人,而非诽谤"] else []) ++
  (if 0 <? length relations
   then [u "替代解释: 原因和结果之间可能存在其他未被观察到的中间因素"] else []).

Definition analyze_causality (text : str) : CausalAnalysis.t :=
  let relations := extract_causal_relations text in
  let chains := build_causal_chain relations in
  let gaps := flat_map detect_causal_gaps chains in
  {| CausalAnalysis.causal_relations := relations;
     CausalAnalysis.causal_chains := chains;
     CausalAnalysis.causal_gaps := gaps;
     CausalAnalysis.key_causes := _identify_key_causes relations;
     CausalAnalysis.key_effects := _identify_key_effects relations;
     CausalAnalysis.root_cause_analysis := _analyze_root_cause chains;
     CausalAnalysis.alternative_explanations :=
       _generate_alternative_explanations text relations |}.

End CausalReasoner.

(** ** evidence.py *)

(** Modelled from the spec: the module [evidence.py] is not part of the
    sources. The spec gives an [Evidence] a name, a description, a type tag
    of a fixed taxonomy (document, electronic, audio-video and others) and a
    weight in [0,1]. *)
Inductive EvidenceType : Type :=
| DOCUMENT
| ELECTRONIC
| AUDIO_VIDEO
| OTHER (tag : nat).

Definition EvidenceType_eqb (a b : EvidenceType) : bool :=
  match a, b with
  | DOCUMENT, DOCUMENT | ELECTRONIC, ELECTRONIC | AUDIO_VIDEO, AUDIO_VIDEO => true
  | OTHER m, OTHER n => Nat.eqb m n
  | _, _ => false
  end.

Module Evidence.
Record t : Type := {
  name : Py.str;
  description : Py.str;
  evidence_type : EvidenceType;
  weight : float
}.
End Evidence.

(** ** deep_reasoner.py *)

(** The dictionaries of the result, as records. *)

Module ConflictSummary.
Record t : Type := {
  type : Py.str;
  description : fstring;
  severity : Py.str
}.
End ConflictSummary.

Module TimeAnalysis.
Record t : Type := {
  timestamps_count : nat;
  timeline : TimeSeriesAnalyzer.TimelineSummary.t;
  time_patterns : TimeSeriesAnalyzer.TimePatterns.t;
  time_gaps : list TimeSeriesAnalyzer.IntervalReport.t;
  critical_timestamps : list TimeSeriesAnalyzer.CriticalTimestamp.t;
  time_conflicts : list ConflictSummary.t;
  logic_valid : bool;
  logic_issues : list fstring
}.
End TimeAnalysis.

Module CausalSummary.
Record t : Type := {
  relations_count : nat;
  chains_count : nat;
  gaps_count : nat;
  root_cause : Py.str;
  root_cause_confidence : float;
  key_causes : list Py.str;
  key_effects : list Py.str;
  alternative_explanations : list Py.str
}.
End CausalSummary.

(** A detected contradiction; [items] is the key [sentences] or [evidences]. *)
Module Contradiction.
Record t : Type := {
  type : Py.str;
  description : Py.str;
  severity : Py.str;
  items : nat * nat
}.
End Contradiction.

Module ConflictAnalysis.
Record t : Type := {
  total_conflicts : nat;
  fact_conflicts : list Contradiction.t;
  evidence_conflicts : list Contradiction.t
}.
End ConflictAnalysis.

Module LogicalAnalysis.
Record t : Type := {
  logic_valid : bool;
  logic_issues : list Py.str;
  logical_consistency : float;
  logical_completeness : float
}.
End LogicalAnalysis.

Module Premeditation.
Record t : Type := {
  is_premeditated : bool;
  premeditation_score : float;
  indicators : list Py.str;
  reasoning : fstring
}.
End Premeditation.

Module EvidenceChain.
Record t : Type := {
  completeness : float;
  consistency : float;
  strength : Py.str;
  gaps : list Py.str;
  suggestions : list Py.str
}.
End EvidenceChain.

Module DeepReasoningResult.
Record t : Type := {
  timestamp : Datetime.datetime;
  time_analysis : TimeAnalysis.t;
  causal_analysis : CausalSummary.t;
  conflict_analysis : ConflictAnalysis.t;
  logical_analysis : LogicalAnalysis.t;
  premeditation_analysis : Premeditation.t;
  evidence_chain : EvidenceChain.t;
  recommendations : list fstring;
  confidence : float
}.
End DeepReasoningResult.

Module DeepReasoner.
Import Py.

(** The state of a reasoner object: the two analysers built by [__init__]
    (a [CausalReasoner] holds constant tables only). *)
Record self_t : Type := {
  time_analyzer : TimeSeriesAnalyzer.self_t
}.

Definition __init__ : IO self_t :=
  let! ta := TimeSeriesAnalyzer.__init__ in
  ret {| time_analyzer := ta |}.

Definition _analyze_time_series (text : str) : IO TimeAnalysis.t :=
  let! timestamps := TimeSeriesAnalyzer.extract_timestamps text [] in
  let timeline := TimeSeriesAnalyzer.build_timeline timestamps [] in
  let timeline := fst (TimeSeriesAnalyzer.detect_time_conflicts timeline) in
  let analysis := TimeSeriesAnalyzer.analyze_time_logic timeline in
  ret {| TimeAnalysis.timestamps_count := length timestamps;
         TimeAnalysis.timeline := TimeSeriesAnalyzer.TimeLogic.timeline_summary analysis;
         TimeAnalysis.time_patterns := TimeSeriesAnalyzer.TimeLogic.time_patterns analysis;
         TimeAnalysis.time_gaps := TimeSeriesAnalyzer.TimeLogic.time_gaps analysis;
         TimeAnalysis.critical_timestamps :=
           TimeSeriesAnalyzer.TimeLogic.critical_timestamps analysis;
         TimeAnalysis.time_conflicts :=
           map (fun c => {| ConflictSummary.type := Conflict.type c;
                            ConflictSummary.description := Conflict.description c;
                            ConflictSummary.severity := Conflict.severity c |})
               (TimeSeriesAnalyzer.TimeLogic.time_conflicts analysis);
         TimeAnalysis.logic_valid :=
           TimeSeriesAnalyzer.LogicAnalysis.logic_valid
             (TimeSeriesAnalyzer.TimeLogic.logic_analysis analysis);
         TimeAnalysis.logic_issues :=
           TimeSeriesAnalyzer.LogicAnalysis.logic_issues
             (TimeSeriesAnalyzer.TimeLogic.logic_analysis analysis) |}.

Definition _analyze_causality (text : str) : CausalSummary.t :=
  let analysis := CausalReasoner.analyze_causality text in
  {| CausalSummary.relations_count := length (CausalAnalysis.causal_relations analysis);
     CausalSummary.chains_count := length (CausalAnalysis.causal_chains analysis);
     CausalSummary.gaps_count := length (CausalAnalysis.causal_gaps analysis);
     CausalSummary.root_cause :=
       RootCause.root_cause (CausalAnalysis.root_cause_analysis analysis);
     CausalSummary.root_cause_confidence :=
       RootCause.confidence (CausalAnalysis.root_cause_analysis analysis);
     CausalSummary.key_causes := CausalAnalysis.key_causes analysis;
     CausalSummary.key_effects := CausalAnalysis.key_effects analysis;
     CausalSummary.alternative_explanations :=
       CausalAnalysis.alternative_explanations analysis |}.

Definition _has_obvious_conflict (sentence1 sentence2 : str) : bool :=
  let conflict_pairs :=
    [(u "是", u "不是"); (u "有", u "没有"); (u "同意", u "不同意");
     (u "认可", u "不认可"); (u "支付", u "未支付"); (u "收到", u "未收到")] in
  existsb (fun '(kw1, kw2) =>
             contains kw1 sentence1 && contains kw2 sentence2 ||
             contains kw2 sentence1 && contains kw1 sentence2) conflict_pairs.

Definition _has_evidence_conflict (ev1 ev2 : Evidence.t) : bool :=
  let desc1 := lower (Evidence.description ev1) in
  let desc2 := lower (Evidence.description ev2) in
  let conflict_keywords :=
    [(u "是", u "不是"); (u "存在", u "不存在"); (u "真实", u "虚假");
     (u "正确", u "错误")] in
  existsb (fun '(kw1, kw2) => contains kw1 desc1 && contains kw2 desc2)
          conflict_keywords.

(** [enumerate(l)] *)
Definition enumerate {A : Type} (l : list A) : list (nat * A) :=
  combine (seq 0 (length l)) l.

Definition _detect_fact_conflicts (text : str) : list Contradiction.t :=
  let sentences :=
    filter (fun s => negb (is_empty s)) (map strip (split_char 12290%N text [])) in
  flat_map
    (fun '((i, sentence1), (j, sentence2)) =>
       if _has_obvious_conflict sentence1 sentence2 then
         [{| Contradiction.type := u "fact";
             Contradiction.description :=
               u "事实矛盾: '" ++ sentence1 ++ u "' 与 '" ++ sentence2 ++
               u "' 可能存在矛盾";
             Contradiction.severity := u "medium";
             Contradiction.items := (i, j) |}]
       else [])
    (pairs (enumerate sentences)).

Definition _detect_evidence_conflicts (evidences : list Evidence.t)
    : list Contradiction.t :=
  flat_map
    (fun '((i, ev1), (j, ev2)) =>
       if _has_evidence_conflict ev1 ev2 then
         [{| Contradiction.type := u "evidence";
             Contradiction.description :=
               u "证据矛盾: " ++ Evidence.name ev1 ++ u " 与 " ++ Evidence.name ev2 ++
               u " 可能存在矛盾";
             Contradiction.severity := u "high";
             Contradiction.items := (i, j) |}]
       else [])
    (pairs (enumerate evidences)).

Definition _detect_conflicts (text : str) (evidences : list Evidence.t)
    : ConflictAnalysis.t :=
  let fact_conflicts := _detect_fact_conflicts text in
  let conflicts :=
    fact_conflicts ++
    (if is_empty evidences then [] else _detect_evidence_conflicts evidences) in
  {| ConflictAnalysis.total_conflicts := length conflicts;
     ConflictAnalysis.fact_conflicts := fact_conflicts;
     ConflictAnalysis.evidence_conflicts :=
       filter (fun c => str_eqb (Contradiction.type c) (u "evidence")) conflicts |}.

Definition _check_time_logic_valid (text : str) : IO bool :=
  let! analysis := _analyze_time_series text in
  ret (TimeAnalysis.logic_valid analysis).

Definition _check_causal_logic_valid (text : str) : bool :=
  Nat.eqb (CausalSummary.gaps_count (_analyze_causality text)) 0.

Definition _calculate_logical_consistency (text : str) (evidences : list Evidence.t)
    : float :=
  let conflicts := _detect_conflicts text evidences in
  let total_conflicts := ConflictAnalysis.total_conflicts conflicts in
  fmax 0.0 (1.0 - float_of_nat total_conflicts * 0.1).

Definition _calculate_logical_completeness (text : str) : float :=
  let analysis := _analyze_causality text in
  if Nat.eqb (CausalSummary.chains_count analysis) 0 then 0.5
  else
    let completeness :=
      fmin 1.0 (float_of_nat (CausalSummary.chains_count analysis) * 0.3) in
    let completeness :=
      if 0 <? CausalSummary.gaps_count analysis
      then (completeness - float_of_nat (CausalSummary.gaps_count analysis) * 0.1)%float
      else completeness in
    fmax 0.0 completeness.

Definition _analyze_logic (text : str) (evidences : list Evidence.t)
    : IO LogicalAnalysis.t :=
  let! time_ok := _check_time_logic_valid text in
  let causal_ok := _check_causal_logic_valid text in
  ret {| LogicalAnalysis.logic_valid := time_ok && causal_ok;
         LogicalAnalysis.logic_issues :=
           (if time_ok then [] else [u "时间逻辑存在问题"]) ++
           (if causal_ok then [] else [u "因果逻辑存在问题"]);
         LogicalAnalysis.logical_consistency :=
           _calculate_logical_consistency text evidences;
         LogicalAnalysis.logical_completeness :=
           _calculate_logical_completeness text |}.

(** The five indicators of [_analyze_premeditation], in the order they are
    tested, each with its weight and its label. The [.get] defaults of the
    source stand for keys that the two analyses always provide. *)
Definition premeditation_indicators (text : str) (time_analysis : TimeAnalysis.t)
    (causal_analysis : CausalSummary.t) : list (bool * float * str) :=
  [ ((0 <? TimeAnalysis.timestamps_count time_analysis) &&
     existsb (fun ts => contains (u "之前")
                          (TimeSeriesAnalyzer.CriticalTimestamp.event ts))
             (TimeAnalysis.critical_timestamps time_analysis),
     0.2%float, u "存在准备时间");
    ((0 <? CausalSummary.chains_count causal_analysis) &&
     PrimFloat.ltb 0.7 (CausalSummary.root_cause_confidence causal_analysis),
     0.2%float, u "因果链清晰,有明确目标");
    (any_in [u "准备"; u "计划"; u "安排"; u "设计"; u "预谋"; u "策划"] text,
     0.3%float, u "出现预谋性关键词");
    (any_in [u "随即"; u "立刻"; u "立即"; u "马上"; u "紧接着"] text,
     0.2%float, u "行为连贯,显示出计划性");
    (any_in [u "冷静"; u "拍照"; u "录像"; u "取证"; u "报警"] text,
     0.2%float, u "冷静执行,显示出专业性") ].

Definition _analyze_premeditation (text : str) (time_analysis : TimeAnalysis.t)
    (causal_analysis : CausalSummary.t) : Premeditation.t :=
  let '(score, indicators) :=
    fold_left (fun '(score, indicators) '(present, weight, label) =>
                 if (present : bool) then ((score + weight)%float, indicators ++ [label])
                 else (score, indicators))
              (premeditation_indicators text time_analysis causal_analysis)
              (0.0%float, []) in
  let n := Z.of_nat (length indicators) in
  {| Premeditation.is_premeditated := PrimFloat.leb 0.5 score;
     Premeditation.premeditation_score := fmin 1.0 score;
     Premeditation.indicators := indicators;
     Premeditation.reasoning :=
       if PrimFloat.leb 0.7 score then
         [PStr (u "高度预谋: 得分 "); PFloat2 score; PStr (u ", 存在 "); PInt n;
          PStr (u " 个预谋迹象")]
       else if PrimFloat.leb 0.5 score then
         [PStr (u "可能预谋: 得分 "); PFloat2 score; PStr (u ", 存在 "); PInt n;
          PStr (u " 个预谋迹象")]
       else if PrimFloat.leb 0.3 score then
         [PStr (u "不太像预谋: 得分 "); PFloat2 score; PStr (u ", 仅存在 "); PInt n;
          PStr (u " 个预谋迹象")]
       else [PStr (u "不太可能是预谋: 得分 "); PFloat2 score] |}.

(** The number of distinct evidence types, [len(type_counts)]. *)
Fixpoint distinct_types (evidences : list Evidence.t) (seen : list EvidenceType)
    : list EvidenceType :=
  match evidences with
  | [] => seen
  | ev :: rest =>
      let ty := Evidence.evidence_type ev in
      distinct_types rest
        (if existsb (EvidenceType_eqb ty) seen then seen else seen ++ [ty])
  end.

Definition _calculate_evidence_completeness (evidences : list Evidence.t) : float :=
  let present_types := length (distinct_types evidences []) in
  fmin 1.0 (float_of_nat present_types / 3.0).

Definition _calculate_evidence_consistency (evidences : list Evidence.t) : float :=
  match evidences with
  | [] => 0.0
  | _ => (fsum (map Evidence.weight evidences) / float_of_nat (length evidences))%float
  end.

Definition type_name (ty : EvidenceType) : str :=
  match ty with
  | DOCUMENT => u "书证"
  | ELECTRONIC => u "电子证据"
  | _ => u "视听资料"
  end.

Definition _identify_evidence_gaps (evidences : list Evidence.t) : list str :=
  let present_types := map Evidence.evidence_type evidences in
  flat_map (fun req_type =>
              if existsb (EvidenceType_eqb req_type) present_types then []
              else [u "缺少" ++ type_name req_type])
           [DOCUMENT; ELECTRONIC; AUDIO_VIDEO] ++
  (if length evidences <? 3 then [u "证据数量不足"] else []).

Definition _generate_evidence_suggestions (evidences : list Evidence.t)
    (gaps : list str) : list str :=
  match gaps with
  | [] => [u "证据链较为完整"]
  | _ => u "建议补充以下证据:" :: map (fun gap => u "  • " ++ gap) gaps
  end.

Definition _analyze_evidence_chain (evidences : list Evidence.t) : EvidenceChain.t :=
  match evidences with
  | [] =>
      {| EvidenceChain.completeness := 0.0;
         EvidenceChain.consistency := 0.0;
         EvidenceChain.strength := u "weak";
         EvidenceChain.gaps := [u "缺少证据材料"];
         EvidenceChain.suggestions := [u "建议补充证据材料"] |}
  | _ =>
      let completeness := _calculate_evidence_completeness evidences in
      let consistency := _calculate_evidence_consistency evidences in
      let strength :=
        if PrimFloat.leb 0.8 completeness && PrimFloat.leb 0.8 consistency
        then u "strong"
        else if PrimFloat.leb 0.6 completeness && PrimFloat.leb 0.6 consistency
             then u "moderate"
             else u "weak" in
      let gaps := _identify_evidence_gaps evidences in
      {| EvidenceChain.completeness := completeness;
         EvidenceChain.consistency := consistency;
         EvidenceChain.strength := strength;
         EvidenceChain.gaps := gaps;
         EvidenceChain.suggestions := _generate_evidence_suggestions evidences gaps |}
  end.

(** The result is read through the analyses computed so far. *)
Definition _generate_recommendations (time_analysis : TimeAnalysis.t)
    (causal_analysis : CausalSummary.t) (conflict_analysis : ConflictAnalysis.t)
    (logical_analysis : LogicalAnalysis.t) (premeditation_analysis : Premeditation.t)
    (evidence_chain : EvidenceChain.t) : list fstring :=
  let gaps_count := CausalSummary.gaps_count causal_analysis in
  let total_conflicts := ConflictAnalysis.total_conflicts conflict_analysis in
  let recommendations :=
    (if is_empty (TimeAnalysis.logic_issues time_analysis) then []
     else [[PStr (u "⚠️ 时间逻辑存在问题,建议核实时间信息")]]) ++
    (if 0 <? gaps_count
     then [[PStr (u "⚠️ 存在 "); PInt (Z.of_nat gaps_count);
            PStr (u " 个因果链缺口,建议补充中间环节")]]
     else []) ++
    (if 0 <? total_conflicts
     then [[PStr (u "⚠️ 发现 "); PInt (Z.of_nat total_conflicts);
            PStr (u " 个矛盾,需要核实")]]
     else []) ++
    (if LogicalAnalysis.logic_valid logical_analysis then []
     else [[PStr (u "⚠️ 逻辑存在问题,需要重新梳理")]]) ++
    (if Premeditation.is_premeditated premeditation_analysis &&
        PrimFloat.leb 0.7 (Premeditation.premeditation_score premeditation_analysis)
     then [[PStr (u "⚠️ 高度预谋,建议深入调查对方背景")]]
     else []) ++
    map (fun s => [PStr s]) (EvidenceChain.suggestions evidence_chain) in
  if is_empty recommendations
  then [[PStr (u "✅ 深度推理未发现明显问题,逻辑清晰")]]
  else recommendations ++ [[PStr (u "ℹ️ 建议基于以上发现进一步调查取证")]].

Definition strength_weight (strength : str) : float :=
  if str_eqb strength (u "strong") then 0.25
  else if str_eqb strength (u "moderate") then 0.15
  else 0.05.

Definition _calculate_confidence (time_analysis : TimeAnalysis.t)
    (causal_analysis : CausalSummary.t) (logical_analysis : LogicalAnalysis.t)
    (evidence_chain : EvidenceChain.t) : float :=
  let confidence := 0.0%float in
  let confidence :=
    (confidence + (if TimeAnalysis.logic_valid time_analysis then 0.25 else 0.1))%float in
  let confidence :=
    (confidence + 0.25 * CausalSummary.root_cause_confidence causal_analysis)%float in
  let confidence :=
    (confidence + 0.25 * LogicalAnalysis.logical_consistency logical_analysis)%float in
  let confidence :=
    (confidence + strength_weight (EvidenceChain.strength evidence_chain))%float in
  fmin 1.0 confidence.

(** [reason(text, evidences=None, context=None)]. The context is accepted
    and never read. *)
Definition reason (self : self_t) (text : str) (evidences : option (list Evidence.t))
    (context : option (list (str * str))) : IO DeepReasoningResult.t :=
  let evidences := match evidences with Some l => l | None => [] end in
  let! timestamp := now in
  let! time_analysis := _analyze_time_series text in
  let causal_analysis := _analyze_causality text in
  let conflict_analysis := _detect_conflicts text evidences in
  let! logical_analysis := _analyze_logic text evidences in
  let premeditation_analysis :=
    _analyze_premeditation text time_analysis causal_analysis in
  let evidence_chain := _analyze_evidence_chain evidences in
  let recommendations :=
    _generate_recommendations time_analysis causal_analysis conflict_analysis
      logical_analysis premeditation_analysis evidence_chain in
  ret {| DeepReasoningResult.timestamp := timestamp;
         DeepReasoningResult.time_analysis := time_analysis;
         DeepReasoningResult.causal_analysis := causal_analysis;
         DeepReasoningResult.conflict_analysis := conflict_analysis;
         DeepReasoningResult.logical_analysis := logical_analysis;
         DeepReasoningResult.premeditation_analysis := premeditation_analysis;
         DeepReasoningResult.evidence_chain := evidence_chain;
         DeepReasoningResult.recommendations := recommendations;
         DeepReasoningResult.confidence :=
           _calculate_confidence time_analysis causal_analysis logical_analysis
             evidence_chain |}.

End DeepReasoner.

(** * Properties *)

Unset Implicit Arguments.
Import Py Re Datetime.

(** ** Concrete inputs used below *)

Definition may_10_2024 : datetime :=
  {| year := 2024; month := 5; day := 10;
     hour := 12; minute := 34; second := 56; microsecond := 789 |}.

Definition may_8_2024_midnight : datetime :=
  {| year := 2024; month := 5; day := 8;
     hour := 0; minute := 0; second := 0; microsecond := 0 |}.

Definition scenario1 : str := u "因为下雨,所以迟到。".

(** ** Empty text *)

(** C10. For the empty text [extract_timestamps] returns the empty list
    (after one reading of the clock for the reference date), and
    [analyze_causality] returns no relation, no chain and no gap, the root
    cause "无法确定" and the root-cause confidence 0.0. *)
Theorem empty_text_degrades :
  (forall event_context clk n,
     TimeSeriesAnalyzer.extract_timestamps [] event_context clk n = Ok ([], S n)) /\
  let analysis := CausalReasoner.analyze_causality [] in
  CausalAnalysis.causal_relations analysis = [] /\
  CausalAnalysis.causal_chains analysis = [] /\
  CausalAnalysis.causal_gaps analysis = [] /\
  RootCause.root_cause (CausalAnalysis.root_cause_analysis analysis) = u "无法确定" /\
  RootCause.confidence (CausalAnalysis.root_cause_analysis analysis) = 0.0%float.
Proof.
  split.
  - intros event_context clk n. reflexivity.
  - vm_compute. repeat split.
Qed.

(** ** The first scenario of the specification *)

(** C1, as the code has it. On "因为下雨,所以迟到。" the pattern because…so…
    matches once and its first group cleans to "下雨", which has two
    characters; a candidate must have more than two, so no relation is
    returned. *)
Theorem scenario1_cause_too_short :
  map (fun m => option_map (fun g => CausalReasoner._clean_cause_effect (strip g))
                           (group (m_caps m) 1))
      (finditer (fst (nth 0 CausalReasoner.legal_causal_patterns (Any, []))) scenario1)
    = [Some (u "下雨")] /\
  length (u "下雨") = 2 /\
  CausalReasoner.extract_causal_relations scenario1 = [].
Proof. vm_compute. repeat split. Qed.

(** C1 fails as stated: no relation from "下雨" to "迟到" is returned. *)
Lemma scenario1_no_relation :
  existsb (fun r => str_eqb (CausalRelation.cause r) (u "下雨") &&
                    str_eqb (CausalRelation.effect r) (u "迟到"))
          (CausalReasoner.extract_causal_relations scenario1) = false.
Proof. vm_compute. reflexivity. Qed.

(** ** Out-of-range dates *)

(** C5, at a failing input. The text "2024年13月45日" holds a date pattern
    with month 13: [_determine_reference_date] builds the date outside any
    [try], the [ValueError] leaves [extract_timestamps] and [reason]. *)
Theorem reason_raises_on_impossible_date :
  forall self evidences context clk n,
    DeepReasoner.reason self (u "2024年13月45日") evidences context clk n
    = Raise ValueError.
Proof. intros. reflexivity. Qed.

(** ** The day before the day before yesterday *)

(** C6, at a failing input. With the clock at 2024-05-10 12:34:56, the text
    "大前天" yields two timestamps, "前天" and "大前天", both resolved to
    2024-05-08: the branch for "前天" is tested before the one for "大前天"
    and "前天" occurs in "大前天". *)
Theorem three_days_before_resolves_two_days_back :
  match TimeSeriesAnalyzer.extract_timestamps (u "大前天") [] (fun _ => may_10_2024) 0 with
  | Ok (timestamps, _) =>
      map (fun ts => (Timestamp.text ts, Timestamp.datetime ts, Timestamp.precision ts))
          timestamps
  | Raise _ => []
  end
  = [ (u "前天", Some may_8_2024_midnight, DAY);
      (u "大前天", Some may_8_2024_midnight, DAY) ].
Proof. vm_compute. reflexivity. Qed.

(** Whatever the reference date, "大前天" is parsed as "前天" is: two days
    before the reference, at midnight. *)
Lemma three_days_before_parsed_as_two (reference : datetime) (precision : TimePrecision) :
  TimeSeriesAnalyzer._parse_datetime (u "大前天") reference precision
  = catch_none (let* r := sub_timedelta reference (days 2) in
                let* dt := TimeSeriesAnalyzer.midnight r in Ok (Some dt)) /\
  TimeSeriesAnalyzer._parse_datetime (u "大前天") reference precision
  = TimeSeriesAnalyzer._parse_datetime (u "前天") reference precision.
Proof. split; reflexivity. Qed.

(** ** Validity of the time logic *)

(** [_analyze_logic] reports a valid logic exactly for a timeline without
    any conflict, and lists the conflicts of severity critical or high. *)
Lemma logic_valid_iff_no_conflict (timeline : Timeline.t) :
  (TimeSeriesAnalyzer.LogicAnalysis.logic_valid (TimeSeriesAnalyzer._analyze_logic timeline)
   = true <-> Timeline.conflicts timeline = []) /\
  TimeSeriesAnalyzer.LogicAnalysis.logic_issues (TimeSeriesAnalyzer._analyze_logic timeline)
  = map Conflict.description
        (filter TimeSeriesAnalyzer.high_severity (Timeline.conflicts timeline)).
Proof.
  unfold TimeSeriesAnalyzer._analyze_logic. simpl.
  destruct (Timeline.conflicts timeline); simpl; split; try reflexivity;
    split; congruence.
Qed.

Definition half_past_midnight : str := u "2024年5月1日0:30".

(** The timeline that the analyser builds from [half_past_midnight] (the
    text holds an absolute date, so the clock is not read). *)
Definition mixed_precision_timeline : Timeline.t :=
  match TimeSeriesAnalyzer.extract_timestamps half_past_midnight []
          (fun _ => may_10_2024) 0 with
  | Ok (timestamps, _) =>
      fst (TimeSeriesAnalyzer.detect_time_conflicts
             (TimeSeriesAnalyzer.build_timeline timestamps []))
  | Raise _ => TimeSeriesAnalyzer.build_timeline [] []
  end.

(** C2, at a failing input. The timeline of "2024年5月1日0:30" has a single
    conflict, the precision note of severity "low"; [analyze_time_logic]
    reports [logic_valid = False] with no issue listed, the time sequence
    "正常" and the recommendation that the timeline has no obvious problem. *)
Theorem low_severity_conflict_invalidates_logic :
  let analysis := TimeSeriesAnalyzer.analyze_time_logic mixed_precision_timeline in
  let logic := TimeSeriesAnalyzer.TimeLogic.logic_analysis analysis in
  map (fun c => (Conflict.type c, Conflict.severity c))
      (Timeline.conflicts mixed_precision_timeline) = [(u "precision", u "low")] /\
  existsb TimeSeriesAnalyzer.high_severity (Timeline.conflicts mixed_precision_timeline)
    = false /\
  TimeSeriesAnalyzer.LogicAnalysis.logic_valid logic = false /\
  TimeSeriesAnalyzer.LogicAnalysis.logic_issues logic = [] /\
  TimeSeriesAnalyzer.LogicAnalysis.time_sequence logic = u "正常" /\
  TimeSeriesAnalyzer.TimeLogic.recommendations analysis
    = [[PStr (u "✅ 时间线逻辑清晰,无明显问题")]].
Proof. vm_compute. repeat split. Qed.

(** ** The order of datetimes *)

Section DatetimeOrder.
Local Open Scope Z_scope.

Lemma lex_compare_antisym (a b : list Z) :
  lex_compare b a = CompOpp (lex_compare a b).
Proof.
  revert b. induction a as [|x a IH]; intros [|y b]; simpl; trivial.
  rewrite (Z.compare_antisym x y).
  destruct (x ?= y); simpl; auto.
Qed.

Lemma lex_compare_trans (a b c : list Z) :
  lex_compare a b <> Gt -> lex_compare b c <> Gt -> lex_compare a c <> Gt.
Proof.
  revert b c. induction a as [|x a IH]; intros [|y b] [|z c]; simpl;
    try congruence.
  destruct (Z.compare_spec x y) as [Hxy|Hxy|Hxy];
    destruct (Z.compare_spec y z) as [Hyz|Hyz|Hyz]; try congruence; intros H1 H2.
  - subst. rewrite Z.compare_refl. eauto.
  - subst. rewrite (proj2 (Z.compare_lt_iff _ _) Hyz). discriminate.
  - subst. rewrite (proj2 (Z.compare_lt_iff _ _) Hxy). discriminate.
  - rewrite (proj2 (Z.compare_lt_iff x z)) by lia. discriminate.
Qed.

Lemma leb_total (a b : datetime) : Datetime.leb a b = false -> Datetime.leb b a = true.
Proof.
  unfold Datetime.leb, Datetime.compare.
  rewrite (lex_compare_antisym (fields a) (fields b)).
  destruct (lex_compare (fields a) (fields b)); simpl; congruence.
Qed.

Lemma leb_trans (a b c : datetime) :
  Datetime.leb a b = true -> Datetime.leb b c = true -> Datetime.leb a c = true.
Proof.
  unfold Datetime.leb, Datetime.compare. intros H1 H2.
  assert (H : lex_compare (fields a) (fields c) <> Gt).
  { apply lex_compare_trans with (b := fields b).
    - destruct (lex_compare (fields a) (fields b)); congruence.
    - destruct (lex_compare (fields b) (fields c)); congruence. }
  destruct (lex_compare (fields a) (fields c)); congruence.
Qed.

End DatetimeOrder.

(** ** Sorting *)

Section SortFacts.
Variable A : Type.
Variable key : A -> datetime.

Definition key_le (a b : A) : Prop := Datetime.leb (key a) (key b) = true.

Lemma insert_perm (x : A) (l : list A) :
  Permutation (Timeline.insert key x l) (x :: l).
Proof.
  induction l as [|y l IH]; simpl; auto.
  destruct (Datetime.leb (key x) (key y)); auto.
  rewrite IH. apply perm_swap.
Qed.

Lemma sort_by_perm (l : list A) : Permutation (Timeline.sort_by key l) l.
Proof.
  induction l as [|x l IH]; simpl; auto.
  rewrite insert_perm. auto.
Qed.

Lemma insert_sorted (x : A) (l : list A) :
  StronglySorted key_le l -> StronglySorted key_le (Timeline.insert key x l).
Proof.
  induction 1 as [|y l Hs IH Hall]; simpl.
  - repeat constructor.
  - destruct (Datetime.leb (key x) (key y)) eqn:E.
    + constructor; [constructor; assumption|].
      constructor; [exact E|].
      eapply Forall_impl; [|exact Hall].
      intros z Hz. unfold key_le in *. eapply leb_trans; eassumption.
    + constructor; [assumption|].
      eapply Permutation_Forall; [symmetry; apply insert_perm|].
      constructor; [|assumption].
      apply leb_total. exact E.
Qed.

Lemma sort_by_sorted (l : list A) : StronglySorted key_le (Timeline.sort_by key l).
Proof.
  induction l as [|x l IH]; simpl; [constructor|].
  apply insert_sorted. exact IH.
Qed.
End SortFacts.

Arguments key_le {A} key a b.
Arguments insert_perm {A} key x l.
Arguments sort_by_perm {A} key l.
Arguments insert_sorted {A} key x l _.
Arguments sort_by_sorted {A} key l.

(** ** Timelines *)

Definition resolved_count (timestamps : list Timestamp.t) : nat :=
  length (filter (fun t => is_some (Timestamp.datetime t)) timestamps).

(** [a] and [b] are resolved and [a] is not later than [b]. *)
Definition not_later (a b : Timestamp.t) : Prop :=
  exists da db, Timestamp.datetime a = Some da /\ Timestamp.datetime b = Some db /\
                Datetime.leb da db = true.

Lemma fold_add_timestamp_fields (l : list Timestamp.t) (tl : Timeline.t) :
  Timeline.intervals (fold_left Timeline.add_timestamp l tl) = Timeline.intervals tl /\
  Timeline.conflicts (fold_left Timeline.add_timestamp l tl) = Timeline.conflicts tl /\
  Timeline.id (fold_left Timeline.add_timestamp l tl) = Timeline.id tl.
Proof.
  revert tl. induction l as [|x l IH]; intros tl; simpl; auto.
  destruct (IH (Timeline.add_timestamp tl x)) as (H1 & H2 & H3).
  rewrite H1, H2, H3. auto.
Qed.

Lemma fold_add_timestamp_perm (l : list Timestamp.t) (tl : Timeline.t) :
  Permutation (Timeline.timestamps (fold_left Timeline.add_timestamp l tl))
              (Timeline.timestamps tl ++ l).
Proof.
  revert tl. induction l as [|x l IH]; intros tl; simpl.
  - rewrite app_nil_r. auto.
  - rewrite IH. simpl. rewrite (sort_by_perm Timeline.datetime_or_max).
    rewrite <- app_assoc. auto.
Qed.

Lemma fold_add_timestamp_sorted (l : list Timestamp.t) (tl : Timeline.t) :
  StronglySorted (key_le Timeline.datetime_or_max) (Timeline.timestamps tl) ->
  StronglySorted (key_le Timeline.datetime_or_max)
                 (Timeline.timestamps (fold_left Timeline.add_timestamp l tl)).
Proof.
  revert tl. induction l as [|x l IH]; intros tl H; simpl; auto.
  apply IH. simpl. apply sort_by_sorted.
Qed.

Lemma intervals_of_length (l : list Timestamp.t) :
  Forall (fun t => is_some (Timestamp.datetime t) = true) l ->
  length (TimeSeriesAnalyzer.intervals_of l) = length l - 1.
Proof.
  induction 1 as [|a l Ha Hl IH]; simpl; auto.
  destruct l as [|b l']; auto.
  inversion Hl as [|? ? Hb _]; subst.
  destruct (Timestamp.datetime a); [|discriminate].
  destruct (Timestamp.datetime b); [|discriminate].
  simpl in *. rewrite IH. lia.
Qed.

Lemma sorted_resolved (l : list Timestamp.t) :
  Forall (fun t => is_some (Timestamp.datetime t) = true) l ->
  StronglySorted (key_le Timeline.datetime_or_max) l ->
  StronglySorted not_later l.
Proof.
  intros Hall Hs. induction Hs as [|a l Hs IH Hle]; constructor.
  - apply IH. inversion Hall; assumption.
  - inversion Hall as [|? ? Ha Hl]; subst.
    rewrite Forall_forall in *. intros b Hb.
    specialize (Hle b Hb). specialize (Hl b Hb).
    unfold key_le, Timeline.datetime_or_max, not_later in *.
    destruct (Timestamp.datetime a) as [da|]; [|discriminate].
    destruct (Timestamp.datetime b) as [db|]; [|discriminate].
    eauto.
Qed.

(** C7. For every list of timestamps, the timeline of [build_timeline] holds
    exactly the resolved timestamps of the list, in non-decreasing order of
    their datetimes, and its interval list has length
    max(0, resolved_count - 1). *)
Theorem build_timeline_sorted :
  forall (timestamps : list Timestamp.t) (event_context : str),
    let timeline := TimeSeriesAnalyzer.build_timeline timestamps event_context in
    Permutation (Timeline.timestamps timeline)
                (filter (fun t => is_some (Timestamp.datetime t)) timestamps) /\
    StronglySorted not_later (Timeline.timestamps timeline) /\
    Z.of_nat (length (Timeline.intervals timeline))
    = Z.max 0 (Z.of_nat (resolved_count timestamps) - 1).
Proof.
  intros timestamps event_context timeline.
  set (valid := filter (fun t => is_some (Timestamp.datetime t)) timestamps).
  set (tl0 := {| Timeline.id := u "timeline_1"; Timeline.timestamps := [];
                 Timeline.intervals := []; Timeline.conflicts := [] |}).
  set (sorted := Timeline.sort_by Timeline.datetime_or_max valid).
  assert (Hperm : Permutation (Timeline.timestamps (fold_left Timeline.add_timestamp sorted tl0))
                              valid).
  { rewrite fold_add_timestamp_perm. simpl. apply sort_by_perm. }
  assert (Hall : Forall (fun t => is_some (Timestamp.datetime t) = true)
                        (Timeline.timestamps (fold_left Timeline.add_timestamp sorted tl0))).
  { eapply Permutation_Forall; [symmetry; exact Hperm|].
    apply Forall_forall. intros t Ht. apply filter_In in Ht. apply Ht. }
  assert (Hsorted : StronglySorted (key_le Timeline.datetime_or_max)
                      (Timeline.timestamps (fold_left Timeline.add_timestamp sorted tl0))).
  { apply fold_add_timestamp_sorted. constructor. }
  destruct (fold_add_timestamp_fields sorted tl0) as (Hi & _ & _).
  subst timeline. unfold TimeSeriesAnalyzer.build_timeline.
  fold valid. fold tl0. fold sorted. simpl.
  split; [exact Hperm|]. split; [apply sorted_resolved; assumption|].
  rewrite Hi. simpl. rewrite intervals_of_length by assumption.
  rewrite (Permutation_length Hperm). unfold resolved_count. fold valid. lia.
Qed.

(** ** Strings *)

Lemma str_eqb_eq (a b : str) : str_eqb a b = true <-> a = b.
Proof.
  revert b. induction a as [|x a IH]; intros [|y b]; simpl; split;
    try congruence; try discriminate.
  - intros H. apply andb_true_iff in H. destruct H as [H1 H2].
    apply N.eqb_eq in H1. apply IH in H2. congruence.
  - intros H. injection H as -> ->. rewrite N.eqb_refl. simpl. apply IH. reflexivity.
Qed.

Lemma str_eqb_refl (a : str) : str_eqb a a = true.
Proof. apply str_eqb_eq. reflexivity. Qed.

(** ** Termination of the chain traversal *)

Section Traversal.
Import CausalReasoner.

(** The nodes of the graph that a traversal has not visited yet. *)
Definition unvisited (graph : graph_t) (visited : list str) : nat :=
  length (filter (fun kv => negb (mem (fst kv) visited)) graph).

Definition grows (visited visited' : list str) : Prop :=
  forall x, mem x visited = true -> mem x visited' = true.

Lemma grows_refl (v : list str) : grows v v.
Proof. intros x H. exact H. Qed.

Lemma grows_trans (v1 v2 v3 : list str) : grows v1 v2 -> grows v2 v3 -> grows v1 v3.
Proof. intros H1 H2 x H. auto. Qed.

Lemma grows_cons (x : str) (v : list str) : grows v (x :: v).
Proof. intros y H. simpl. rewrite H. apply orb_true_r. Qed.

Lemma unvisited_le_length (graph : graph_t) (visited : list str) :
  unvisited graph visited <= length graph.
Proof. apply filter_length_le. Qed.

Lemma unvisited_cons (kv : str * list str) (graph : graph_t) (v : list str) :
  unvisited (kv :: graph) v = (if mem (fst kv) v then 0 else 1) + unvisited graph v.
Proof. unfold unvisited. simpl. destruct (mem (fst kv) v); reflexivity. Qed.

Lemma mem_cons (x y : str) (v : list str) : mem x (y :: v) = str_eqb x y || mem x v.
Proof. reflexivity. Qed.

Lemma unvisited_mono (graph : graph_t) (v v' : list str) :
  grows v v' -> unvisited graph v' <= unvisited graph v.
Proof.
  intros H. induction graph as [|kv g IH]; [apply Nat.le_refl|].
  rewrite !unvisited_cons.
  destruct (mem (fst kv) v) eqn:E.
  - rewrite (H _ E). exact IH.
  - destruct (mem (fst kv) v'); lia.
Qed.

Lemma unvisited_visit (graph : graph_t) (start : str) (v : list str) :
  has_key start graph = true -> mem start v = false ->
  unvisited graph (start :: v) < unvisited graph v.
Proof.
  intros Hk Hm. induction graph as [|kv g IH]; [discriminate|].
  pose proof (unvisited_mono g _ _ (grows_cons start v)) as Hle.
  rewrite !unvisited_cons, mem_cons.
  unfold has_key in Hk. simpl in Hk. fold (has_key start g) in Hk.
  destruct (str_eqb start (fst kv)) eqn:E.
  - apply str_eqb_eq in E. subst start.
    rewrite str_eqb_refl, Hm. simpl. lia.
  - simpl in Hk. specialize (IH Hk).
    destruct (mem (fst kv) v); rewrite ?orb_true_r, ?orb_false_r; [lia|].
    destruct (str_eqb (fst kv) start); lia.
Qed.

(** A traversal that may still descend as deep as there are unvisited nodes
    returns, and it only adds to the visited set. *)
Lemma trace_loop_returns (graph : graph_t) (fuel : nat)
    (rec : str -> list str -> option (list str * list str)) :
  (forall start visited, unvisited graph visited < fuel ->
     exists chain visited', rec start visited = Some (chain, visited') /\
                            grows visited visited') ->
  forall nodes chain visited, unvisited graph visited < fuel ->
    exists chain' visited', trace_loop rec nodes chain visited = Some (chain', visited') /\
                            grows visited visited'.
Proof.
  intros Hrec. induction nodes as [|n nodes IH]; intros chain visited Hlt; simpl.
  - exists chain, visited. split; [reflexivity|apply grows_refl].
  - destruct (mem n visited); [apply IH; exact Hlt|].
    destruct (Hrec n visited Hlt) as (sub & v' & -> & Hg).
    destruct (IH (chain ++ sub) v') as (c'' & v'' & Heq & Hg').
    + pose proof (unvisited_mono graph _ _ Hg). lia.
    + exists c'', v''. split; [exact Heq|]. eapply grows_trans; eassumption.
Qed.

Lemma trace_chain_returns (graph : graph_t) (fuel : nat) :
  forall start visited, unvisited graph visited < fuel ->
    exists chain visited', _trace_chain fuel start graph visited = Some (chain, visited') /\
                           grows visited visited'.
Proof.
  induction fuel as [|fuel IH]; intros start visited Hlt; [lia|]. simpl.
  destruct (mem start visited) eqn:Hm; simpl.
  - exists [start], visited. split; [reflexivity|apply grows_refl].
  - destruct (has_key start graph) eqn:Hk; simpl.
    + pose proof (unvisited_visit graph start visited Hk Hm) as Hdec.
      destruct (@trace_loop_returns graph fuel
                  (fun next_node visited => _trace_chain fuel next_node graph visited)
                  IH (get graph start) [start] (start :: visited))
        as (c & v' & Heq & Hg); [lia|].
      exists c, v'. split; [exact Heq|].
      eapply grows_trans; [apply grows_cons|exact Hg].
    + exists [start], visited. split; [reflexivity|apply grows_refl].
Qed.

(** More fuel does not change a result. *)
Lemma trace_loop_more (rec rec' : str -> list str -> option (list str * list str)) :
  (forall n v r, rec n v = Some r -> rec' n v = Some r) ->
  forall nodes chain visited r,
    trace_loop rec nodes chain visited = Some r ->
    trace_loop rec' nodes chain visited = Some r.
Proof.
  intros H. induction nodes as [|n nodes IH]; intros chain visited r; simpl; auto.
  destruct (mem n visited); auto.
  destruct (rec n visited) as [[sub v']|] eqn:E; [|discriminate].
  rewrite (H _ _ _ E). apply IH.
Qed.

Lemma trace_chain_more (graph : graph_t) (fuel fuel' : nat) :
  fuel <= fuel' ->
  forall start visited r,
    _trace_chain fuel start graph visited = Some r ->
    _trace_chain fuel' start graph visited = Some r.
Proof.
  revert fuel'. induction fuel as [|fuel IH]; intros fuel' Hle start visited r;
    simpl; [discriminate|].
  destruct fuel' as [|fuel']; [lia|]. simpl.
  destruct (mem start visited || negb (has_key start graph)); auto.
  apply trace_loop_more. intros n v r'. apply IH. lia.
Qed.

Lemma chains_from_returns (graph : graph_t) (fuel : nat) (all : list CausalRelation.t) :
  length graph < fuel ->
  forall todo chains visited,
    exists result, forall fuel', fuel <= fuel' ->
      chains_from fuel' graph all todo chains visited = Some result.
Proof.
  intros Hlt. induction todo as [|rel todo IH]; intros chains visited; simpl.
  - exists chains. reflexivity.
  - destruct (mem (CausalRelation.cause rel) visited); [apply IH|].
    destruct (@trace_chain_returns graph fuel (CausalRelation.cause rel) [])
      as (chain & v' & Heq & _).
    { pose proof (unvisited_le_length graph []). lia. }
    destruct (IH (if 1 <? length chain then chains ++ [_create_causal_chain chain all]
                  else chains) (chain ++ visited)) as (result & Hres).
    exists result. intros fuel' Hle.
    rewrite (@trace_chain_more graph fuel fuel' Hle _ _ _ Heq). apply Hres. exact Hle.
Qed.

End Traversal.

(** A cyclic graph: a → b → c → a, and a → d. *)
Definition link (cause effect : string) : CausalRelation.t :=
  {| CausalRelation.id := [];
     CausalRelation.cause := u cause;
     CausalRelation.effect := u effect;
     CausalRelation.causal_type := DIRECT;
     CausalRelation.strength := MODERATE;
     CausalRelation.confidence := 0.85;
     CausalRelation.evidence := [];
     CausalRelation.intermediate_factors := [];
     CausalRelation.description := [] |}.

Definition cycle : list CausalRelation.t :=
  [link "a" "b"; link "b" "c"; link "c" "a"; link "a" "d"].

Example trace_chain_on_cycle :
  CausalReasoner._trace_chain 5 (u "a") (CausalReasoner._build_causal_graph cycle) []
  = Some ([u "a"; u "b"; u "c"; u "d"], [u "d"; u "c"; u "b"; u "a"]).
Proof. vm_compute. reflexivity. Qed.

(** C9. [_trace_chain] returns on every finite graph, from every start node
    and visited set, cycles or not: a recursion depth above the number of
    nodes of the graph is never exceeded, and the result is the same for
    every greater bound. So [build_causal_chain] returns a list of chains
    for every finite list of relations. *)
Theorem build_causal_chain_terminates :
  (forall graph start visited, exists r,
     forall fuel, length graph < fuel ->
       CausalReasoner._trace_chain fuel start graph visited = Some r) /\
  (forall relations, exists chains,
     CausalReasoner.build_causal_chain relations = chains /\
     forall fuel, CausalReasoner.enough_fuel relations <= fuel ->
       CausalReasoner.build_causal_chain_fuel fuel relations = Some chains).
Proof.
  split.
  - intros graph start visited.
    destruct (@trace_chain_returns graph (S (length graph)) start visited)
      as (chain & v' & Heq & _).
    { pose proof (unvisited_le_length graph visited). lia. }
    exists (chain, v'). intros fuel Hlt.
    apply (@trace_chain_more graph (S (length graph)) fuel); [lia|exact Heq].
  - intros relations.
    unfold CausalReasoner.build_causal_chain, CausalReasoner.build_causal_chain_fuel.
    destruct relations as [|rel relations].
    + exists []. split; reflexivity.
    + set (rels := rel :: relations).
      assert (Hlt : length (CausalReasoner._build_causal_graph rels)
                    < CausalReasoner.enough_fuel rels)
        by (unfold CausalReasoner.enough_fuel; lia).
      destruct (@chains_from_returns (CausalReasoner._build_causal_graph rels)
                  (CausalReasoner.enough_fuel rels) rels Hlt rels [] [])
        as (result & Hres).
      exists result. split.
      * rewrite (Hres _ (Nat.le_refl _)). reflexivity.
      * exact Hres.
Qed.

(** ** What a match captures *)

Section RegexFacts.

Lemma startswith_firstn (w s : str) : startswith w s = true -> firstn (length w) s = w.
Proof.
  revert s. induction w as [|x w IH]; intros [|y s]; simpl; try discriminate; auto.
  intros H. apply andb_true_iff in H. destruct H as [H1 H2].
  apply N.eqb_eq in H1. subst. f_equal. auto.
Qed.

Lemma startswith_length (w s : str) : startswith w s = true -> length w <= length s.
Proof.
  revert s. induction w as [|x w IH]; intros [|y s]; simpl; try discriminate; try lia.
  intros H. apply andb_true_iff in H. destruct H as [_ H2]. apply IH in H2. lia.
Qed.

Lemma consumed_literal (w s : str) :
  startswith w s = true -> consumed s (skipn (length w) s) = w.
Proof.
  intros H. unfold consumed. rewrite length_skipn.
  pose proof (startswith_length w s H).
  replace (length s - (length s - length w)) with (length w) by lia.
  apply startswith_firstn. exact H.
Qed.

(** A state reached by a literal [w]. *)
Definition reads (w : str) (st st' : mstate) : Prop :=
  startswith w (rest st) = true /\
  rest st' = skipn (length w) (rest st) /\ caps st' = caps st.

Lemma run_lit (w : str) (st st' : mstate) : In st' (run (Lit w) st) -> reads w st st'.
Proof.
  simpl. destruct (startswith w (rest st)) eqn:E; [|contradiction].
  intros [<-|[]]. repeat split. exact E.
Qed.

Lemma run_fold_alt (ws : list str) (r : regex) (st st' : mstate) :
  In st' (run (fold_left (fun r w' => Alt r (Lit w')) ws r) st) ->
  In st' (run r st) \/ exists w, In w ws /\ reads w st st'.
Proof.
  revert r. induction ws as [|w ws IH]; intros r H; simpl in *; auto.
  apply IH in H. destruct H as [H|(w' & Hin & Hr)].
  - simpl in H. apply in_app_or in H. destruct H as [H|H]; auto.
    right. exists w. split; auto. apply run_lit. exact H.
  - right. exists w'. auto.
Qed.

Lemma run_alts (w0 : str) (ws : list str) (st st' : mstate) :
  In st' (run (alts (w0 :: ws)) st) -> exists w, In w (w0 :: ws) /\ reads w st st'.
Proof.
  unfold alts. intros H. apply run_fold_alt in H. destruct H as [H|(w & Hin & Hr)].
  - exists w0. split; [left; reflexivity|]. apply run_lit. exact H.
  - exists w. split; [right; exact Hin|exact Hr].
Qed.

Lemma run_group_alts (i : nat) (w0 : str) (ws : list str) (st st' : mstate) :
  In st' (run (Group i (alts (w0 :: ws))) st) ->
  exists w, In w (w0 :: ws) /\ group (caps st') i = Some w.
Proof.
  intros H. change (run (Group i (alts (w0 :: ws))) st) with
    (map (fun st' => {| rest := rest st';
                        caps := (i, consumed (rest st) (rest st')) :: caps st' |})
         (run (alts (w0 :: ws)) st)) in H.
  apply in_map_iff in H. destruct H as (st1 & <- & H).
  apply run_alts in H. destruct H as (w & Hin & Hs & Hr & _).
  exists w. split; [exact Hin|]. simpl. rewrite Nat.eqb_refl.
  rewrite Hr, consumed_literal by exact Hs. reflexivity.
Qed.

(** [binds i r]: the pattern [r] holds a group numbered [i]. *)
Fixpoint binds (i : nat) (r : regex) : bool :=
  match r with
  | Seq r1 r2 | Alt r1 r2 => binds i r1 || binds i r2
  | Rep _ _ _ r1 => binds i r1
  | Group j r1 => Nat.eqb i j || binds i r1
  | _ => false
  end.

Definition keeps (i : nat) (step : mstate -> list mstate) : Prop :=
  forall st st', In st' (step st) -> group (caps st') i = group (caps st) i.

Lemma one_char_keeps (i : nat) (p : N -> bool) : keeps i (one_char p).
Proof.
  intros st st'. unfold one_char. destruct (rest st) as [|c t]; [contradiction|].
  destruct (p c); [|contradiction]. intros [<-|[]]. reflexivity.
Qed.

Lemma flat_map_keeps (i : nat) (f g : mstate -> list mstate) :
  keeps i f -> keeps i g -> keeps i (fun st => flat_map g (f st)).
Proof.
  intros Hf Hg st st' H. apply in_flat_map in H. destruct H as (st1 & H1 & H2).
  rewrite (Hg _ _ H2). apply Hf. exact H1.
Qed.

Lemma exactly_keeps (i : nat) (step : mstate -> list mstate) (n : nat) :
  keeps i step -> keeps i (exactly step n).
Proof.
  intros Hs. induction n as [|n IH]; simpl.
  - intros st st' [<-|[]]. reflexivity.
  - apply (flat_map_keeps i _ _ Hs IH).
Qed.

Lemma upto_keeps (i : nat) (step : mstate -> list mstate) (n : nat) (greedy : bool) :
  keeps i step -> keeps i (upto step n greedy).
Proof.
  intros Hs. induction n as [|n IH]; simpl.
  - intros st st' [<-|[]]. reflexivity.
  - intros st st' H.
    assert (H' : st' = st \/ In st' (flat_map (upto step n greedy) (step st))).
    { destruct greedy.
      - apply in_app_or in H. destruct H as [H|[<-|[]]]; auto.
      - destruct H as [<-|H]; auto. }
    destruct H' as [->|H']; [reflexivity|].
    apply (flat_map_keeps i _ _ Hs IH _ _ H').
Qed.

Lemma run_keeps (i : nat) (r : regex) : binds i r = false -> keeps i (run r).
Proof.
  induction r as [w| | | |cs|r1 IH1 r2 IH2|r1 IH1 r2 IH2|lo hi greedy r1 IH1|j r1 IH1];
    simpl; intros Hb.
  - intros st st' H. apply run_lit in H. destruct H as (_ & _ & ->). reflexivity.
  - apply one_char_keeps.
  - apply one_char_keeps.
  - apply one_char_keeps.
  - apply one_char_keeps.
  - apply orb_false_iff in Hb. destruct Hb as [H1 H2].
    apply (flat_map_keeps i _ _ (IH1 H1) (IH2 H2)).
  - apply orb_false_iff in Hb. destruct Hb as [H1 H2].
    intros st st' H. apply in_app_or in H. destruct H as [H|H].
    + apply (IH1 H1 _ _ H).
    + apply (IH2 H2 _ _ H).
  - intros st st' H. apply in_flat_map in H. destruct H as (st1 & Hin1 & Hin2).
    rewrite (upto_keeps i _ _ _ (IH1 Hb) _ _ Hin2).
    apply (exactly_keeps i _ lo (IH1 Hb) _ _ Hin1).
  - apply orb_false_iff in Hb. destruct Hb as [H1 H2].
    intros st st' H. apply in_map_iff in H. destruct H as (st1 & <- & H).
    simpl. rewrite H1. apply (IH1 H2 _ _ H).
Qed.

(** A pattern that ends with [(w0|...)] as its group [i], or has it followed
    by a pattern without a group [i], captures one of the words. *)
Lemma run_seq_before (i : nat) (r r2 : regex) (ws : list str) (st st' : mstate) :
  (forall st1 st2, In st2 (run r2 st1) -> exists w, In w ws /\ group (caps st2) i = Some w) ->
  In st' (run (Seq r r2) st) ->
  exists w, In w ws /\ group (caps st') i = Some w.
Proof.
  intros H2 H. simpl in H. apply in_flat_map in H. destruct H as (st1 & _ & H).
  eapply H2. exact H.
Qed.

Lemma run_seq_after (i : nat) (r1 r : regex) (ws : list str) (st st' : mstate) :
  (forall st0 st1, In st1 (run r1 st0) -> exists w, In w ws /\ group (caps st1) i = Some w) ->
  binds i r = false ->
  In st' (run (Seq r1 r) st) ->
  exists w, In w ws /\ group (caps st') i = Some w.
Proof.
  intros H1 Hb H. simpl in H. apply in_flat_map in H. destruct H as (st1 & Hin1 & Hin2).
  rewrite (@run_keeps i r Hb _ _ Hin2). eapply H1. exact Hin1.
Qed.

Lemma match_at_caps (r : regex) (pos : nat) (s : str) (m : Match) :
  match_at r pos s = Some m ->
  exists st', In st' (run r {| rest := s; caps := [] |}) /\ m_caps m = caps st'.
Proof.
  unfold match_at. destruct (run r _) as [|st l]; [discriminate|].
  intros H. injection H as <-. exists st. split; [left; reflexivity|reflexivity].
Qed.

Lemma finditer_from_In (r : regex) (s : str) :
  forall skip pos m, In m (finditer_from r skip pos s) ->
    exists pos' s', match_at r pos' s' = Some m.
Proof.
  induction s as [|c s IH]; intros skip pos m; simpl; [contradiction|].
  destruct skip as [|k]; [|apply IH].
  destruct (match_at r pos (c :: s)) as [m'|] eqn:E; [|apply IH].
  intros [<-|H]; [eauto|]. eapply IH. exact H.
Qed.

Lemma finditer_caps (r : regex) (s : str) (m : Match) :
  In m (finditer r s) ->
  exists st st', In st' (run r st) /\ m_caps m = caps st'.
Proof.
  intros H. apply finditer_from_In in H. destruct H as (pos & s' & H).
  apply match_at_caps in H. destruct H as (st' & H1 & H2). eauto.
Qed.

End RegexFacts.

(** ** The explicit patterns of [extract_causal_relations] *)

Section ExplicitPatterns.
Import CausalReasoner.

(** The words of the second groups of the five patterns. *)
Definition connectives : list str :=
  [u "所以"; u "因此"; u "因而"; u "故而"; u "导致"; u "引起"; u "造成"; u "致使";
   u "进而"; u "从而"].

Lemma connectives_clean_short :
  forallb (fun w => length (_clean_cause_effect (strip w)) <=? 2) connectives = true.
Proof. vm_compute. reflexivity. Qed.

Lemma in_connectives (ws : list str) :
  forallb (fun w => mem w connectives) ws = true ->
  forall w, In w ws -> In w connectives.
Proof.
  intros H w Hin. rewrite forallb_forall in H. specialize (H w Hin).
  unfold mem in H. apply existsb_exists in H. destruct H as (w' & Hin' & Heq).
  apply str_eqb_eq in Heq. subst. exact Hin'.
Qed.

Lemma group2_alts (w0 : str) (ws : list str) :
  forallb (fun w => mem w connectives) (w0 :: ws) = true ->
  forall st1 st2, In st2 (run (Group 2 (alts (w0 :: ws))) st1) ->
    exists w, In w connectives /\ group (caps st2) 2 = Some w.
Proof.
  intros Hws st1 st2 H. apply run_group_alts in H. destruct H as (w & Hin & Hw).
  exists w. split; [|exact Hw]. eapply in_connectives; eassumption.
Qed.

(** In every match of each of the five patterns, group 2 is the connective
    itself. *)
Lemma second_group_is_connective (pt : regex * str) (text : str) (m : Match) :
  In pt legal_causal_patterns -> In m (finditer (fst pt) text) ->
  exists w, In w connectives /\ group (m_caps m) 2 = Some w.
Proof.
  intros Hpt Hm. apply finditer_caps in Hm. destruct Hm as (st & st' & Hrun & ->).
  unfold legal_causal_patterns in Hpt.
  destruct Hpt as [<-|[<-|[<-|[<-|[<-|[]]]]]]; cbv [fst seqs] in Hrun;
    revert Hrun.
  - apply run_seq_before. intros st1 st2. apply run_seq_before.
    apply group2_alts. vm_compute. reflexivity.
  - apply run_seq_before. intros st1 st2. apply run_seq_before.
    apply group2_alts. vm_compute. reflexivity.
  - apply run_seq_before. intros st1 st2. apply run_seq_after; [|reflexivity].
    apply group2_alts. vm_compute. reflexivity.
  - apply run_seq_before. intros st1 st2. apply run_seq_after; [|reflexivity].
    apply group2_alts. vm_compute. reflexivity.
  - apply run_seq_before. intros st1 st2. apply run_seq_after; [|reflexivity].
    apply group2_alts. vm_compute. reflexivity.
Qed.

Lemma relation_of_match_none (pt : regex * str) (text : str) (m : Match) (relation_id : nat) :
  In pt legal_causal_patterns -> In m (finditer (fst pt) text) ->
  relation_of_match (snd pt) (ngroups (fst pt)) m relation_id = None.
Proof.
  intros Hpt Hm.
  destruct (second_group_is_connective pt text m Hpt Hm) as (w & Hin & Hw).
  pose proof connectives_clean_short as Hshort.
  rewrite forallb_forall in Hshort. specialize (Hshort w Hin).
  apply Nat.leb_le in Hshort.
  unfold relation_of_match. rewrite Hw.
  destruct (2 <=? ngroups (fst pt)); [|reflexivity].
  destruct (group (m_caps m) 1); [|reflexivity].
  replace (2 <? length (_clean_cause_effect (strip w))) with false
    by (symmetry; apply Nat.ltb_ge; exact Hshort).
  rewrite andb_false_r. reflexivity.
Qed.

Lemma explicit_relations_empty (text : str) : explicit_relations text = ([], 1).
Proof.
  unfold explicit_relations.
  assert (Hinner : forall pt, In pt legal_causal_patterns ->
            forall ms, incl ms (finditer (fst pt) text) ->
            forall st : list CausalRelation.t * nat,
              fold_left
                (fun '(relations, relation_id) m =>
                   match relation_of_match (snd pt) (ngroups (fst pt)) m relation_id with
                   | Some relation => (relations ++ [relation], S relation_id)
                   | None => (relations, relation_id)
                   end) ms st = st).
  { intros pt Hpt. induction ms as [|m ms IH]; intros Hincl [rels rid]; simpl; auto.
    rewrite (relation_of_match_none pt text m rid Hpt) by (apply Hincl; left; reflexivity).
    apply IH. intros x Hx. apply Hincl. right. exact Hx. }
  assert (Houter : forall pts, incl pts legal_causal_patterns ->
            forall st : list CausalRelation.t * nat,
              fold_left
                (fun st pt =>
                   fold_left
                     (fun '(relations, relation_id) m =>
                        match relation_of_match (snd pt) (ngroups (fst pt)) m relation_id with
                        | Some relation => (relations ++ [relation], S relation_id)
                        | None => (relations, relation_id)
                        end) (finditer (fst pt) text) st) pts st = st).
  { induction pts as [|pt pts IH]; intros Hincl st; simpl; auto.
    rewrite Hinner; [|apply Hincl; left; reflexivity|apply incl_refl].
    apply IH. intros x Hx. apply Hincl. right. exact Hx. }
  apply Houter. apply incl_refl.
Qed.

(** The sentences between which implicit relations are sought. *)
Definition sentences (text : str) : list str :=
  split (OneOf (u "。！？" ++ [newline])) text.

(** [r] is the implicit relation between two adjacent sentences of [text]. *)
Definition implicit_relation (text : str) (r : CausalRelation.t) : Prop :=
  exists i s1 s2,
    nth_error (sentences text) i = Some s1 /\
    nth_error (sentences text) (S i) = Some s2 /\
    CausalRelation.id r = u "causal_implicit_" ++ str_of_nat i /\
    CausalRelation.cause r = strip s1 /\
    CausalRelation.effect r = strip s2 /\
    CausalRelation.causal_type r = INDIRECT /\
    CausalRelation.strength r = WEAK /\
    CausalRelation.confidence r = 0.6%float.

Lemma implicit_from_spec (l : list str) :
  forall i r, In r (implicit_from i l) ->
    exists k s1 s2,
      nth_error l k = Some s1 /\ nth_error l (S k) = Some s2 /\
      CausalRelation.id r = u "causal_implicit_" ++ str_of_nat (i + k) /\
      CausalRelation.cause r = strip s1 /\
      CausalRelation.effect r = strip s2 /\
      CausalRelation.causal_type r = INDIRECT /\
      CausalRelation.strength r = WEAK /\
      CausalRelation.confidence r = 0.6%float.
Proof.
  induction l as [|s1 l IH]; intros i r H; [contradiction|].
  destruct l as [|s2 l]; [contradiction|].
  change (implicit_from i (s1 :: s2 :: l)) with
    ((if (length (strip s1) <? 5) || (length (strip s2) <? 5) then []
      else if _has_implicit_causality (strip s1) (strip s2) then
        [{| CausalRelation.id := u "causal_implicit_" ++ str_of_nat i;
            CausalRelation.cause := strip s1;
            CausalRelation.effect := strip s2;
            CausalRelation.causal_type := INDIRECT;
            CausalRelation.strength := WEAK;
            CausalRelation.confidence := 0.6;
            CausalRelation.evidence := [];
            CausalRelation.intermediate_factors := [];
            CausalRelation.description :=
              u "隐式因果: " ++ strip s1 ++ u " → " ++ strip s2 |}]
      else []) ++ implicit_from (S i) (s2 :: l)) in H.
  apply in_app_or in H. destruct H as [H|H].
  - destruct ((length (strip s1) <? 5) || (length (strip s2) <? 5)); [contradiction|].
    destruct (_has_implicit_causality (strip s1) (strip s2)); [|contradiction].
    destruct H as [<-|[]]. exists 0, s1, s2. rewrite Nat.add_0_r.
    repeat split; reflexivity.
  - apply IH in H. destruct H as (k & a & b & H1 & H2 & H3 & H4).
    exists (S k), a, b. replace (i + S k) with (S i + k) by lia.
    repeat split; try assumption; apply H4.
Qed.

Lemma dedup_from_In (seen l : list CausalRelation.t) (r : CausalRelation.t) :
  In r (dedup_from seen l) -> In r l.
Proof.
  revert seen. induction l as [|x l IH]; intros seen; simpl; auto.
  destruct (existsb (same_key x) seen).
  - intros H. right. eapply IH. exact H.
  - intros [H|H]; [left; exact H|right; eapply IH; exact H].
Qed.

End ExplicitPatterns.

(** C4. For every text: in each match of each explicit pattern the second
    group is the connective, whose cleaned form has at most 2 characters;
    so the explicit patterns add no relation, and every relation returned is
    the implicit relation of two adjacent sentences, with type INDIRECT,
    strength WEAK and confidence 0.6. *)
Theorem explicit_patterns_never_contribute :
  forall text : str,
    (forall pt m, In pt CausalReasoner.legal_causal_patterns ->
                  In m (finditer (fst pt) text) ->
       exists w, group (m_caps m) 2 = Some w /\ In w connectives /\
                 length (CausalReasoner._clean_cause_effect (strip w)) <= 2) /\
    fst (CausalReasoner.explicit_relations text) = [] /\
    Forall (implicit_relation text) (CausalReasoner.extract_causal_relations text).
Proof.
  intros text. split; [|split].
  - intros pt m Hpt Hm.
    destruct (second_group_is_connective pt text m Hpt Hm) as (w & Hin & Hw).
    exists w. split; [exact Hw|]. split; [exact Hin|].
    pose proof connectives_clean_short as Hshort.
    rewrite forallb_forall in Hshort. apply Nat.leb_le. apply Hshort. exact Hin.
  - rewrite explicit_relations_empty. reflexivity.
  - apply Forall_forall. intros r Hr.
    unfold CausalReasoner.extract_causal_relations in Hr.
    rewrite explicit_relations_empty in Hr. simpl in Hr.
    apply dedup_from_In in Hr.
    apply implicit_from_spec in Hr. destruct Hr as (k & s1 & s2 & H).
    exists k, s1, s2. exact H.
Qed.

(** Two adjacent sentences with a start cue and a follow cue give the one
    relation of the text. *)
Example implicit_relation_found :
  map (fun r => (CausalRelation.id r, CausalRelation.cause r, CausalRelation.effect r,
                 CausalRelation.causal_type r, CausalRelation.strength r))
      (CausalReasoner.extract_causal_relations (u "他首先去了商店买东西。然后他回家做饭。"))
  = [(u "causal_implicit_0", u "他首先去了商店买东西", u "然后他回家做饭", INDIRECT, WEAK)].
Proof. vm_compute. reflexivity. Qed.

(** ** The premeditation score *)

(** Which of the five indicator classes are present, in the order of the
    source. *)
Definition indicator_flags (text : str) (time_analysis : TimeAnalysis.t)
    (causal_analysis : CausalSummary.t) : list bool :=
  map (fun x => fst (fst x))
      (DeepReasoner.premeditation_indicators text time_analysis causal_analysis).

Definition score_of (text : str) (time_analysis : TimeAnalysis.t)
    (causal_analysis : CausalSummary.t) : float :=
  Premeditation.premeditation_score
    (DeepReasoner._analyze_premeditation text time_analysis causal_analysis).

Local Ltac name_flags :=
  repeat match goal with
         | |- context [any_in ?k ?t] =>
             let b := fresh "flag" in set (b := any_in k t) in *; clearbody b
         | |- context [andb (Nat.ltb 0 ?n) ?c] =>
             let b := fresh "flag" in set (b := andb (Nat.ltb 0 n) c) in *; clearbody b
         end.

(** C8. With the time analysis and the causal analysis held fixed, the
    premeditation score lies in [0,1], and a text in which every indicator
    class of another text is present scores at least as much. *)
Theorem premeditation_score_monotone :
  forall (time_analysis : TimeAnalysis.t) (causal_analysis : CausalSummary.t)
         (A B : str),
    (forall i, nth i (indicator_flags A time_analysis causal_analysis) false = true ->
               nth i (indicator_flags B time_analysis causal_analysis) false = true) ->
    PrimFloat.leb 0 (score_of A time_analysis causal_analysis) = true /\
    PrimFloat.leb (score_of A time_analysis causal_analysis) 1 = true /\
    PrimFloat.leb (score_of A time_analysis causal_analysis)
                  (score_of B time_analysis causal_analysis) = true.
Proof.
  intros ta ca A B H.
  pose proof (H 0) as H0. pose proof (H 1) as H1. pose proof (H 2) as H2.
  pose proof (H 3) as H3. pose proof (H 4) as H4. clear H.
  unfold score_of, indicator_flags, DeepReasoner._analyze_premeditation,
    DeepReasoner.premeditation_indicators in *.
  cbn [map nth fst] in H0, H1, H2, H3, H4.
  name_flags. clear H0 H1.
  destruct flag5, flag6, flag, flag2, flag0, flag3, flag1, flag4;
    try (specialize (H2 eq_refl); discriminate);
    try (specialize (H3 eq_refl); discriminate);
    try (specialize (H4 eq_refl); discriminate);
    vm_compute; repeat split.
Qed.

(** An analysis of a text without time expressions and the causal summary
    of the empty text. *)
Definition no_time_analysis : TimeAnalysis.t :=
  {| TimeAnalysis.timestamps_count := 0;
     TimeAnalysis.timeline :=
       {| TimeSeriesAnalyzer.TimelineSummary.total_timestamps := 0;
          TimeSeriesAnalyzer.TimelineSummary.time_range := [PStr (u "无时间信息")];
          TimeSeriesAnalyzer.TimelineSummary.total_duration := [PStr (u "无法计算")] |};
     TimeAnalysis.time_patterns :=
       {| TimeSeriesAnalyzer.TimePatterns.time_distribution := [];
          TimeSeriesAnalyzer.TimePatterns.time_clustering := [];
          TimeSeriesAnalyzer.TimePatterns.time_intervals := [] |};
     TimeAnalysis.time_gaps := [];
     TimeAnalysis.critical_timestamps := [];
     TimeAnalysis.time_conflicts := [];
     TimeAnalysis.logic_valid := true;
     TimeAnalysis.logic_issues := [] |}.

Definition no_causal_analysis : CausalSummary.t := DeepReasoner._analyze_causality [].

Definition text_calm : str := u "他报警了".
Definition text_planned : str := u "他计划好了,随即报警".

(** "他报警了" has the calm class only (score 0.2); "他计划好了,随即报警" has the
    three keyword classes (score 0.3 + 0.2 + 0.2). *)
Lemma premeditation_score_monotone_witness :
  (forall i, nth i (indicator_flags text_calm no_time_analysis no_causal_analysis) false = true ->
             nth i (indicator_flags text_planned no_time_analysis no_causal_analysis) false
             = true) /\
  (PrimFloat.leb 0 (score_of text_calm no_time_analysis no_causal_analysis) = true /\
   PrimFloat.leb (score_of text_calm no_time_analysis no_causal_analysis) 1 = true /\
   PrimFloat.leb (score_of text_calm no_time_analysis no_causal_analysis)
                 (score_of text_planned no_time_analysis no_causal_analysis) = true).
Proof.
  assert (H : forall i,
             nth i (indicator_flags text_calm no_time_analysis no_causal_analysis) false = true ->
             nth i (indicator_flags text_planned no_time_analysis no_causal_analysis) false
             = true).
  { replace (indicator_flags text_calm no_time_analysis no_causal_analysis)
      with [false; false; false; false; true] by (vm_compute; reflexivity).
    replace (indicator_flags text_planned no_time_analysis no_causal_analysis)
      with [false; false; true; true; true] by (vm_compute; reflexivity).
    intros i. do 5 (destruct i as [|i]; [simpl; congruence|]).
    simpl. destruct i; congruence. }
  split; [exact H|].
  exact (premeditation_score_monotone no_time_analysis no_causal_analysis
           text_calm text_planned H).
Defined.

Example premeditation_scores :
  score_of text_calm no_time_analysis no_causal_analysis = 0.2%float /\
  score_of text_planned no_time_analysis no_causal_analysis = (0.3 + 0.2 + 0.2)%float /\
  score_of (u "准备 立即 冷静")
           no_time_analysis no_causal_analysis = (0.3 + 0.2 + 0.2)%float.
Proof. vm_compute. repeat split. Qed.

(** ** Dependence on the clock *)

(** The value of a computation, without the count of clock readings. *)
Definition value {A : Type} (r : result (A * nat)) : result A :=
  match r with
  | Ok (a, _) => Ok a
  | Raise e => Raise e
  end.

Definition result_map {A B : Type} (f : A -> B) (r : result A) : result B :=
  match r with
  | Ok a => Ok (f a)
  | Raise e => Raise e
  end.

(** [m] reads the clock at most [k] times and depends on it through these
    readings only. *)
Definition reads_clock {A : Type} (k : nat) (m : IO A) : Prop :=
  forall (clk1 clk2 : clock) (n1 n2 : nat),
    (forall i, i < k -> clk1 (n1 + i) = clk2 (n2 + i)) ->
    match m clk1 n1, m clk2 n2 with
    | Ok (a1, n1'), Ok (a2, n2') =>
        a1 = a2 /\ exists j, j <= k /\ n1' = n1 + j /\ n2' = n2 + j
    | Raise e1, Raise e2 => e1 = e2
    | _, _ => False
    end.

Section ClockFacts.
Context {A B : Type}.

Lemma reads_ret (a : A) : reads_clock 0 (ret a).
Proof.
  intros clk1 clk2 n1 n2 _. simpl. split; [reflexivity|].
  exists 0. repeat split; lia.
Qed.

Lemma reads_lift (r : result A) : reads_clock 0 (lift r).
Proof.
  intros clk1 clk2 n1 n2 _. unfold lift. destruct r; [|reflexivity].
  split; [reflexivity|]. exists 0. repeat split; lia.
Qed.

Lemma reads_weaken (k k' : nat) (m : IO A) :
  k <= k' -> reads_clock k m -> reads_clock k' m.
Proof.
  intros Hle Hm clk1 clk2 n1 n2 Hc.
  assert (Hc' : forall i, i < k -> clk1 (n1 + i) = clk2 (n2 + i))
    by (intros; apply Hc; lia).
  specialize (Hm clk1 clk2 n1 n2 Hc').
  destruct (m clk1 n1) as [[a1 n1']|e1], (m clk2 n2) as [[a2 n2']|e2]; try exact Hm.
  destruct Hm as (Ha & j & Hj & H1 & H2).
  split; [exact Ha|]. exists j. repeat split; try assumption; lia.
Qed.

Lemma reads_bind (k1 k2 : nat) (m : IO A) (f : A -> IO B) :
  reads_clock k1 m -> (forall a, reads_clock k2 (f a)) ->
  reads_clock (k1 + k2) (bindIO m f).
Proof.
  intros Hm Hf clk1 clk2 n1 n2 Hc. unfold bindIO.
  assert (Hc1 : forall i, i < k1 -> clk1 (n1 + i) = clk2 (n2 + i))
    by (intros; apply Hc; lia).
  specialize (Hm clk1 clk2 n1 n2 Hc1).
  destruct (m clk1 n1) as [[a1 n1']|e1], (m clk2 n2) as [[a2 n2']|e2];
    try contradiction; try exact Hm.
  destruct Hm as (Ha & j & Hj & H1 & H2). subst a2 n1' n2'.
  assert (Hc2 : forall i, i < k2 -> clk1 (n1 + j + i) = clk2 (n2 + j + i))
    by (intros; rewrite <- !Nat.add_assoc; apply Hc; lia).
  specialize (Hf a1 clk1 clk2 (n1 + j) (n2 + j) Hc2).
  destruct (f a1 clk1 (n1 + j)) as [[b1 m1]|e1], (f a1 clk2 (n2 + j)) as [[b2 m2]|e2];
    try exact Hf.
  destruct Hf as (Hb & j' & Hj' & H1 & H2).
  split; [exact Hb|]. exists (j + j'). repeat split; lia.
Qed.

End ClockFacts.

Lemma reads_now : reads_clock 1 now.
Proof.
  intros clk1 clk2 n1 n2 Hc. simpl. split.
  - specialize (Hc 0). rewrite !Nat.add_0_r in Hc. apply Hc. lia.
  - exists 1. repeat split; lia.
Qed.

Lemma reads_reference (pats : list regex) (text : str) :
  reads_clock 1 (TimeSeriesAnalyzer.reference_from pats text).
Proof.
  induction pats as [|pattern pats IH]; simpl; [apply reads_now|].
  destruct (search pattern text); [|exact IH].
  eapply reads_weaken; [|apply reads_lift]. lia.
Qed.

Lemma reads_extract_timestamps (text event_context : str) :
  reads_clock 1 (TimeSeriesAnalyzer.extract_timestamps text event_context).
Proof.
  unfold TimeSeriesAnalyzer.extract_timestamps.
  apply (reads_bind 1 0); [apply reads_reference|].
  intros reference_date. destruct (fold_left _ _ _). apply reads_ret.
Qed.

Lemma reads_analyze_time_series (text : str) :
  reads_clock 1 (DeepReasoner._analyze_time_series text).
Proof.
  unfold DeepReasoner._analyze_time_series.
  apply (reads_bind 1 0); [apply reads_extract_timestamps|].
  intros timestamps. apply reads_ret.
Qed.

Lemma reads_analyze_logic (text : str) (evidences : list Evidence.t) :
  reads_clock 1 (DeepReasoner._analyze_logic text evidences).
Proof.
  unfold DeepReasoner._analyze_logic, DeepReasoner._check_time_logic_valid.
  apply (reads_bind 1 0).
  - apply (reads_bind 1 0); [apply reads_analyze_time_series|].
    intros analysis. apply reads_ret.
  - intros time_ok. apply reads_ret.
Qed.

Lemma reads_reason (self : DeepReasoner.self_t) (text : str)
    (evidences : option (list Evidence.t)) (context : option (list (str * str))) :
  reads_clock 3 (DeepReasoner.reason self text evidences context).
Proof.
  unfold DeepReasoner.reason.
  apply (reads_bind 1 2); [apply reads_now|]. intros timestamp.
  apply (reads_bind 1 1); [apply reads_analyze_time_series|]. intros time_analysis.
  apply (reads_bind 1 0); [apply reads_analyze_logic|]. intros logical_analysis.
  apply reads_ret.
Qed.

(** C3, as the code has it. [reason] reads the clock at most three times
    (the timestamp of the result and, for a text without an absolute date,
    the reference date of each of the two time analyses). Two calls with
    the same text and evidence whose clock readings agree return the same
    result, whatever the states of the reasoner objects and the contexts. *)
Theorem reason_reproducible_given_clock :
  forall (self1 self2 : DeepReasoner.self_t) (text : str)
         (evidences : option (list Evidence.t))
         (context1 context2 : option (list (str * str)))
         (clk1 clk2 : clock) (n1 n2 : nat),
    (forall i, i < 3 -> clk1 (n1 + i) = clk2 (n2 + i)) ->
    value (DeepReasoner.reason self1 text evidences context1 clk1 n1)
    = value (DeepReasoner.reason self2 text evidences context2 clk2 n2).
Proof.
  intros self1 self2 text evidences context1 context2 clk1 clk2 n1 n2 Hc.
  pose proof (reads_reason self1 text evidences context1 clk1 clk2 n1 n2 Hc) as H.
  change (DeepReasoner.reason self2 text evidences context2)
    with (DeepReasoner.reason self1 text evidences context1).
  destruct (DeepReasoner.reason self1 text evidences context1 clk1 n1) as [[r1 m1]|e1],
           (DeepReasoner.reason self1 text evidences context1 clk2 n2) as [[r2 m2]|e2];
    simpl; try contradiction.
  - destruct H as [-> _]. reflexivity.
  - subst. reflexivity.
Qed.

Definition may_11_2024 : datetime :=
  {| year := 2024; month := 5; day := 11;
     hour := 9; minute := 0; second := 0; microsecond := 0 |}.

Definition reasoner_2024 : DeepReasoner.self_t :=
  {| DeepReasoner.time_analyzer :=
       {| TimeSeriesAnalyzer.current_year := 2024;
          TimeSeriesAnalyzer.recent_date_reference := None |} |}.

Definition reasoner_2025 : DeepReasoner.self_t :=
  {| DeepReasoner.time_analyzer :=
       {| TimeSeriesAnalyzer.current_year := 2025;
          TimeSeriesAnalyzer.recent_date_reference := None |} |}.

(** A clock that shows [may_10_2024] for three readings and moves on. *)
Definition clock_moving : clock :=
  fun n => if n <? 3 then may_10_2024 else may_11_2024.

Lemma reason_reproducible_given_clock_witness :
  (forall i, i < 3 -> (fun _ => may_10_2024) (0 + i) = clock_moving (0 + i)) /\
  value (DeepReasoner.reason reasoner_2024 (u "昨天") None None (fun _ => may_10_2024) 0)
  = value (DeepReasoner.reason reasoner_2025 (u "昨天") None (Some []) clock_moving 0).
Proof.
  assert (H : forall i, i < 3 -> (fun _ : nat => may_10_2024) (0 + i) = clock_moving (0 + i)).
  { intros i Hi. unfold clock_moving. simpl.
    destruct i as [|[|[|i]]]; try reflexivity. lia. }
  split; [exact H|].
  exact (reason_reproducible_given_clock reasoner_2024 reasoner_2025 (u "昨天") None
           None (Some []) (fun _ => may_10_2024) clock_moving 0 0 H).
Defined.

(** The result of [reason] on "昨天" when the clock shows [t]. *)
Definition yesterday_at (t : datetime) : result DeepReasoningResult.t :=
  value (DeepReasoner.reason reasoner_2024 (u "昨天") None None (fun _ => t) 0).

(** C3 fails as stated: the same text, evidence and context give results
    that differ with the clock, in the timestamp of the result and in the
    time range of the timeline. *)
Lemma reason_depends_on_clock :
  result_map DeepReasoningResult.timestamp (yesterday_at may_10_2024) = Ok may_10_2024 /\
  result_map DeepReasoningResult.timestamp (yesterday_at may_11_2024) = Ok may_11_2024 /\
  may_10_2024 <> may_11_2024 /\
  result_map (fun r => TimeSeriesAnalyzer.TimelineSummary.time_range
                         (TimeAnalysis.timeline (DeepReasoningResult.time_analysis r)))
             (yesterday_at may_10_2024)
  = Ok [PStrftime TimeSeriesAnalyzer.fmt_minute
          {| year := 2024; month := 5; day := 9;
             hour := 0; minute := 0; second := 0; microsecond := 0 |};
        PStr (u " → ");
        PStrftime TimeSeriesAnalyzer.fmt_minute
          {| year := 2024; month := 5; day := 9;
             hour := 0; minute := 0; second := 0; microsecond := 0 |}] /\
  result_map (fun r => TimeSeriesAnalyzer.TimelineSummary.time_range
                         (TimeAnalysis.timeline (DeepReasoningResult.time_analysis r)))
             (yesterday_at may_11_2024)
  = Ok [PStrftime TimeSeriesAnalyzer.fmt_minute
          {| year := 2024; month := 5; day := 10;
             hour := 0; minute := 0; second := 0; microsecond := 0 |};
        PStr (u " → ");
        PStrftime TimeSeriesAnalyzer.fmt_minute
          {| year := 2024; month := 5; day := 10;
             hour := 0; minute := 0; second := 0; microsecond := 0 |}].
Proof.
  split; [vm_compute; reflexivity|].
  split; [vm_compute; reflexivity|].
  split; [discriminate|].
  split; vm_compute; reflexivity.
Qed.

(** * Further properties of the analysers *)

(** ** Chains as they accumulate relations *)

Definition empty_chain (id : str) : CausalChain.t :=
  {| CausalChain.id := id; CausalChain.relations := []; CausalChain.root_cause := [];
     CausalChain.final_effect := []; CausalChain.completeness := 0.0;
     CausalChain.gaps := [] |}.

(** The first cause that is not the empty string. *)
Definition first_nonempty_cause (rels : list CausalRelation.t) : str :=
  hd [] (filter (fun c => negb (is_empty c)) (map CausalRelation.cause rels)).

Lemma last_indep (A : Type) (d d' : A) (l : list A) (y : A) :
  last (y :: l) d = last (y :: l) d'.
Proof.
  revert y. induction l as [|z l IH]; intros y; [reflexivity|].
  change (last (z :: l) d = last (z :: l) d'). apply IH.
Qed.

Lemma last_cons (A : Type) (x d : A) (l : list A) : last (x :: l) d = last l x.
Proof.
  destruct l as [|y l]; [reflexivity|].
  change (last (y :: l) d = last (y :: l) x). apply last_indep.
Qed.

Lemma add_relations_fields (rels : list CausalRelation.t) (chain : CausalChain.t) :
  CausalChain.relations (fold_left CausalChain.add_relation rels chain)
  = CausalChain.relations chain ++ rels /\
  CausalChain.root_cause (fold_left CausalChain.add_relation rels chain)
  = (if is_empty (CausalChain.root_cause chain) then first_nonempty_cause rels
     else CausalChain.root_cause chain) /\
  CausalChain.final_effect (fold_left CausalChain.add_relation rels chain)
  = last (map CausalRelation.effect rels) (CausalChain.final_effect chain).
Proof.
  revert chain. induction rels as [|rel rels IH]; intros chain.
  - simpl. rewrite app_nil_r. destruct (CausalChain.root_cause chain); auto.
  - change (fold_left CausalChain.add_relation (rel :: rels) chain)
      with (fold_left CausalChain.add_relation rels (CausalChain.add_relation chain rel)).
    destruct (IH (CausalChain.add_relation chain rel)) as (H1 & H2 & H3).
    rewrite H1, H2, H3. simpl CausalChain.relations. simpl CausalChain.root_cause.
    simpl CausalChain.final_effect.
    split; [rewrite <- app_assoc; reflexivity|]. split.
    + unfold first_nonempty_cause. simpl map. simpl filter.
      destruct (CausalChain.root_cause chain) as [|c0 r0]; simpl; [|reflexivity].
      destruct (CausalRelation.cause rel) as [|c1 r1]; simpl; reflexivity.
    + simpl map. symmetry. apply last_cons.
Qed.

(** X1. Adding relations one by one to a new chain keeps them in order; the
    final effect is the effect of the last one; the root cause is the cause
    of the first relation whose cause is not the empty string (an empty
    cause leaves the root cause open for the next relation). *)
Theorem add_relation_accumulates :
  forall (id : str) (rels : list CausalRelation.t),
    let chain := fold_left CausalChain.add_relation rels (empty_chain id) in
    CausalChain.relations chain = rels /\
    CausalChain.root_cause chain = first_nonempty_cause rels /\
    CausalChain.final_effect chain = last (map CausalRelation.effect rels) [].
Proof.
  intros id rels chain. subst chain.
  destruct (add_relations_fields rels (empty_chain id)) as (H1 & H2 & H3).
  rewrite H1, H2, H3. simpl. auto.
Qed.

(** ** The path of a chain *)

Lemma mem_true_iff (x : str) (l : list str) : mem x l = true <-> In x l.
Proof.
  unfold mem. rewrite existsb_exists. split.
  - intros (y & Hy & Heq). apply str_eqb_eq in Heq. subst. exact Hy.
  - intros H. exists x. split; [exact H|apply str_eqb_refl].
Qed.

Lemma mem_false_iff (x : str) (l : list str) : mem x l = false <-> ~ In x l.
Proof.
  rewrite <- mem_true_iff. destruct (mem x l); split; congruence.
Qed.

Lemma append_new_spec (path : list str) (x : str) :
  NoDup path ->
  NoDup (CausalChain.append_new path x) /\
  (forall y, In y (CausalChain.append_new path x) <-> In y path \/ y = x).
Proof.
  intros Hnd. unfold CausalChain.append_new. destruct (mem x path) eqn:E.
  - apply mem_true_iff in E. split; [exact Hnd|].
    intros y. split; [auto|]. intros [H| ->]; assumption.
  - apply mem_false_iff in E. split.
    + apply NoDup_app; [exact Hnd|repeat constructor; intros []|].
      intros y Hy [<-|[]]. exact (E Hy).
    + intros y. rewrite in_app_iff. simpl. intuition.
Qed.

Lemma get_path_from (rels : list CausalRelation.t) (path : list str) :
  NoDup path ->
  let path' := fold_left (fun path rel =>
                            CausalChain.append_new
                              (CausalChain.append_new path (CausalRelation.cause rel))
                              (CausalRelation.effect rel)) rels path in
  NoDup path' /\
  (forall y, In y path' <->
             In y path \/
             exists rel, In rel rels /\
                         (y = CausalRelation.cause rel \/ y = CausalRelation.effect rel)).
Proof.
  revert path. induction rels as [|rel rels IH]; intros path Hnd; simpl.
  - split; [exact Hnd|]. intros y. split; [auto|]. intros [H|(r & [] & _)]. exact H.
  - destruct (append_new_spec path (CausalRelation.cause rel) Hnd) as (Hnd1 & Hin1).
    destruct (append_new_spec _ (CausalRelation.effect rel) Hnd1) as (Hnd2 & Hin2).
    destruct (IH _ Hnd2) as (Hnd3 & Hin3). split; [exact Hnd3|].
    intros y. rewrite Hin3, Hin2, Hin1. split.
    + intros [[[H|H]|H]|(r & Hr & H)]; eauto 6.
    + intros [H|(r & [<-|Hr] & H)]; [tauto| |eauto].
      destruct H as [H|H]; tauto.
Qed.

(** X2. The path of a chain lists every cause and every effect of its
    relations, nothing else, and each of them once. *)
Theorem get_path_nodes_once :
  forall chain : CausalChain.t,
    NoDup (CausalChain.get_path chain) /\
    (forall y, In y (CausalChain.get_path chain) <->
               exists rel, In rel (CausalChain.relations chain) /\
                           (y = CausalRelation.cause rel \/ y = CausalRelation.effect rel)).
Proof.
  intros chain. unfold CausalChain.get_path.
  destruct (get_path_from (CausalChain.relations chain) [] (NoDup_nil _)) as (H1 & H2).
  split; [exact H1|]. intros y. rewrite H2. split; [|auto].
  intros [[]|H]. exact H.
Qed.

(** ** Deduplication of relations *)

Section DedupRelations.
Import CausalReasoner.

Definition key_of (r : CausalRelation.t) : str * str :=
  (CausalRelation.cause r, CausalRelation.effect r).

Lemma same_key_iff (a b : CausalRelation.t) : same_key a b = true <-> key_of a = key_of b.
Proof.
  unfold same_key, key_of. rewrite andb_true_iff, !str_eqb_eq. split.
  - intros [-> ->]. reflexivity.
  - intros H. injection H as -> ->. auto.
Qed.

Lemma seen_iff (r : CausalRelation.t) (seen : list CausalRelation.t) :
  existsb (same_key r) seen = true <-> In (key_of r) (map key_of seen).
Proof.
  rewrite existsb_exists, in_map_iff. split.
  - intros (x & Hx & Hk). apply same_key_iff in Hk. eauto.
  - intros (x & Hk & Hx). exists x. split; [exact Hx|]. apply same_key_iff. auto.
Qed.

Lemma seen_false_iff (r : CausalRelation.t) (seen : list CausalRelation.t) :
  existsb (same_key r) seen = false <-> ~ In (key_of r) (map key_of seen).
Proof.
  rewrite <- seen_iff. destruct (existsb (same_key r) seen); split; congruence.
Qed.

Lemma dedup_from_spec (l seen : list CausalRelation.t) :
  NoDup (map key_of (dedup_from seen l)) /\
  (forall r, In r (dedup_from seen l) ->
             In r l /\ ~ In (key_of r) (map key_of seen) /\
             List.find (same_key r) l = Some r) /\
  (forall r, In r l -> In (key_of r) (map key_of seen) \/
                       In (key_of r) (map key_of (dedup_from seen l))).
Proof.
  revert seen. induction l as [|x l IH]; intros seen; simpl.
  - split; [constructor|]. split; intros r [].
  - destruct (existsb (same_key x) seen) eqn:E.
    + destruct (IH seen) as (H1 & H2 & H3). split; [exact H1|]. split.
      * intros r Hr. destruct (H2 r Hr) as (Ha & Hb & Hc).
        split; [right; exact Ha|]. split; [exact Hb|].
        destruct (same_key r x) eqn:Ex; [|exact Hc].
        apply same_key_iff in Ex. apply seen_iff in E. rewrite <- Ex in E. contradiction.
      * intros r [<-|Hr]; [left; apply seen_iff; exact E|apply H3; exact Hr].
    + destruct (IH (x :: seen)) as (H1 & H2 & H3). simpl. split.
      * constructor; [|exact H1]. intros Hin. apply in_map_iff in Hin.
        destruct Hin as (r & Hk & Hr). destruct (H2 r Hr) as (_ & Hb & _).
        apply Hb. simpl. left. symmetry. exact Hk.
      * split.
        -- intros r [<-|Hr].
           ++ split; [left; reflexivity|]. split; [apply seen_false_iff; exact E|].
              rewrite (proj2 (same_key_iff x x) eq_refl). reflexivity.
           ++ destruct (H2 r Hr) as (Ha & Hb & Hc). split; [right; exact Ha|].
              split; [intros Hin; apply Hb; simpl; right; exact Hin|].
              destruct (same_key r x) eqn:Ex; [|exact Hc].
              apply same_key_iff in Ex. exfalso. apply Hb. simpl. left. symmetry. exact Ex.
        -- intros r [<-|Hr]; [right; left; reflexivity|].
           destruct (H3 r Hr) as [[Hk|Hk]|Hk]; [right; left; exact Hk|left; exact Hk|].
           right. right. exact Hk.
Qed.

End DedupRelations.

(** X3. [_deduplicate_relations] returns relations of the list with
    pairwise different (cause, effect) keys; each one is the first relation
    of the list with its key, and every key of the list is kept. *)
Theorem deduplicate_relations_first_wins :
  forall relations : list CausalRelation.t,
    let unique := CausalReasoner._deduplicate_relations relations in
    NoDup (map key_of unique) /\
    Forall (fun r => List.find (CausalReasoner.same_key r) relations = Some r) unique /\
    Forall (fun r => In (key_of r) (map key_of unique)) relations.
Proof.
  intros relations unique. subst unique. unfold CausalReasoner._deduplicate_relations.
  destruct (dedup_from_spec relations []) as (H1 & H2 & H3).
  split; [exact H1|]. split; apply Forall_forall; intros r Hr.
  - apply H2. exact Hr.
  - destruct (H3 r Hr) as [[]|H]. exact H.
Qed.

(** ** Deduplication of timestamps *)

Section DedupTimestamps.
Import TimeSeriesAnalyzer.

(** The groups have different keys, none is empty, and each holds
    timestamps of its key. *)
Definition well_grouped (groups : list (str * list Timestamp.t)) : Prop :=
  NoDup (map fst groups) /\
  Forall (fun g => snd g <> [] /\ Forall (fun t => Timestamp.text t = fst g) (snd g)) groups.

Lemma key_present_iff (key : str) (groups : list (str * list Timestamp.t)) :
  existsb (fun g => str_eqb key (fst g)) groups = true <-> In key (map fst groups).
Proof.
  rewrite existsb_exists, in_map_iff. split.
  - intros (g & Hg & He). apply str_eqb_eq in He. eauto.
  - intros (g & He & Hg). exists g. split; [exact Hg|]. apply str_eqb_eq. auto.
Qed.

Lemma add_to_group_keys (ts : Timestamp.t) (groups : list (str * list Timestamp.t)) :
  map fst (map (fun g => if str_eqb (Timestamp.text ts) (fst g)
                         then (fst g, snd g ++ [ts]) else g) groups)
  = map fst groups.
Proof.
  rewrite map_map. apply map_ext. intros g.
  destruct (str_eqb (Timestamp.text ts) (fst g)); reflexivity.
Qed.

Lemma group_by_text_spec (l : list Timestamp.t) :
  forall groups, well_grouped groups ->
    well_grouped (group_by_text l groups) /\
    (forall k, In k (map fst (group_by_text l groups)) <->
               In k (map fst groups) \/ In k (map Timestamp.text l)) /\
    (forall g t, In g (group_by_text l groups) -> In t (snd g) ->
                 In t l \/ exists g0, In g0 groups /\ In t (snd g0)).
Proof.
  induction l as [|ts l IH]; intros groups Hwg; simpl.
  - split; [exact Hwg|]. split; [intros k; tauto|]. intros g t Hg Ht. right. eauto.
  - set (key := Timestamp.text ts).
    destruct (existsb (fun g => str_eqb key (fst g)) groups) eqn:E.
    + apply key_present_iff in E.
      set (groups' := map (fun g => if str_eqb key (fst g)
                                    then (fst g, snd g ++ [ts]) else g) groups).
      assert (Hkeys : map fst groups' = map fst groups) by apply add_to_group_keys.
      assert (Hwg' : well_grouped groups').
      { destruct Hwg as (Hnd & Hall). split; [rewrite Hkeys; exact Hnd|].
        apply Forall_forall. intros g Hg. apply in_map_iff in Hg.
        destruct Hg as (g0 & <- & Hg0). rewrite Forall_forall in Hall.
        destruct (Hall g0 Hg0) as (Hne & Hts).
        destruct (str_eqb key (fst g0)) eqn:Ek; [|auto]. simpl. split.
        - intros Happ. apply app_eq_nil in Happ. destruct Happ as [_ Happ]. discriminate.
        - apply Forall_app. split; [exact Hts|]. constructor; [|constructor].
          apply str_eqb_eq in Ek. exact Ek. }
      destruct (IH groups' Hwg') as (H1 & H2 & H3). split; [exact H1|]. split.
      * intros k. rewrite H2, Hkeys. split; [tauto|].
        intros [H|[<-|H]]; auto.
      * intros g t Hg Ht. destruct (H3 g t Hg Ht) as [H|(g0 & Hg0 & Ht0)]; [left; right; exact H|].
        apply in_map_iff in Hg0. destruct Hg0 as (g1 & <- & Hg1).
        destruct (str_eqb key (fst g1)); [|right; eauto].
        simpl in Ht0. apply in_app_or in Ht0. destruct Ht0 as [Ht0|[<-|[]]].
        -- right. eauto.
        -- left. left. reflexivity.
    + assert (Hnk : ~ In key (map fst groups)).
      { rewrite <- key_present_iff. rewrite E. discriminate. }
      assert (Hwg' : well_grouped (groups ++ [(key, [ts])])).
      { destruct Hwg as (Hnd & Hall). split.
        - rewrite map_app. simpl. apply NoDup_app; [exact Hnd|repeat constructor; intros []|].
          intros k Hk [<-|[]]. exact (Hnk Hk).
        - apply Forall_app. split; [exact Hall|]. constructor; [|constructor].
          simpl. split; [discriminate|]. repeat constructor. }
      destruct (IH _ Hwg') as (H1 & H2 & H3). split; [exact H1|]. split.
      * intros k. rewrite H2, map_app, in_app_iff. simpl. tauto.
      * intros g t Hg Ht. destruct (H3 g t Hg Ht) as [H|(g0 & Hg0 & Ht0)]; [left; right; exact H|].
        apply in_app_or in Hg0. destruct Hg0 as [Hg0|[<-|[]]]; [right; eauto|].
        simpl in Ht0. destruct Ht0 as [<-|[]]. left. left. reflexivity.
Qed.

Lemma best_of_In (first : Timestamp.t) (others : list Timestamp.t) :
  In (best_of first others) (first :: others).
Proof.
  unfold best_of. revert first. induction others as [|x others IH]; intros first; simpl.
  - left. reflexivity.
  - destruct (PrimFloat.ltb (Timestamp.confidence first) (Timestamp.confidence x)).
    + destruct (IH x) as [H|H]; auto.
    + destruct (IH first) as [H|H]; auto.
Qed.

Lemma pick_best_texts (groups : list (str * list Timestamp.t)) :
  well_grouped groups ->
  map Timestamp.text
      (flat_map (fun g => match snd g with
                          | [] => []
                          | first :: others => [best_of first others]
                          end) groups)
  = map fst groups /\
  (forall t, In t (flat_map (fun g => match snd g with
                                      | [] => []
                                      | first :: others => [best_of first others]
                                      end) groups) ->
             exists g, In g groups /\ In t (snd g)).
Proof.
  intros (_ & Hall). induction groups as [|g groups IH]; simpl.
  - split; [reflexivity|]. intros t [].
  - inversion Hall as [|? ? (Hne & Hts) Hall']; subst.
    destruct (IH Hall') as (IH1 & IH2).
    destruct (snd g) as [|first others] eqn:Eg; [congruence|]. simpl.
    pose proof (best_of_In first others) as Hbest.
    rewrite Forall_forall in Hts. split.
    + rewrite IH1. f_equal. apply Hts. exact Hbest.
    + intros t [<-|Ht].
      * exists g. split; [left; reflexivity|]. rewrite Eg. exact Hbest.
      * destruct (IH2 t Ht) as (g' & Hg' & Ht'). exists g'. split; [right; exact Hg'|exact Ht'].
Qed.

Lemma deduplicate_timestamps_spec (timestamps : list Timestamp.t) :
  NoDup (map Timestamp.text (_deduplicate_timestamps timestamps)) /\
  incl (_deduplicate_timestamps timestamps) timestamps /\
  (forall t, In t timestamps ->
             In (Timestamp.text t) (map Timestamp.text (_deduplicate_timestamps timestamps))).
Proof.
  unfold _deduplicate_timestamps.
  assert (Hwg0 : well_grouped []) by (split; constructor).
  destruct (group_by_text_spec timestamps [] Hwg0) as (Hwg & Hkeys & Hmem).
  destruct (pick_best_texts _ Hwg) as (Htexts & Hin).
  rewrite Htexts. split; [apply Hwg|]. split.
  - intros t Ht. destruct (Hin t Ht) as (g & Hg & Htg).
    destruct (Hmem g t Hg Htg) as [H|(g0 & [] & _)]. exact H.
  - intros t Ht. apply Hkeys. right. apply in_map. exact Ht.
Qed.

End DedupTimestamps.

(** X4. [_deduplicate_timestamps] returns timestamps of the list, no two with
    the same raw text, and keeps one timestamp for every raw text of the
    list. *)
Theorem deduplicate_timestamps_one_per_text :
  forall timestamps : list Timestamp.t,
    let kept := TimeSeriesAnalyzer._deduplicate_timestamps timestamps in
    NoDup (map Timestamp.text kept) /\
    incl kept timestamps /\
    Forall (fun t => In (Timestamp.text t) (map Timestamp.text kept)) timestamps.
Proof.
  intros timestamps kept. subst kept.
  destruct (deduplicate_timestamps_spec timestamps) as (H1 & H2 & H3).
  split; [exact H1|]. split; [exact H2|]. apply Forall_forall. exact H3.
Qed.

(** ** What [extract_timestamps] returns *)

Lemma fold_left_invariant (A B : Type) (f : A -> B -> A) (I : A -> Prop) (l : list B) :
  (forall a b, In b l -> I a -> I (f a b)) ->
  forall a, I a -> I (fold_left f l a).
Proof.
  induction l as [|b l IH]; intros Hf a Ha; simpl; [exact Ha|].
  apply IH.
  - intros a' b' Hb'. apply Hf. right. exact Hb'.
  - apply Hf; [left; reflexivity|exact Ha].
Qed.

(** A timestamp as [extract_timestamps] builds it from a match of one of
    its patterns in [text], with [reference] as the reference date. *)
Definition extracted_from (text : str) (reference : datetime) (ts : Timestamp.t) : Prop :=
  (exists pp m, In pp TimeSeriesAnalyzer.patterns /\ In m (finditer (fst pp) text) /\
                Timestamp.text ts = m_text m /\ Timestamp.precision ts = snd pp) /\
  Timestamp.datetime ts
  = TimeSeriesAnalyzer._parse_datetime (Timestamp.text ts) reference (Timestamp.precision ts) /\
  Timestamp.event ts = TimeSeriesAnalyzer._extract_event_context (Timestamp.text ts) text /\
  Timestamp.confidence ts = (if is_some (Timestamp.datetime ts) then 0.9 else 0.7)%float /\
  Timestamp.is_estimate ts = negb (is_some (Timestamp.datetime ts)).

(** X5. The timestamps that [extract_timestamps] returns have pairwise
    different raw texts. Each is built from a match of a pattern of the
    table, with the precision of that pattern; it is resolved by
    [_parse_datetime] against one reference date; it has confidence 0.9 and
    is no estimate when resolved, confidence 0.7 and is an estimate when
    not. *)
Theorem extract_timestamps_well_formed :
  forall (text event_context : str) (clk : clock) (n n' : nat)
         (timestamps : list Timestamp.t),
    TimeSeriesAnalyzer.extract_timestamps text event_context clk n = Ok (timestamps, n') ->
    NoDup (map Timestamp.text timestamps) /\
    exists reference, Forall (extracted_from text reference) timestamps.
Proof.
  intros text event_context clk n n' timestamps.
  unfold TimeSeriesAnalyzer.extract_timestamps, bindIO.
  destruct (TimeSeriesAnalyzer._determine_reference_date text event_context clk n)
    as [[reference n1]|e]; [|discriminate].
  match goal with
  | |- context [fold_left ?f TimeSeriesAnalyzer.patterns ?a] =>
      assert (Hinv : Forall (extracted_from text reference)
                            (fst (fold_left f TimeSeriesAnalyzer.patterns a)));
      [|destruct (fold_left f TimeSeriesAnalyzer.patterns a) as [all fact_id]]
  end.
  { apply (fold_left_invariant _ _ _
             (fun st => Forall (extracted_from text reference) (fst st))); [|constructor].
    intros st pp Hpp Hst.
    apply (fold_left_invariant _ _ _
             (fun st => Forall (extracted_from text reference) (fst st))); [|exact Hst].
    intros [tss fid] m Hm Htss. simpl. apply Forall_app. split; [exact Htss|].
    constructor; [|constructor]. unfold extracted_from. simpl.
    split; [exists pp, m; auto|]. auto. }
  unfold ret. intros H. injection H as <- <-.
  destruct (deduplicate_timestamps_spec all) as (Hnd & Hincl & _).
  split; [exact Hnd|]. exists reference.
  apply Forall_forall. intros ts Hts. simpl in Hinv. rewrite Forall_forall in Hinv.
  apply Hinv. apply Hincl. exact Hts.
Qed.

Lemma extract_timestamps_well_formed_witness :
  TimeSeriesAnalyzer.extract_timestamps (u "大前天") [] (fun _ => may_10_2024) 0
  = Ok (match TimeSeriesAnalyzer.extract_timestamps (u "大前天") [] (fun _ => may_10_2024) 0 with
        | Ok (l, _) => l
        | Raise _ => []
        end, 1) /\
  (NoDup (map Timestamp.text
              match TimeSeriesAnalyzer.extract_timestamps (u "大前天") []
                      (fun _ => may_10_2024) 0 with
              | Ok (l, _) => l
              | Raise _ => []
              end) /\
   exists reference,
     Forall (extracted_from (u "大前天") reference)
            match TimeSeriesAnalyzer.extract_timestamps (u "大前天") []
                    (fun _ => may_10_2024) 0 with
            | Ok (l, _) => l
            | Raise _ => []
            end).
Proof.
  assert (H : TimeSeriesAnalyzer.extract_timestamps (u "大前天") [] (fun _ => may_10_2024) 0
              = Ok (match TimeSeriesAnalyzer.extract_timestamps (u "大前天") []
                            (fun _ => may_10_2024) 0 with
                    | Ok (l, _) => l
                    | Raise _ => []
                    end, 1)) by (vm_compute; reflexivity).
  split; [exact H|].
  exact (extract_timestamps_well_formed (u "大前天") [] (fun _ => may_10_2024) 0 1 _ H).
Defined.

(** ** The causal graph *)

Section Graph.
Import CausalReasoner.

Lemma has_key_iff (k : str) (graph : graph_t) : has_key k graph = true <-> In k (map fst graph).
Proof.
  unfold has_key. rewrite existsb_exists, in_map_iff. split.
  - intros (kv & Hkv & He). apply str_eqb_eq in He. eauto.
  - intros (kv & He & Hkv). exists kv. split; [exact Hkv|]. apply str_eqb_eq. auto.
Qed.

Lemma get_absent (k : str) (graph : graph_t) : has_key k graph = false -> get graph k = [].
Proof.
  unfold has_key. induction graph as [|[k' v] g IH]; simpl; [reflexivity|].
  destruct (str_eqb k k'); simpl; [discriminate|exact IH].
Qed.

Lemma get_app (k : str) (g1 g2 : graph_t) :
  get (g1 ++ g2) k = if has_key k g1 then get g1 k else get g2 k.
Proof.
  unfold has_key. induction g1 as [|[k' v] g IH]; simpl; [reflexivity|].
  destruct (str_eqb k k'); simpl; [reflexivity|exact IH].
Qed.

Lemma get_setdefault (graph : graph_t) (k' k : str) :
  get (setdefault graph k') k = get graph k.
Proof.
  unfold setdefault. destruct (has_key k' graph) eqn:E; [reflexivity|].
  rewrite get_app. destruct (has_key k graph) eqn:Ek; [reflexivity|].
  rewrite (get_absent _ _ Ek). simpl. destruct (str_eqb k k'); reflexivity.
Qed.

Lemma keys_setdefault (graph : graph_t) (k : str) :
  NoDup (map fst graph) ->
  NoDup (map fst (setdefault graph k)) /\
  (forall x, In x (map fst (setdefault graph k)) <-> In x (map fst graph) \/ x = k).
Proof.
  intros Hnd. unfold setdefault. destruct (has_key k graph) eqn:E.
  - apply has_key_iff in E. split; [exact Hnd|]. intros x. split; [auto|].
    intros [H| ->]; assumption.
  - assert (Hn : ~ In k (map fst graph)).
    { rewrite <- has_key_iff. rewrite E. discriminate. }
    rewrite map_app. simpl. split.
    + apply NoDup_app; [exact Hnd|repeat constructor; intros []|].
      intros x Hx [<-|[]]. exact (Hn Hx).
    + intros x. rewrite in_app_iff. simpl. intuition.
Qed.

Lemma keys_append_to (graph : graph_t) (k x : str) :
  map fst (append_to graph k x) = map fst graph.
Proof.
  induction graph as [|[k' v] g IH]; simpl; [reflexivity|].
  destruct (str_eqb k k'); simpl; [reflexivity|]. rewrite IH. reflexivity.
Qed.

Lemma get_append_to (graph : graph_t) (c e k : str) :
  has_key c graph = true ->
  get (append_to graph c e) k = if str_eqb k c then get graph k ++ [e] else get graph k.
Proof.
  unfold has_key. induction graph as [|[k' v] g IH]; simpl; [discriminate|].
  destruct (str_eqb c k') eqn:Ec; simpl.
  - intros _. apply str_eqb_eq in Ec. subst k'.
    destruct (str_eqb k c); reflexivity.
  - intros H. specialize (IH H).
    destruct (str_eqb k k') eqn:Ek.
    + apply str_eqb_eq in Ek. subst k'.
      destruct (str_eqb k c) eqn:Ekc; [|reflexivity].
      apply str_eqb_eq in Ekc. subst k. rewrite str_eqb_refl in Ec. discriminate.
    + exact IH.
Qed.

(** The effects of the relations whose cause is [k], in their order. *)
Definition effects_of (relations : list CausalRelation.t) (k : str) : list str :=
  map CausalRelation.effect
      (filter (fun rel => str_eqb k (CausalRelation.cause rel)) relations).

Definition is_node (relations : list CausalRelation.t) (k : str) : Prop :=
  exists rel, In rel relations /\
              (k = CausalRelation.cause rel \/ k = CausalRelation.effect rel).

Lemma build_graph_from (relations done : list CausalRelation.t) (graph : graph_t) :
  NoDup (map fst graph) ->
  (forall k, In k (map fst graph) <-> is_node done k) ->
  (forall k, get graph k = effects_of done k) ->
  let graph' :=
    fold_left (fun graph rel =>
                 append_to (setdefault (setdefault graph (CausalRelation.cause rel))
                                       (CausalRelation.effect rel))
                           (CausalRelation.cause rel) (CausalRelation.effect rel))
              relations graph in
  NoDup (map fst graph') /\
  (forall k, In k (map fst graph') <-> is_node (done ++ relations) k) /\
  (forall k, get graph' k = effects_of (done ++ relations) k).
Proof.
  revert done graph. induction relations as [|rel rels IH]; intros done graph Hnd Hkeys Hget; simpl.
  - rewrite app_nil_r. auto.
  - set (c := CausalRelation.cause rel). set (e := CausalRelation.effect rel).
    destruct (keys_setdefault graph c Hnd) as (Hnd1 & Hk1).
    destruct (keys_setdefault _ e Hnd1) as (Hnd2 & Hk2).
    replace (done ++ rel :: rels) with ((done ++ [rel]) ++ rels)
      by (rewrite <- app_assoc; reflexivity).
    apply IH.
    + rewrite keys_append_to. exact Hnd2.
    + intros k. rewrite keys_append_to, Hk2, Hk1, Hkeys. unfold is_node. split.
      * intros [[(r & Hr & H)| ->]| ->].
        -- exists r. split; [apply in_or_app; left; exact Hr|exact H].
        -- exists rel. split; [apply in_or_app; right; left; reflexivity|left; reflexivity].
        -- exists rel. split; [apply in_or_app; right; left; reflexivity|right; reflexivity].
      * intros (r & Hr & H). apply in_app_or in Hr. destruct Hr as [Hr|[<-|[]]].
        -- left. left. eauto.
        -- fold c e in H. destruct H as [->| ->]; auto.
    + intros k. rewrite get_append_to.
      * rewrite !get_setdefault, Hget. unfold effects_of.
        rewrite filter_app, map_app. simpl. fold c e.
        destruct (str_eqb k c); simpl; [reflexivity|rewrite app_nil_r; reflexivity].
      * apply has_key_iff. apply Hk2. left. apply Hk1. right. reflexivity.
Qed.

Lemma build_graph_spec (relations : list CausalRelation.t) :
  NoDup (map fst (_build_causal_graph relations)) /\
  (forall k, In k (map fst (_build_causal_graph relations)) <-> is_node relations k) /\
  (forall k, get (_build_causal_graph relations) k = effects_of relations k).
Proof.
  apply (build_graph_from relations [] []).
  - constructor.
  - intros k. split; [intros []|intros (r & [] & _)].
  - intros k. reflexivity.
Qed.

End Graph.

(** X6. The graph of [_build_causal_graph] has one key for every cause and
    every effect of the relations and no other key; under a key it lists the
    effects of the relations that have the key as their cause, in the order
    of the relations and as often as these occur. *)
Theorem build_causal_graph_edges :
  forall relations : list CausalRelation.t,
    let graph := CausalReasoner._build_causal_graph relations in
    NoDup (map fst graph) /\
    (forall k, CausalReasoner.has_key k graph = true <-> is_node relations k) /\
    (forall k, CausalReasoner.get graph k = effects_of relations k).
Proof.
  intros relations graph. subst graph.
  destruct (build_graph_spec relations) as (H1 & H2 & H3).
  split; [exact H1|]. split; [|exact H3].
  intros k. rewrite has_key_iff. apply H2.
Qed.

(** ** The chains of [build_causal_chain] *)

Section Chains.
Import CausalReasoner.

Lemma trace_loop_extends (rec : str -> list str -> option (list str * list str))
    (nodes chain visited : list str) (r : list str * list str) :
  (forall n v sub v', rec n v = Some (sub, v') -> exists rest, sub = n :: rest) ->
  trace_loop rec nodes chain visited = Some r ->
  fst r = chain \/ exists x rest, In x nodes /\ fst r = chain ++ x :: rest.
Proof.
  intros Hrec. revert chain visited. induction nodes as [|n nodes IH]; intros chain visited; simpl.
  - intros H. injection H as <-. left. reflexivity.
  - destruct (mem n visited).
    + intros H. destruct (IH _ _ H) as [Hl|(x & rest & Hx & Hr)]; [left; exact Hl|].
      right. exists x, rest. auto.
    + destruct (rec n visited) as [[sub v']|] eqn:E; [|discriminate].
      destruct (Hrec _ _ _ _ E) as (rest0 & ->).
      intros H. right. destruct (IH _ _ H) as [Hl|(x & rest & Hx & Hr)].
      * exists n, rest0. split; [left; reflexivity|exact Hl].
      * exists n, (rest0 ++ x :: rest). split; [left; reflexivity|].
        rewrite Hr, <- app_assoc. reflexivity.
Qed.

Lemma trace_chain_shape (fuel : nat) (start : str) (graph : graph_t)
    (visited : list str) (chain v' : list str) :
  _trace_chain fuel start graph visited = Some (chain, v') ->
  chain = [start] \/
  exists x rest, In x (get graph start) /\ chain = start :: x :: rest.
Proof.
  revert start visited chain v'. induction fuel as [|fuel IH]; intros start visited chain v';
    simpl; [discriminate|].
  destruct (mem start visited || negb (has_key start graph)).
  - intros H. injection H as <- <-. left. reflexivity.
  - intros H. apply trace_loop_extends in H.
    + simpl in H. destruct H as [->|(x & rest & Hx & ->)]; [left; reflexivity|].
      right. exists x, rest. auto.
    + intros n v sub v0 Hsub. destruct (IH _ _ _ _ Hsub) as [->|(x & rest & _ & ->)]; eauto.
Qed.

(** The relations that [_create_causal_chain] finds between neighbours. *)
Fixpoint links (nodes : list str) (relations : list CausalRelation.t)
    : list CausalRelation.t :=
  match nodes with
  | cause :: ((effect :: _) as nodes') =>
      match find_relation relations cause effect with
      | Some rel => [rel]
      | None => []
      end ++ links nodes' relations
  | _ => []
  end.

Lemma add_links_fold (nodes : list str) (relations : list CausalRelation.t)
    (chain : CausalChain.t) :
  add_links nodes relations chain
  = fold_left CausalChain.add_relation (links nodes relations) chain.
Proof.
  revert chain. induction nodes as [|c nodes IH]; intros chain; [reflexivity|].
  destruct nodes as [|e nodes]; [reflexivity|].
  change (add_links (c :: e :: nodes) relations chain)
    with (add_links (e :: nodes) relations
            match find_relation relations c e with
            | Some rel => CausalChain.add_relation chain rel
            | None => chain
            end).
  change (links (c :: e :: nodes) relations)
    with (match find_relation relations c e with
          | Some rel => [rel]
          | None => []
          end ++ links (e :: nodes) relations).
  rewrite IH. destruct (find_relation relations c e); reflexivity.
Qed.

Lemma links_incl (nodes : list str) (relations : list CausalRelation.t) :
  incl (links nodes relations) relations.
Proof.
  induction nodes as [|c nodes IH]; [intros r []|].
  destruct nodes as [|e nodes]; [intros r []|].
  change (links (c :: e :: nodes) relations)
    with (match find_relation relations c e with
          | Some rel => [rel]
          | None => []
          end ++ links (e :: nodes) relations).
  apply incl_app; [|exact IH].
  destruct (find_relation relations c e) as [rel|] eqn:E; [|intros r []].
  intros r [<-|[]]. unfold find_relation in E. apply find_some in E. apply E.
Qed.

Lemma find_relation_edge (relations : list CausalRelation.t) (c e : str) :
  In e (effects_of relations c) ->
  exists rel, find_relation relations c e = Some rel /\
              CausalRelation.cause rel = c /\ CausalRelation.effect rel = e.
Proof.
  intros H. unfold effects_of in H. apply in_map_iff in H. destruct H as (r & He & Hr).
  apply filter_In in Hr. destruct Hr as (Hr & Hc). apply str_eqb_eq in Hc.
  unfold find_relation.
  destruct (List.find _ relations) as [rel|] eqn:E.
  - exists rel. split; [reflexivity|]. apply find_some in E. destruct E as (_ & E).
    apply andb_true_iff in E. rewrite !str_eqb_eq in E. exact E.
  - exfalso. pose proof (find_none _ _ E r Hr) as Hn. simpl in Hn.
    rewrite <- Hc, He, !str_eqb_refl in Hn. discriminate.
Qed.

(** A chain as [_create_causal_chain] leaves it. *)
Definition chain_well_formed (relations : list CausalRelation.t) (chain : CausalChain.t)
    : Prop :=
  (exists first rest, CausalChain.relations chain = first :: rest /\
                      CausalChain.id chain
                      = u "chain_" ++ firstn 10 (CausalRelation.cause first)) /\
  incl (CausalChain.relations chain) relations /\
  CausalChain.root_cause chain = first_nonempty_cause (CausalChain.relations chain) /\
  CausalChain.final_effect chain
  = last (map CausalRelation.effect (CausalChain.relations chain)) [] /\
  CausalChain.completeness chain = _calculate_chain_completeness chain /\
  CausalChain.gaps chain = chain_gaps (CausalChain.relations chain).

Lemma fold_add_relation_id (l : list CausalRelation.t) (chain : CausalChain.t) :
  CausalChain.id (fold_left CausalChain.add_relation l chain) = CausalChain.id chain.
Proof.
  revert chain. induction l as [|r l IH]; intros chain; [reflexivity|].
  simpl. rewrite IH. reflexivity.
Qed.

Lemma create_chain_well_formed (relations : list CausalRelation.t)
    (start x : str) (rest : list str) :
  In x (effects_of relations start) ->
  chain_well_formed relations (_create_causal_chain (start :: x :: rest) relations).
Proof.
  intros Hx. destruct (find_relation_edge relations start x Hx) as (rel & Hf & Hc & He).
  assert (Hl : links (start :: x :: rest) relations = rel :: links (x :: rest) relations).
  { change (links (start :: x :: rest) relations)
      with (match find_relation relations start x with
            | Some rel => [rel]
            | None => []
            end ++ links (x :: rest) relations).
    rewrite Hf. reflexivity. }
  pose proof (links_incl (start :: x :: rest) relations) as Hincl.
  unfold _create_causal_chain. rewrite add_links_fold.
  change (hd [] (start :: x :: rest)) with start.
  fold (empty_chain (u "chain_" ++ firstn 10 start)).
  remember (links (start :: x :: rest) relations) as L eqn:HL.
  destruct (add_relations_fields L (empty_chain (u "chain_" ++ firstn 10 start)))
    as (H1 & H2 & H3).
  pose proof (fold_add_relation_id L (empty_chain (u "chain_" ++ firstn 10 start))) as Hid.
  cbn [CausalChain.relations CausalChain.root_cause CausalChain.final_effect
       CausalChain.id empty_chain app is_empty] in H1, H2, H3, Hid.
  unfold chain_well_formed, _calculate_chain_completeness, _identify_chain_gaps.
  cbn [CausalChain.relations CausalChain.root_cause CausalChain.final_effect
       CausalChain.id CausalChain.completeness CausalChain.gaps].
  rewrite H1, H2, H3, Hid. split.
  - exists rel, (links (x :: rest) relations). rewrite Hc. auto.
  - split; [exact Hincl|]. auto.
Qed.

Lemma chains_from_well_formed (fuel : nat) (all : list CausalRelation.t) :
  forall todo chains visited result,
    chains_from fuel (_build_causal_graph all) all todo chains visited = Some result ->
    Forall (chain_well_formed all) chains ->
    Forall (chain_well_formed all) result /\ length result <= length chains + length todo.
Proof.
  induction todo as [|rel todo IH]; intros chains visited result; simpl.
  - intros H Hc. injection H as <-. split; [exact Hc|lia].
  - destruct (mem (CausalRelation.cause rel) visited).
    + intros H Hc. destruct (IH _ _ _ H Hc). split; [assumption|lia].
    + destruct (_trace_chain fuel (CausalRelation.cause rel) (_build_causal_graph all) [])
        as [[chain v']|] eqn:E; [|discriminate].
      intros H Hc. apply IH in H.
      * destruct H as (H1 & H2). split; [exact H1|].
        destruct (1 <? length chain); [rewrite length_app in H2; simpl in H2|]; lia.
      * destruct (1 <? length chain) eqn:El; [|exact Hc].
        apply Forall_app. split; [exact Hc|]. constructor; [|constructor].
        apply trace_chain_shape in E. destruct E as [->|(x & rest & Hx & ->)];
          [discriminate|].
        apply create_chain_well_formed.
        destruct (build_graph_spec all) as (_ & _ & Hget). rewrite <- Hget. exact Hx.
Qed.

End Chains.

(** X7. Every chain that [build_causal_chain] returns holds at least one
    relation and only relations of the list; its id is "chain_" followed by
    the first ten characters of the cause of its first relation; its root
    cause is the first non-empty cause of its relations, its final effect the
    effect of the last one, its completeness and gaps those of its
    relations. There are at most as many chains as relations. *)
Theorem build_causal_chain_well_formed :
  forall relations : list CausalRelation.t,
    Forall (chain_well_formed relations) (CausalReasoner.build_causal_chain relations) /\
    length (CausalReasoner.build_causal_chain relations) <= length relations.
Proof.
  intros relations.
  unfold CausalReasoner.build_causal_chain, CausalReasoner.build_causal_chain_fuel.
  destruct relations as [|rel relations]; [split; [constructor|apply Nat.le_refl]|].
  set (all := rel :: relations).
  destruct (CausalReasoner.chains_from (CausalReasoner.enough_fuel all)
              (CausalReasoner._build_causal_graph all) all all [] []) as [result|] eqn:E.
  - apply chains_from_well_formed in E; [|constructor]. exact E.
  - split; [constructor|simpl; lia].
Qed.

(** ** Gaps of a chain *)

Section Gaps.
Import CausalReasoner.

Lemma intermediate_gaps_length (descs : list str) :
  length (fst (intermediate_gaps descs)) <= length descs.
Proof.
  unfold intermediate_gaps.
  assert (H : forall (l : list str) (st : list CausalGap.t * nat),
             length (fst (fold_left
               (fun '(gaps, gap_id) gap_desc =>
                  if contains [arrow] gap_desc then
                    let parts := split_char arrow gap_desc [] in
                    let from_event := strip (replace (nth 0 parts []) (u "因果链断裂: ") []) in
                    let to_event := strip (replace (nth 1 parts []) (u " 之间缺少中间环节") []) in
                    (gaps ++ [{| CausalGap.id := u "gap_" ++ str_of_nat gap_id;
                                 CausalGap.from_event := from_event;
                                 CausalGap.to_event := to_event;
                                 CausalGap.gap_type := u "missing_intermediate";
                                 CausalGap.description := gap_desc;
                                 CausalGap.possible_causes :=
                                   _infer_missing_causes from_event to_event |}],
                     S gap_id)
                  else (gaps, gap_id)) l st))
             <= length (fst st) + length l).
  { induction l as [|d l IH]; intros [gaps gid]; simpl; [lia|].
    destruct (contains [arrow] d).
    - eapply Nat.le_trans; [apply IH|]. simpl. rewrite length_app. simpl. lia.
    - eapply Nat.le_trans; [apply IH|]. simpl. lia. }
  apply (H descs ([], 1)).
Qed.

End Gaps.

(** X8. For a chain whose first cause and last effect are both shorter than
    ten characters, [detect_causal_gaps] ends with a missing-cause gap and a
    missing-effect gap that carry the same id: the counter of gap ids is not
    advanced between them. Before them come at most as many gaps as the
    chain has gap descriptions. *)
Theorem missing_cause_and_effect_share_id :
  forall (chain : CausalChain.t) (first : CausalRelation.t) (rest : list CausalRelation.t),
    CausalChain.relations chain = first :: rest ->
    length (CausalRelation.cause first) < 10 ->
    length (CausalRelation.effect (last rest first)) < 10 ->
    exists gaps g1 g2,
      CausalReasoner.detect_causal_gaps chain = gaps ++ [g1; g2] /\
      length gaps <= length (CausalChain.gaps chain) /\
      CausalGap.gap_type g1 = u "missing_cause" /\
      CausalGap.gap_type g2 = u "missing_effect" /\
      CausalGap.to_event g1 = CausalRelation.cause first /\
      CausalGap.from_event g2 = CausalRelation.effect (last rest first) /\
      CausalGap.id g1 = CausalGap.id g2.
Proof.
  intros chain first rest Hrel Hc He.
  pose proof (intermediate_gaps_length (CausalChain.gaps chain)) as Hlen.
  unfold CausalReasoner.detect_causal_gaps.
  destruct (CausalReasoner.intermediate_gaps (CausalChain.gaps chain)) as [gaps gid].
  rewrite Hrel.
  replace (last (first :: rest) first) with (last rest first) by (symmetry; apply last_cons).
  apply Nat.ltb_lt in Hc. apply Nat.ltb_lt in He. rewrite Hc, He.
  eexists gaps, _, _. split; [rewrite <- app_assoc; reflexivity|].
  simpl. repeat split. exact Hlen.
Qed.

(** A chain of one relation between two short sentences. *)
Definition short_chain : CausalChain.t :=
  CausalReasoner._create_causal_chain [u "a"; u "b"] [link "a" "b"].

Lemma missing_cause_and_effect_share_id_witness :
  CausalChain.relations short_chain = link "a" "b" :: [] /\
  length (CausalRelation.cause (link "a" "b")) < 10 /\
  length (CausalRelation.effect (last [] (link "a" "b"))) < 10 /\
  exists gaps g1 g2,
    CausalReasoner.detect_causal_gaps short_chain = gaps ++ [g1; g2] /\
    length gaps <= length (CausalChain.gaps short_chain) /\
    CausalGap.gap_type g1 = u "missing_cause" /\
    CausalGap.gap_type g2 = u "missing_effect" /\
    CausalGap.to_event g1 = CausalRelation.cause (link "a" "b") /\
    CausalGap.from_event g2 = CausalRelation.effect (last [] (link "a" "b")) /\
    CausalGap.id g1 = CausalGap.id g2.
Proof.
  assert (H1 : CausalChain.relations short_chain = link "a" "b" :: [])
    by (vm_compute; reflexivity).
  assert (H2 : length (CausalRelation.cause (link "a" "b")) < 10) by (vm_compute; lia).
  assert (H3 : length (CausalRelation.effect (last [] (link "a" "b"))) < 10)
    by (vm_compute; lia).
  split; [exact H1|]. split; [exact H2|]. split; [exact H3|].
  exact (missing_cause_and_effect_share_id short_chain (link "a" "b") [] H1 H2 H3).
Defined.

(** ** The root cause *)

Section RootCauseFacts.
Import CausalReasoner.

Lemma shortest_spec (first : str) (others : list str) :
  In (shortest first others) (first :: others) /\
  Forall (fun r => length (shortest first others) <= length r) (first :: others).
Proof.
  unfold shortest. revert first. induction others as [|x others IH]; intros first; simpl.
  - split; [left; reflexivity|]. constructor; [apply Nat.le_refl|constructor].
  - destruct (length x <? length first) eqn:E.
    + apply Nat.ltb_lt in E. destruct (IH x) as (Hin & Hall). split.
      * destruct Hin as [H|H]; auto.
      * inversion Hall as [|? ? Hx Ho]; subst. constructor; [lia|]. constructor; assumption.
    + apply Nat.ltb_ge in E. destruct (IH first) as (Hin & Hall). split.
      * destruct Hin as [H|H]; auto.
      * inversion Hall as [|? ? Hf Ho]; subst. constructor; [assumption|].
        constructor; [lia|assumption].
Qed.

End RootCauseFacts.

(** X9. [_analyze_root_cause] answers "无法确定" with confidence 0.0 when no
    chain has a non-empty root cause. Otherwise the root cause it names is
    the root cause of one of the chains and no chain has a shorter non-empty
    root cause; the confidence is 0.9 when there is one such root cause and
    0.7 when there are several, which are then all listed as the other
    possibilities. *)
Theorem analyze_root_cause_shortest :
  forall chains : list CausalChain.t,
    let roots := filter (fun r => negb (is_empty r)) (map CausalChain.root_cause chains) in
    let answer := CausalReasoner._analyze_root_cause chains in
    match roots with
    | [] => answer = CausalReasoner.undetermined
    | _ :: others =>
        In (RootCause.root_cause answer) roots /\
        Forall (fun r => length (RootCause.root_cause answer) <= length r) roots /\
        RootCause.confidence answer = (if is_empty others then 0.9 else 0.7)%float /\
        RootCause.other_possibilities answer = (if is_empty others then None else Some roots)
    end.
Proof.
  intros chains roots answer. subst answer. unfold CausalReasoner._analyze_root_cause.
  destruct chains as [|c chains]; [reflexivity|].
  fold roots. destruct roots as [|r [|r' rs]]; [reflexivity| |].
  - simpl. repeat split; auto.
  - cbn [RootCause.root_cause RootCause.confidence RootCause.other_possibilities is_empty].
    destruct (shortest_spec r (r' :: rs)) as (Hin & Hall). auto.
Qed.

(** ** Counting and ranking *)

Section Counting.

(** How many times [k] occurs in [keys]. *)
Definition occurrences (k : str) (keys : list str) : nat :=
  length (filter (str_eqb k) keys).

(** [counts.get(k, 0)] *)
Definition count_of (counts : list (str * nat)) (k : str) : nat :=
  match List.find (fun kv => str_eqb k (fst kv)) counts with
  | Some kv => snd kv
  | None => 0
  end.

Definition counted (keys : list str) : list (str * nat) :=
  fold_left (fun counts k => count_into k counts) keys [].

Lemma count_of_count_into (k k' : str) (counts : list (str * nat)) :
  count_of (count_into k counts) k' =
  count_of counts k' + (if str_eqb k' k then 1 else 0).
Proof.
  induction counts as [|[k0 v] t IH]; simpl.
  - unfold count_of. simpl. destruct (str_eqb k' k); reflexivity.
  - destruct (str_eqb k k0) eqn:E.
    + apply str_eqb_eq in E. subst k0. unfold count_of. simpl.
      destruct (str_eqb k' k); simpl; lia.
    + unfold count_of in *. simpl. destruct (str_eqb k' k0) eqn:E2.
      * simpl. destruct (str_eqb k' k) eqn:E3; [|lia].
        apply str_eqb_eq in E2. apply str_eqb_eq in E3. subst.
        rewrite str_eqb_refl in E. discriminate.
      * exact IH.
Qed.

Lemma keys_count_into (k : str) (counts : list (str * nat)) :
  map fst (count_into k counts) =
  if mem k (map fst counts) then map fst counts else map fst counts ++ [k].
Proof.
  induction counts as [|[k0 v] t IH]; simpl; [reflexivity|].
  unfold mem in *. simpl. destruct (str_eqb k k0); simpl; [reflexivity|].
  rewrite IH. destruct (existsb (str_eqb k) (map fst t)); reflexivity.
Qed.

Lemma nodup_snoc (l : list str) (k : str) :
  NoDup l -> ~ In k l -> NoDup (l ++ [k]).
Proof.
  induction l as [|x l IH]; intros Hnd Hk; simpl.
  - constructor; [intros []|constructor].
  - inversion Hnd; subst. constructor.
    + rewrite in_app_iff. intros [H|[H|[]]]; [contradiction|].
      subst. apply Hk. left. reflexivity.
    + apply IH; [assumption|]. intros H. apply Hk. right. exact H.
Qed.

Lemma occurrences_cons (k x : str) (keys : list str) :
  occurrences k (x :: keys) = (if str_eqb k x then 1 else 0) + occurrences k keys.
Proof. unfold occurrences. simpl. destruct (str_eqb k x); reflexivity. Qed.

Lemma counted_from (keys : list str) :
  forall counts : list (str * nat),
    NoDup (map fst counts) ->
    let counts' := fold_left (fun counts k => count_into k counts) keys counts in
    NoDup (map fst counts') /\
    (forall k, In k (map fst counts') <-> In k (map fst counts) \/ In k keys) /\
    (forall k, count_of counts' k = count_of counts k + occurrences k keys).
Proof.
  induction keys as [|x keys IH]; intros counts Hnd; simpl.
  - split; [exact Hnd|]. split; [intros k; tauto|].
    intros k. unfold occurrences. simpl. lia.
  - assert (Hnd' : NoDup (map fst (count_into x counts))).
    { rewrite keys_count_into. destruct (mem x (map fst counts)) eqn:E; [exact Hnd|].
      apply nodup_snoc; [exact Hnd|]. apply mem_false_iff. exact E. }
    destruct (IH _ Hnd') as (H1 & H2 & H3). split; [exact H1|]. split.
    + intros k. rewrite H2, keys_count_into.
      destruct (mem x (map fst counts)) eqn:E.
      * apply mem_true_iff in E. split; [tauto|].
        intros [H|[H|H]]; auto. subst. auto.
      * rewrite in_app_iff. simpl. tauto.
    + intros k. rewrite H3, count_of_count_into, occurrences_cons. lia.
Qed.

Lemma counted_spec (keys : list str) :
  NoDup (map fst (counted keys)) /\
  (forall k, In k (map fst (counted keys)) <-> In k keys) /\
  (forall k, count_of (counted keys) k = occurrences k keys).
Proof.
  unfold counted.
  destruct (counted_from keys [] (NoDup_nil _)) as (H1 & H2 & H3).
  split; [exact H1|]. split.
  - intros k. rewrite (H2 k). simpl. tauto.
  - intros k. rewrite (H3 k). reflexivity.
Qed.

Lemma count_of_In (counts : list (str * nat)) (k : str) (v : nat) :
  NoDup (map fst counts) -> In (k, v) counts -> count_of counts k = v.
Proof.
  induction counts as [|[k0 v0] t IH]; simpl; intros Hnd Hin; [contradiction|].
  inversion Hnd as [|? ? Hk0 Ht]; subst. unfold count_of. simpl.
  destruct Hin as [H|H].
  - inversion H; subst. rewrite str_eqb_refl. reflexivity.
  - destruct (str_eqb k k0) eqn:E.
    + apply str_eqb_eq in E. subst k0. exfalso. apply Hk0.
      change k with (fst (k, v)). apply in_map. exact H.
    + apply IH; assumption.
Qed.

Lemma counted_pair (keys : list str) (kv : str * nat) :
  In kv (counted keys) -> In (fst kv) keys /\ snd kv = occurrences (fst kv) keys.
Proof.
  intros Hin. destruct (counted_spec keys) as (H1 & H2 & H3). split.
  - apply H2. apply in_map. exact Hin.
  - rewrite <- H3. symmetry. apply count_of_In; [exact H1|].
    destruct kv; exact Hin.
Qed.

Lemma fold_count_map (A : Type) (f : A -> str) (l : list A) :
  forall counts,
    fold_left (fun counts a => count_into (f a) counts) l counts =
    fold_left (fun counts k => count_into k counts) (map f l) counts.
Proof. induction l as [|a l IH]; intros counts; simpl; [reflexivity|apply IH]. Qed.

(** The greater counts first. *)
Definition ge_count (a b : str * nat) : Prop := snd b <= snd a.

Lemma insert_desc_perm (x : str * nat) (l : list (str * nat)) :
  Permutation (x :: l) (CausalReasoner.insert_desc x l).
Proof.
  induction l as [|y l IH]; simpl; [apply Permutation_refl|].
  destruct (snd y <=? snd x); [apply Permutation_refl|].
  eapply perm_trans; [apply perm_swap|]. apply perm_skip. exact IH.
Qed.

Lemma insert_desc_sorted (x : str * nat) (l : list (str * nat)) :
  StronglySorted ge_count l -> StronglySorted ge_count (CausalReasoner.insert_desc x l).
Proof.
  induction l as [|y l IH]; intros Hs; simpl.
  - constructor; constructor.
  - inversion Hs as [|? ? Hl Hy]; subst. destruct (snd y <=? snd x) eqn:E.
    + apply Nat.leb_le in E. constructor; [exact Hs|]. constructor; [exact E|].
      eapply Forall_impl; [|exact Hy]. unfold ge_count. intros a Ha. lia.
    + apply Nat.leb_gt in E. constructor; [apply IH; exact Hl|].
      apply (Permutation_Forall (insert_desc_perm x l)).
      constructor; [unfold ge_count; lia|exact Hy].
Qed.

Lemma sorted_desc_perm (l : list (str * nat)) :
  Permutation l (CausalReasoner.sorted_desc l).
Proof.
  unfold CausalReasoner.sorted_desc. induction l as [|x l IH]; simpl; [constructor|].
  eapply perm_trans; [apply perm_skip; exact IH|apply insert_desc_perm].
Qed.

Lemma sorted_desc_sorted (l : list (str * nat)) :
  StronglySorted ge_count (CausalReasoner.sorted_desc l).
Proof.
  unfold CausalReasoner.sorted_desc. induction l as [|x l IH]; simpl; [constructor|].
  apply insert_desc_sorted. exact IH.
Qed.

Lemma sorted_app (A : Type) (R : A -> A -> Prop) (l1 l2 : list A) :
  StronglySorted R (l1 ++ l2) ->
  StronglySorted R l1 /\ (forall a b, In a l1 -> In b l2 -> R a b).
Proof.
  induction l1 as [|x l1 IH]; simpl; intros Hs.
  - split; [constructor|intros a b []].
  - inversion Hs as [|? ? Hl Hx]; subst. destruct (IH Hl) as (H1 & H2).
    apply Forall_app in Hx. destruct Hx as (Hx1 & Hx2). split.
    + constructor; assumption.
    + intros a b [Ha|Ha] Hb; [subst|auto].
      rewrite Forall_forall in Hx2. apply Hx2. exact Hb.
Qed.

Lemma sorted_map (A B : Type) (R : A -> A -> Prop) (R' : B -> B -> Prop)
    (f : A -> B) (l : list A) :
  (forall a b, In a l -> In b l -> R a b -> R' (f a) (f b)) ->
  StronglySorted R l -> StronglySorted R' (map f l).
Proof.
  induction l as [|x l IH]; intros HR Hs; simpl; [constructor|].
  inversion Hs as [|? ? Hl Hx]; subst. constructor.
  - apply IH; [|exact Hl]. intros a b Ha Hb. apply HR; right; assumption.
  - rewrite Forall_forall in *. intros y Hy. apply in_map_iff in Hy.
    destruct Hy as (a & <- & Ha). apply HR; [left; reflexivity|right; exact Ha|].
    apply Hx. exact Ha.
Qed.

(** [top] lists the most frequent of [keys]: at most five of them, each
    once, the more frequent first, and a key is left out only when five
    others occur at least as often. *)
Definition ranked (keys top : list str) : Prop :=
  length top <= 5 /\
  NoDup top /\
  incl top keys /\
  StronglySorted (fun a b => occurrences b keys <= occurrences a keys) top /\
  (forall k, In k keys -> ~ In k top ->
     length top = 5 /\
     Forall (fun a => occurrences k keys <= occurrences a keys) top).

Lemma top5_ranked (keys : list str) : ranked keys (CausalReasoner.top5 keys).
Proof.
  unfold CausalReasoner.top5. fold (counted keys).
  set (sorted := CausalReasoner.sorted_desc (counted keys)).
  pose proof (sorted_desc_perm (counted keys)) as Hperm. fold sorted in Hperm.
  pose proof (sorted_desc_sorted (counted keys)) as Hsort. fold sorted in Hsort.
  destruct (counted_spec keys) as (Hnd & Hkeys & _).
  assert (Hin : forall kv, In kv sorted ->
                  In (fst kv) keys /\ snd kv = occurrences (fst kv) keys).
  { intros kv H. apply counted_pair. apply (Permutation_in _ (Permutation_sym Hperm)).
    exact H. }
  assert (Hnd' : NoDup (map fst sorted)).
  { apply (Permutation_NoDup (Permutation_map fst Hperm)). exact Hnd. }
  rewrite <- (firstn_skipn 5 sorted) in Hsort, Hnd'.
  apply sorted_app in Hsort. destruct Hsort as (Hs1 & Hs2).
  rewrite map_app in Hnd'.
  assert (Hfirst : forall kv, In kv (firstn 5 sorted) -> In kv sorted).
  { intros kv H. rewrite <- (firstn_skipn 5 sorted). apply in_or_app. left. exact H. }
  assert (Hskip : forall kv, In kv (skipn 5 sorted) -> In kv sorted).
  { intros kv H. rewrite <- (firstn_skipn 5 sorted). apply in_or_app. right. exact H. }
  unfold ranked. repeat split.
  - rewrite length_map. apply firstn_le_length.
  - apply NoDup_app_remove_r in Hnd'. exact Hnd'.
  - intros k Hk. apply in_map_iff in Hk. destruct Hk as (kv & <- & Hkv).
    apply Hin. apply Hfirst. exact Hkv.
  - apply (sorted_map _ _ ge_count); [|exact Hs1].
    intros a b Ha Hb Hab. unfold ge_count in Hab.
    destruct (Hin a (Hfirst a Ha)) as (_ & <-).
    destruct (Hin b (Hfirst b Hb)) as (_ & <-). exact Hab.
  - assert (Hk : In k (map fst sorted)).
    { apply (Permutation_in _ (Permutation_map fst Hperm)). apply Hkeys. assumption. }
    rewrite <- (firstn_skipn 5 sorted), map_app, in_app_iff in Hk.
    destruct Hk as [Hk|Hk]; [contradiction|].
    rewrite length_map. rewrite length_firstn.
    destruct (skipn 5 sorted) as [|kv rest] eqn:E; [destruct Hk|].
    assert (Hlen : length (skipn 5 sorted) = S (length rest)) by (rewrite E; reflexivity).
    rewrite length_skipn in Hlen. lia.
  - assert (Hk : In k (map fst sorted)).
    { apply (Permutation_in _ (Permutation_map fst Hperm)). apply Hkeys. assumption. }
    rewrite <- (firstn_skipn 5 sorted), map_app, in_app_iff in Hk.
    destruct Hk as [Hk|Hk]; [contradiction|].
    apply in_map_iff in Hk. destruct Hk as (kv & <- & Hkv).
    rewrite Forall_forall. intros a Ha. apply in_map_iff in Ha.
    destruct Ha as (kv' & <- & Hkv').
    destruct (Hin kv (Hskip kv Hkv)) as (_ & <-).
    destruct (Hin kv' (Hfirst kv' Hkv')) as (_ & <-).
    apply (Hs2 kv' kv Hkv' Hkv).
Qed.

End Counting.

(** X10. The key causes (and the key effects) of an analysis are the most
    frequent causes (effects) of the relations: at most five, without
    repetition, each one a cause (an effect) of some relation, the more
    frequent first, and one is left out only when five others occur at least
    as often. *)
Theorem key_causes_most_frequent :
  forall relations : list CausalRelation.t,
    ranked (map CausalRelation.cause relations)
           (CausalReasoner._identify_key_causes relations) /\
    ranked (map CausalRelation.effect relations)
           (CausalReasoner._identify_key_effects relations).
Proof.
  intros relations. split; apply top5_ranked.
Qed.

(** ** Precision notes *)

Lemma TimePrecision_value_inj (p q : TimePrecision) :
  TimeSeriesAnalyzer.TimePrecision_value p = TimeSeriesAnalyzer.TimePrecision_value q ->
  p = q.
Proof. destruct p, q; intros H; try reflexivity; vm_compute in H; discriminate. Qed.

(** X11. [_detect_precision_conflicts] returns at most one note, and none
    exactly when all the timestamps have the same precision. *)
Theorem precision_note_iff_mixed :
  forall timestamps : list Timestamp.t,
    length (TimeSeriesAnalyzer._detect_precision_conflicts timestamps) <= 1 /\
    (TimeSeriesAnalyzer._detect_precision_conflicts timestamps = [] <->
     forall a b, In a timestamps -> In b timestamps ->
                 Timestamp.precision a = Timestamp.precision b).
Proof.
  intros timestamps. unfold TimeSeriesAnalyzer._detect_precision_conflicts.
  rewrite fold_count_map.
  set (values := map (fun ts => TimeSeriesAnalyzer.TimePrecision_value
                                  (Timestamp.precision ts)) timestamps).
  fold (counted values).
  destruct (counted_spec values) as (Hnd & Hkeys & _).
  split; [destruct (1 <? length (counted values)); simpl; lia|].
  assert (Hval : forall a, In a timestamps ->
            In (TimeSeriesAnalyzer.TimePrecision_value (Timestamp.precision a))
               (map fst (counted values))).
  { intros a Ha. apply Hkeys. unfold values.
    apply (in_map (fun ts => TimeSeriesAnalyzer.TimePrecision_value
                               (Timestamp.precision ts))). exact Ha. }
  rewrite <- (length_map fst (counted values)).
  destruct (1 <? length (map fst (counted values))) eqn:E.
  - apply Nat.ltb_lt in E. split; [discriminate|]. intros Hsame. exfalso.
    destruct (map fst (counted values)) as [|x [|y rest]] eqn:Ek; simpl in E; try lia.
    assert (Hx : In x values) by (apply Hkeys; left; reflexivity).
    assert (Hy : In y values) by (apply Hkeys; right; left; reflexivity).
    unfold values in Hx, Hy. apply in_map_iff in Hx, Hy.
    destruct Hx as (a & <- & Ha). destruct Hy as (b & <- & Hb).
    inversion Hnd as [|? ? Hnot _]; subst. apply Hnot. left.
    rewrite (Hsame a b Ha Hb). reflexivity.
  - apply Nat.ltb_ge in E. split; [|reflexivity]. intros _ a b Ha Hb.
    apply TimePrecision_value_inj.
    pose proof (Hval a Ha) as Hka. pose proof (Hval b Hb) as Hkb.
    destruct (map fst (counted values)) as [|x [|y rest]]; simpl in E; try lia.
    + destruct Hka.
    + destruct Hka as [<-|[]]. destruct Hkb as [<-|[]]. reflexivity.
Qed.

(** ** The conflicts of a timeline *)

Section ConflictFacts.
Import TimeSeriesAnalyzer.

(** The kinds of conflict that [detect_time_conflicts] reports, each with
    its severity. *)
Definition conflict_kinds : list (str * str) :=
  [(u "order", u "high"); (u "duration", u "medium"); (u "duration", u "low");
   (u "precision", u "low")].

(** The conflicts found so far are numbered from 1 and the counter is one
    ahead of them. *)
Definition numbered (st : list Conflict.t * nat) : Prop :=
  snd st = S (length (fst st)) /\
  map Conflict.id (fst st) =
    map (fun i => u "conflict_" ++ str_of_nat i) (seq 1 (length (fst st))) /\
  Forall (fun c => In (Conflict.type c, Conflict.severity c) conflict_kinds) (fst st).

Lemma append_conflict_numbered (st : list Conflict.t * nat) (type : str)
    (description : fstring) (timestamps : list Timestamp.t) (severity : str) :
  In (type, severity) conflict_kinds ->
  numbered st -> numbered (append_conflict st type description timestamps severity).
Proof.
  intros Hkind (Hn & Hids & Hall). unfold numbered, append_conflict.
  cbn [fst snd]. rewrite length_app. cbn [length]. rewrite Nat.add_1_r.
  split; [rewrite Hn; reflexivity|]. split.
  - rewrite map_app, seq_S, map_app, Hids. cbn [map Conflict.id].
    rewrite Hn. reflexivity.
  - apply Forall_app. split; [exact Hall|]. constructor; [exact Hkind|constructor].
Qed.

Local Ltac kind :=
  unfold conflict_kinds;
  first [ left; reflexivity
        | right; left; reflexivity
        | right; right; left; reflexivity
        | right; right; right; left; reflexivity ].

Lemma order_conflicts_numbered (timestamps : list Timestamp.t)
    (st : list Conflict.t * nat) :
  numbered st -> numbered (order_conflicts timestamps st).
Proof.
  unfold order_conflicts. apply fold_left_invariant.
  intros a [ts1 ts2] _ Ha.
  destruct (Timestamp.datetime ts1); [|exact Ha].
  destruct (Timestamp.datetime ts2); [|exact Ha].
  destruct (_has_logical_order_conflict ts1 ts2); [|exact Ha].
  apply append_conflict_numbered; [kind|exact Ha].
Qed.

Lemma duration_conflicts_numbered (intervals : list TimeInterval.t)
    (st : list Conflict.t * nat) :
  numbered st -> numbered (duration_conflicts intervals st).
Proof.
  unfold duration_conflicts. apply fold_left_invariant.
  intros a interval _ Ha.
  destruct (TimeInterval.duration interval) as [d|]; [|exact Ha].
  destruct (d =? 0)%Z; [exact Ha|].
  destruct ((24 * 3600 * us_per_second <? d)%Z && _should_be_continuous interval);
    destruct ((d <? 60 * us_per_second)%Z && _should_have_gap interval);
    repeat first [ exact Ha | apply append_conflict_numbered; [kind|] ].
Qed.

Lemma precision_conflicts_numbered (timestamps : list Timestamp.t)
    (st : list Conflict.t * nat) :
  numbered st -> numbered (precision_conflicts timestamps st).
Proof.
  unfold precision_conflicts. apply fold_left_invariant.
  intros a note _ Ha. apply append_conflict_numbered; [kind|exact Ha].
Qed.

Lemma detect_time_conflicts_state (timeline : Timeline.t) :
  numbered (snd (detect_time_conflicts timeline), S (length (snd (detect_time_conflicts timeline)))).
Proof.
  unfold detect_time_conflicts. cbn [snd].
  set (st := precision_conflicts _ _).
  assert (H : numbered st).
  { apply precision_conflicts_numbered, duration_conflicts_numbered,
      order_conflicts_numbered.
    unfold numbered. cbn. repeat split. constructor. }
  destruct H as (H1 & H2 & H3). unfold numbered. cbn [fst snd]. auto.
Qed.

Lemma high_severity_is_order (c : Conflict.t) :
  In (Conflict.type c, Conflict.severity c) conflict_kinds ->
  high_severity c = str_eqb (Conflict.type c) (u "order").
Proof.
  unfold high_severity, conflict_kinds.
  intros [H|[H|[H|[H|[]]]]]; injection H as Ht Hs;
    rewrite <- Ht, <- Hs; vm_compute; reflexivity.
Qed.

End ConflictFacts.

(** X12. [detect_time_conflicts] leaves the timestamps and the intervals of
    the timeline as they are and stores the conflicts it returns. Their ids
    are "conflict_1", "conflict_2", ... in order, and each is an order
    conflict of high severity, a duration conflict of medium or low
    severity, or a precision conflict of low severity: none is critical. *)
Theorem detect_time_conflicts_numbered :
  forall timeline : Timeline.t,
    let timeline' := fst (TimeSeriesAnalyzer.detect_time_conflicts timeline) in
    let conflicts := snd (TimeSeriesAnalyzer.detect_time_conflicts timeline) in
    Timeline.timestamps timeline' = Timeline.timestamps timeline /\
    Timeline.intervals timeline' = Timeline.intervals timeline /\
    Timeline.conflicts timeline' = conflicts /\
    map Conflict.id conflicts =
      map (fun i => u "conflict_" ++ str_of_nat i) (seq 1 (length conflicts)) /\
    Forall (fun c => In (Conflict.type c, Conflict.severity c) conflict_kinds) conflicts.
Proof.
  intros timeline timeline' conflicts.
  destruct (detect_time_conflicts_state timeline) as (_ & Hids & Hall).
  cbn [fst] in Hids, Hall. repeat split; assumption.
Qed.

(** X13. After [detect_time_conflicts], the logic issues that
    [_analyze_logic] reports are the descriptions of the order conflicts
    only, and the time sequence is "存在矛盾" exactly when there is an order
    conflict, while the logic counts as valid only when there is no conflict
    of any kind. *)
Theorem logic_issues_are_order_conflicts :
  forall timeline : Timeline.t,
    let timeline' := fst (TimeSeriesAnalyzer.detect_time_conflicts timeline) in
    let conflicts := Timeline.conflicts timeline' in
    let order := filter (fun c => str_eqb (Conflict.type c) (u "order")) conflicts in
    let logic := TimeSeriesAnalyzer._analyze_logic timeline' in
    TimeSeriesAnalyzer.LogicAnalysis.logic_issues logic = map Conflict.description order /\
    (TimeSeriesAnalyzer.LogicAnalysis.time_sequence logic = u "存在矛盾" <-> order <> []) /\
    (TimeSeriesAnalyzer.LogicAnalysis.logic_valid logic = true <-> conflicts = []).
Proof.
  intros timeline timeline' conflicts order logic.
  destruct (detect_time_conflicts_state timeline) as (_ & _ & Hall).
  cbn [fst] in Hall.
  assert (Hc : conflicts = snd (TimeSeriesAnalyzer.detect_time_conflicts timeline))
    by reflexivity.
  rewrite <- Hc in Hall.
  assert (Hf : filter TimeSeriesAnalyzer.high_severity conflicts = order).
  { unfold order. apply filter_ext_in. intros c Hin.
    apply high_severity_is_order. rewrite Forall_forall in Hall. apply Hall. exact Hin. }
  subst logic. unfold TimeSeriesAnalyzer._analyze_logic. fold conflicts.
  cbn [TimeSeriesAnalyzer.LogicAnalysis.logic_issues
       TimeSeriesAnalyzer.LogicAnalysis.time_sequence
       TimeSeriesAnalyzer.LogicAnalysis.logic_valid].
  rewrite Hf. subst order. clear Hf Hc Hall. clearbody conflicts.
  destruct conflicts as [|c cs].
  - simpl. split; [reflexivity|]. split; [|tauto].
    split; intros H; [vm_compute in H; discriminate|congruence].
  - cbn [is_empty negb andb].
    destruct (filter (fun c0 => str_eqb (Conflict.type c0) (u "order")) (c :: cs)).
    + simpl. split; [reflexivity|]. split; split; intros H; try congruence.
      vm_compute in H. discriminate.
    + simpl. split; [reflexivity|]. split; split; intros H; congruence.
Qed.

(** ** The timeline that [build_timeline] returns *)

Section BuiltTimeline.
Import TimeSeriesAnalyzer.

Lemma build_timeline_fields (timestamps : list Timestamp.t) (event_context : str) :
  let timeline := build_timeline timestamps event_context in
  Forall (fun t => is_some (Timestamp.datetime t) = true) (Timeline.timestamps timeline) /\
  StronglySorted not_later (Timeline.timestamps timeline) /\
  Timeline.intervals timeline = intervals_of (Timeline.timestamps timeline).
Proof.
  set (valid := filter (fun t => is_some (Timestamp.datetime t)) timestamps).
  set (tl0 := {| Timeline.id := u "timeline_1"; Timeline.timestamps := [];
                 Timeline.intervals := []; Timeline.conflicts := [] |}).
  set (sorted := Timeline.sort_by Timeline.datetime_or_max valid).
  assert (Hperm : Permutation (Timeline.timestamps (fold_left Timeline.add_timestamp sorted tl0))
                              valid).
  { rewrite fold_add_timestamp_perm. simpl. apply sort_by_perm. }
  assert (Hall : Forall (fun t => is_some (Timestamp.datetime t) = true)
                        (Timeline.timestamps (fold_left Timeline.add_timestamp sorted tl0))).
  { eapply Permutation_Forall; [symmetry; exact Hperm|].
    apply Forall_forall. intros t Ht. apply filter_In in Ht. apply Ht. }
  assert (Hsorted : StronglySorted (key_le Timeline.datetime_or_max)
                      (Timeline.timestamps (fold_left Timeline.add_timestamp sorted tl0))).
  { apply fold_add_timestamp_sorted. constructor. }
  destruct (fold_add_timestamp_fields sorted tl0) as (Hi & _ & _).
  unfold build_timeline. fold valid. fold tl0. fold sorted. simpl.
  split; [exact Hall|]. split; [apply sorted_resolved; assumption|].
  rewrite Hi. reflexivity.
Qed.

(** An interval runs from a resolved timestamp to a resolved timestamp that
    is not earlier, and its duration is their difference. *)
Definition interval_between (a b : Timestamp.t) (i : TimeInterval.t) : Prop :=
  TimeInterval.start i = a /\ TimeInterval.end_ i = b /\
  exists da db, Timestamp.datetime a = Some da /\ Timestamp.datetime b = Some db /\
                Datetime.leb da db = true /\
                TimeInterval.duration i = Some (diff db da) /\
                TimeInterval.description i =
                  Timestamp.event a ++ u " → " ++ Timestamp.event b.

Lemma intervals_of_adjacent (l : list Timestamp.t) :
  StronglySorted not_later l ->
  Forall2 (fun ab i => interval_between (fst ab) (snd ab) i)
          (combine (removelast l) (tl l)) (intervals_of l).
Proof.
  induction 1 as [|a l Hs IH Hall]; [constructor|].
  destruct l as [|b l']; [constructor|].
  inversion Hall as [|? ? Hab _]; subst.
  destruct Hab as (da & db & Ha & Hb & Hle).
  change (intervals_of (a :: b :: l'))
    with (match Timestamp.datetime a, Timestamp.datetime b with
          | Some da, Some db =>
              [{| TimeInterval.start := a;
                  TimeInterval.end_ := b;
                  TimeInterval.duration := Some (diff db da);
                  TimeInterval.description :=
                    Timestamp.event a ++ u " → " ++ Timestamp.event b |}]
          | _, _ => []
          end ++ intervals_of (b :: l')).
  rewrite Ha, Hb.
  change (combine (removelast (a :: b :: l')) (tl (a :: b :: l')))
    with ((a, b) :: combine (removelast (b :: l')) (tl (b :: l'))).
  constructor; [|exact IH].
  cbn [fst snd TimeInterval.start TimeInterval.end_ TimeInterval.duration
       TimeInterval.description].
  split; [reflexivity|]. split; [reflexivity|]. exists da, db. auto.
Qed.

Section Split.
Variable dt : datetime.

Lemma before_cases (d : datetime) :
  (ltb d dt, leb dt d && leb d dt, ltb dt d) =
  match Datetime.compare d dt with
  | Lt => (true, false, false)
  | Eq => (false, true, false)
  | Gt => (false, false, true)
  end.
Proof.
  unfold ltb, leb, Datetime.compare.
  rewrite (lex_compare_antisym (fields d) (fields dt)).
  destruct (lex_compare (fields d) (fields dt)); reflexivity.
Qed.

Lemma compare_mono (a b : datetime) :
  leb a b = true -> Datetime.compare a dt <> Lt -> Datetime.compare b dt <> Lt.
Proof.
  unfold leb, Datetime.compare. intros Hab Ha Hb.
  assert (H1 : lex_compare (fields dt) (fields a) <> Gt).
  { rewrite (lex_compare_antisym (fields a) (fields dt)).
    destruct (lex_compare (fields a) (fields dt)); simpl; congruence. }
  assert (H2 : lex_compare (fields a) (fields b) <> Gt).
  { destruct (lex_compare (fields a) (fields b)); congruence. }
  pose proof (lex_compare_trans _ _ _ H1 H2) as H3.
  rewrite (lex_compare_antisym (fields b) (fields dt)), Hb in H3. simpl in H3.
  congruence.
Qed.

Lemma compare_mono_gt (a b : datetime) :
  leb a b = true -> Datetime.compare a dt = Gt -> Datetime.compare b dt = Gt.
Proof.
  unfold leb, Datetime.compare. intros Hab Ha.
  destruct (lex_compare (fields b) (fields dt)) eqn:Hb; [| |reflexivity]; exfalso.
  - assert (H2 : lex_compare (fields a) (fields b) <> Gt).
    { destruct (lex_compare (fields a) (fields b)); congruence. }
    assert (H3 : lex_compare (fields b) (fields dt) <> Gt) by congruence.
    apply (lex_compare_trans _ _ _ H2 H3). exact Ha.
  - assert (H2 : lex_compare (fields a) (fields b) <> Gt).
    { destruct (lex_compare (fields a) (fields b)); congruence. }
    assert (H3 : lex_compare (fields b) (fields dt) <> Gt) by congruence.
    apply (lex_compare_trans _ _ _ H2 H3). exact Ha.
Qed.

Lemma filter_none (A : Type) (p : A -> bool) (l : list A) :
  Forall (fun x => p x = false) l -> filter p l = [].
Proof.
  induction 1 as [|x l Hx Hl IH]; simpl; [reflexivity|]. rewrite Hx. exact IH.
Qed.

Lemma split_sorted (l : list Timestamp.t) :
  Forall (fun t => is_some (Timestamp.datetime t) = true) l ->
  StronglySorted not_later l ->
  filter (Timeline.resolved_and (fun d => ltb d dt)) l ++
  filter (Timeline.resolved_and (fun d => leb dt d && leb d dt)) l ++
  filter (Timeline.resolved_and (fun d => ltb dt d)) l = l.
Proof.
  intros Hres Hs. induction Hs as [|a l Hs IH Hall]; [reflexivity|].
  inversion Hres as [|? ? Ha Hl]; subst. specialize (IH Hl).
  destruct (Timestamp.datetime a) as [da|] eqn:Ea; [clear Ha|discriminate].
  assert (Hlater : Forall (fun b => exists db, Timestamp.datetime b = Some db /\
                                               leb da db = true) l).
  { eapply Forall_impl; [|exact Hall].
    intros b (da' & db & H1 & H2 & H3). rewrite Ea in H1. injection H1 as <-.
    exists db. auto. }
  assert (Hb1 : Timeline.resolved_and (fun d => ltb d dt) a = ltb da dt)
    by (unfold Timeline.resolved_and; rewrite Ea; reflexivity).
  assert (Hb2 : Timeline.resolved_and (fun d => leb dt d && leb d dt) a
                = leb dt da && leb da dt)
    by (unfold Timeline.resolved_and; rewrite Ea; reflexivity).
  assert (Hb3 : Timeline.resolved_and (fun d => ltb dt d) a = ltb dt da)
    by (unfold Timeline.resolved_and; rewrite Ea; reflexivity).
  cbn [filter]. rewrite Hb1, Hb2, Hb3. clear Hb1 Hb2 Hb3.
  pose proof (before_cases da) as Hc.
  destruct (Datetime.compare da dt) eqn:C; injection Hc as E1 E2 E3;
    rewrite E1, E2, E3; clear E1 E2 E3.
  - rewrite (filter_none _ (Timeline.resolved_and (fun d => ltb d dt)) l) in *.
    + simpl. f_equal. exact IH.
    + eapply Forall_impl; [|exact Hlater]. intros b (db & Hb & Hle).
      unfold Timeline.resolved_and. rewrite Hb.
      assert (H : Datetime.compare db dt <> Lt)
        by (apply (compare_mono da db Hle); congruence).
      unfold ltb. destruct (Datetime.compare db dt); congruence.
    + eapply Forall_impl; [|exact Hlater]. intros b (db & Hb & Hle).
      unfold Timeline.resolved_and. rewrite Hb.
      assert (H : Datetime.compare db dt <> Lt)
        by (apply (compare_mono da db Hle); congruence).
      unfold ltb. destruct (Datetime.compare db dt); congruence.
  - simpl. f_equal. exact IH.
  - assert (Hgt : Forall (fun b => exists db, Timestamp.datetime b = Some db /\
                                              Datetime.compare db dt = Gt) l).
    { eapply Forall_impl; [|exact Hlater]. intros b (db & Hb & Hle).
      exists db. split; [exact Hb|]. apply (compare_mono_gt da db Hle C). }
    assert (H1 : filter (Timeline.resolved_and (fun d => ltb d dt)) l = []).
    { apply filter_none. eapply Forall_impl; [|exact Hgt]. intros b (db & Hb & Hc).
      unfold Timeline.resolved_and, ltb. rewrite Hb, Hc. reflexivity. }
    assert (H2 : filter (Timeline.resolved_and (fun d => leb dt d && leb d dt)) l = []).
    { apply filter_none. eapply Forall_impl; [|exact Hgt]. intros b (db & Hb & Hc).
      pose proof (before_cases db) as Hb3. rewrite Hc in Hb3.
      injection Hb3 as _ Hb3 _.
      unfold Timeline.resolved_and. rewrite Hb. exact Hb3. }
    rewrite H1, H2 in *. simpl. f_equal. exact IH.
Qed.

End Split.
End BuiltTimeline.

(** X14. In the timeline of [build_timeline] the intervals join each
    timestamp to the next one: there is one interval for each pair of
    neighbours, from the earlier to the later, with their difference as its
    duration and "event → event" as its description. *)
Theorem build_timeline_intervals_adjacent :
  forall (timestamps : list Timestamp.t) (event_context : str),
    let timeline := TimeSeriesAnalyzer.build_timeline timestamps event_context in
    Forall2 (fun ab i => interval_between (fst ab) (snd ab) i)
            (combine (removelast (Timeline.timestamps timeline))
                     (tl (Timeline.timestamps timeline)))
            (Timeline.intervals timeline).
Proof.
  intros timestamps event_context timeline.
  destruct (build_timeline_fields timestamps event_context) as (_ & Hs & Hi).
  fold timeline in Hs, Hi. rewrite Hi. apply intervals_of_adjacent. exact Hs.
Qed.

(** X15. A moment splits the timeline of [build_timeline] in three
    consecutive parts: the timestamps before it, those at it and those
    after it, as [get_timestamps_before], [get_timestamps_between] and
    [get_timestamps_after] return them. *)
Theorem timeline_splits_at :
  forall (timestamps : list Timestamp.t) (event_context : str) (dt : datetime),
    let timeline := TimeSeriesAnalyzer.build_timeline timestamps event_context in
    Timeline.get_timestamps_before timeline dt ++
    Timeline.get_timestamps_between timeline dt dt ++
    Timeline.get_timestamps_after timeline dt
    = Timeline.timestamps timeline.
Proof.
  intros timestamps event_context dt timeline.
  destruct (build_timeline_fields timestamps event_context) as (Hres & Hs & _).
  apply split_sorted; assumption.
Qed.

(** ** Contradictions between sentences and between evidences *)

Section Contradictions.
Import DeepReasoner.

Lemma pairs_map (A B : Type) (f : A -> B) (l : list A) :
  pairs (map f l) = map (fun ab => (f (fst ab), f (snd ab))) (pairs l).
Proof.
  induction l as [|x l IH]; simpl; [reflexivity|].
  rewrite map_app, IH, !map_map. reflexivity.
Qed.

Lemma pairs_seq (n s i j : nat) :
  In (i, j) (pairs (seq s n)) -> s <= i /\ i < j /\ j < s + n.
Proof.
  revert s. induction n as [|n IH]; intros s; simpl; [intros []|].
  rewrite in_app_iff, in_map_iff. intros [(k & Hk & Hin)|Hin].
  - injection Hk as <- <-. apply in_seq in Hin. lia.
  - apply IH in Hin. lia.
Qed.

Lemma map_fst_enumerate (A : Type) (l : list A) :
  map fst (enumerate l) = seq 0 (length l).
Proof.
  unfold enumerate. generalize 0. induction l as [|x l IH]; intros s; simpl;
    [reflexivity|]. rewrite IH. reflexivity.
Qed.

Lemma pairs_enumerate (A : Type) (l : list A) (i j : nat) (a b : A) :
  In ((i, a), (j, b)) (pairs (enumerate l)) -> i < j /\ j < length l.
Proof.
  intros Hin.
  assert (H : In (i, j) (pairs (map fst (enumerate l)))).
  { rewrite pairs_map. apply in_map_iff. exists ((i, a), (j, b)). auto. }
  rewrite map_fst_enumerate in H. apply pairs_seq in H. lia.
Qed.

Lemma filter_all (A : Type) (p : A -> bool) (l : list A) :
  Forall (fun x => p x = true) l -> filter p l = l.
Proof.
  induction 1 as [|x l Hx Hl IH]; simpl; [reflexivity|]. rewrite Hx, IH. reflexivity.
Qed.

Definition fact_conflict (c : Contradiction.t) : Prop :=
  Contradiction.type c = u "fact" /\ Contradiction.severity c = u "medium" /\
  fst (Contradiction.items c) < snd (Contradiction.items c).

Definition evidence_conflict (evidences : list Evidence.t) (c : Contradiction.t) : Prop :=
  Contradiction.type c = u "evidence" /\ Contradiction.severity c = u "high" /\
  exists ev1 ev2,
    nth_error evidences (fst (Contradiction.items c)) = Some ev1 /\
    nth_error evidences (snd (Contradiction.items c)) = Some ev2 /\
    fst (Contradiction.items c) < snd (Contradiction.items c) /\
    _has_evidence_conflict ev1 ev2 = true.

Lemma enumerate_nth (A : Type) (l : list A) (i : nat) (a : A) :
  In (i, a) (enumerate l) -> nth_error l i = Some a.
Proof.
  unfold enumerate.
  assert (H : forall s, In (i, a) (combine (seq s (length l)) l) ->
                        s <= i /\ nth_error l (i - s) = Some a).
  { induction l as [|x l IH]; intros s; simpl; [intros []|].
    intros [H|H].
    - injection H as <- <-. rewrite Nat.sub_diag. auto.
    - apply IH in H. destruct H as (Hle & Hn). split; [lia|].
      replace (i - s) with (S (i - S s)) by lia. exact Hn. }
  intros Hin. apply H in Hin. rewrite Nat.sub_0_r in Hin. apply Hin.
Qed.

Lemma pairs_In (A : Type) (l : list A) (x y : A) :
  In (x, y) (pairs l) -> In x l /\ In y l.
Proof.
  induction l as [|z l IH]; simpl; [intros []|].
  rewrite in_app_iff, in_map_iff. intros [(k & Hk & Hin)|Hin].
  - injection Hk as <- <-. auto.
  - apply IH in Hin. tauto.
Qed.

Lemma fact_conflicts_spec (text : str) :
  Forall fact_conflict (_detect_fact_conflicts text).
Proof.
  unfold _detect_fact_conflicts. apply Forall_forall. intros c Hc.
  apply in_flat_map in Hc. destruct Hc as ([[i s1] [j s2]] & Hin & Hc).
  destruct (_has_obvious_conflict s1 s2); [|destruct Hc].
  destruct Hc as [<-|[]]. apply pairs_enumerate in Hin.
  unfold fact_conflict. cbn. repeat split. lia.
Qed.

Lemma evidence_conflicts_spec (evidences : list Evidence.t) :
  Forall (evidence_conflict evidences) (_detect_evidence_conflicts evidences).
Proof.
  unfold _detect_evidence_conflicts. apply Forall_forall. intros c Hc.
  apply in_flat_map in Hc. destruct Hc as ([[i ev1] [j ev2]] & Hin & Hc).
  destruct (_has_evidence_conflict ev1 ev2) eqn:E; [|destruct Hc].
  destruct Hc as [<-|[]]. pose proof (pairs_enumerate _ _ _ _ _ _ Hin) as Hij.
  apply pairs_In in Hin. destruct Hin as (H1 & H2).
  apply enumerate_nth in H1. apply enumerate_nth in H2.
  unfold evidence_conflict. cbn. repeat split. exists ev1, ev2. repeat split; auto. lia.
Qed.

Lemma existsb_ext (A : Type) (f g : A -> bool) (l : list A) :
  (forall x, f x = g x) -> existsb f l = existsb g l.
Proof.
  intros H. induction l as [|x l IH]; simpl; [reflexivity|]. rewrite H, IH. reflexivity.
Qed.

Lemma contains_startswith (w s : str) : startswith w s = true -> contains w s = true.
Proof. intros H. destruct s; simpl; rewrite H; reflexivity. Qed.

Lemma contains_tail (a : N) (w s : str) :
  contains (a :: w) s = true -> contains w s = true.
Proof.
  induction s as [|y s IH]; [simpl; discriminate|].
  change (contains (a :: w) (y :: s))
    with (((a =? y)%N && startswith w s) || contains (a :: w) s).
  change (contains w (y :: s)) with (startswith w (y :: s) || contains w s).
  intros H. apply orb_true_iff in H. destruct H as [H|H].
  - apply andb_true_iff in H. destruct H as (_ & H).
    rewrite (contains_startswith _ _ H). apply orb_true_r.
  - rewrite (IH H). apply orb_true_r.
Qed.

End Contradictions.

(** X16. [_detect_conflicts] counts each contradiction once: the total is
    the number of fact conflicts plus the number of evidence conflicts. The
    fact conflicts have type "fact" and severity "medium"; the evidence
    conflicts have type "evidence" and severity "high" and each names two
    evidences of the list, the first before the second, whose descriptions
    [_has_evidence_conflict] opposes. *)
Theorem detect_conflicts_partition :
  forall (text : str) (evidences : list Evidence.t),
    let analysis := DeepReasoner._detect_conflicts text evidences in
    ConflictAnalysis.total_conflicts analysis =
      length (ConflictAnalysis.fact_conflicts analysis) +
      length (ConflictAnalysis.evidence_conflicts analysis) /\
    Forall fact_conflict (ConflictAnalysis.fact_conflicts analysis) /\
    Forall (evidence_conflict evidences) (ConflictAnalysis.evidence_conflicts analysis).
Proof.
  intros text evidences analysis. subst analysis. unfold DeepReasoner._detect_conflicts.
  cbn [ConflictAnalysis.total_conflicts ConflictAnalysis.fact_conflicts
       ConflictAnalysis.evidence_conflicts].
  pose proof (fact_conflicts_spec text) as Hf.
  pose proof (evidence_conflicts_spec evidences) as He.
  assert (Hev : (if is_empty evidences then []
                 else DeepReasoner._detect_evidence_conflicts evidences)
                = DeepReasoner._detect_evidence_conflicts evidences)
    by (destruct evidences; reflexivity).
  rewrite Hev, filter_app.
  rewrite (filter_none _ _ (DeepReasoner._detect_fact_conflicts text)).
  - rewrite (filter_all _ _ (DeepReasoner._detect_evidence_conflicts evidences)).
    + rewrite length_app. auto.
    + eapply Forall_impl; [|exact He]. intros c (Ht & _). rewrite Ht.
      vm_compute. reflexivity.
  - eapply Forall_impl; [|exact Hf]. intros c (Ht & _). rewrite Ht.
    vm_compute. reflexivity.
Qed.

(** X17. [_has_obvious_conflict] does not depend on the order of the two
    sentences. *)
Theorem obvious_conflict_symmetric :
  forall sentence1 sentence2 : str,
    DeepReasoner._has_obvious_conflict sentence1 sentence2 =
    DeepReasoner._has_obvious_conflict sentence2 sentence1.
Proof.
  intros s1 s2. unfold DeepReasoner._has_obvious_conflict.
  apply existsb_ext. intros [kw1 kw2].
  destruct (contains kw1 s1), (contains kw2 s2), (contains kw2 s1), (contains kw1 s2);
    reflexivity.
Qed.

(** The negated keywords of [_has_obvious_conflict]. *)
Definition negated_keywords : list str :=
  [u "不是"; u "没有"; u "不同意"; u "不认可"; u "未支付"; u "未收到"].

(** X18. Each negated keyword of [_has_obvious_conflict] contains its
    positive keyword, so two sentences that both contain the same negated
    keyword are reported as contradicting each other. *)
Theorem shared_negation_reported_as_conflict :
  forall negated sentence1 sentence2 : str,
    In negated negated_keywords ->
    contains negated sentence1 = true ->
    contains negated sentence2 = true ->
    DeepReasoner._has_obvious_conflict sentence1 sentence2 = true.
Proof.
  intros negated s1 s2 Hin H1 H2.
  assert (H : exists positive,
             In (positive, negated)
                [(u "是", u "不是"); (u "有", u "没有"); (u "同意", u "不同意");
                 (u "认可", u "不认可"); (u "支付", u "未支付"); (u "收到", u "未收到")] /\
             contains positive s2 = true).
  { unfold negated_keywords in Hin.
    destruct Hin as [<-|[<-|[<-|[<-|[<-|[<-|[]]]]]]].
    - exists (u "是"). split; [left; reflexivity|].
      exact (contains_tail (hd 0%N (u "不是")) (u "是") s2 H2).
    - exists (u "有"). split; [right; left; reflexivity|].
      exact (contains_tail (hd 0%N (u "没有")) (u "有") s2 H2).
    - exists (u "同意"). split; [right; right; left; reflexivity|].
      exact (contains_tail (hd 0%N (u "不同意")) (u "同意") s2 H2).
    - exists (u "认可"). split; [right; right; right; left; reflexivity|].
      exact (contains_tail (hd 0%N (u "不认可")) (u "认可") s2 H2).
    - exists (u "支付"). split; [right; right; right; right; left; reflexivity|].
      exact (contains_tail (hd 0%N (u "未支付")) (u "支付") s2 H2).
    - exists (u "收到"). split; [right; right; right; right; right; left; reflexivity|].
      exact (contains_tail (hd 0%N (u "未收到")) (u "收到") s2 H2). }
  destruct H as (positive & Hpair & Hpos).
  unfold DeepReasoner._has_obvious_conflict. apply existsb_exists.
  exists (positive, negated). split; [exact Hpair|].
  rewrite H1, Hpos. cbn [andb]. apply orb_true_r.
Qed.

Lemma shared_negation_reported_as_conflict_witness :
  In (u "没有") negated_keywords /\
  contains (u "没有") (u "甲方没有收到货物") = true /\
  contains (u "没有") (u "乙方也没有收到货物") = true /\
  DeepReasoner._has_obvious_conflict (u "甲方没有收到货物") (u "乙方也没有收到货物") = true.
Proof.
  assert (H0 : In (u "没有") negated_keywords) by (right; left; reflexivity).
  assert (H1 : contains (u "没有") (u "甲方没有收到货物") = true) by (vm_compute; reflexivity).
  assert (H2 : contains (u "没有") (u "乙方也没有收到货物") = true)
    by (vm_compute; reflexivity).
  split; [exact H0|]. split; [exact H1|]. split; [exact H2|].
  exact (shared_negation_reported_as_conflict _ _ _ H0 H1 H2).
Defined.

(** ** Premeditation *)

(** X19. With weights 0.2, 0.2, 0.3, 0.2 and 0.2 added as floats, the
    verdict of [_analyze_premeditation] depends on the number of indicators
    found, the keyword indicator counting twice: premeditated from three,
    and a score of at least 0.7 from four. One label is listed for each
    indicator found. *)
Theorem premeditated_iff_enough_indicators :
  forall (text : str) (time_analysis : TimeAnalysis.t) (causal_analysis : CausalSummary.t),
    let analysis := DeepReasoner._analyze_premeditation text time_analysis causal_analysis in
    let flags := indicator_flags text time_analysis causal_analysis in
    let points := length (filter (fun b : bool => b) flags) +
                  (if nth 2 flags false then 1 else 0) in
    length (Premeditation.indicators analysis) = length (filter (fun b : bool => b) flags) /\
    Premeditation.is_premeditated analysis = (3 <=? points) /\
    PrimFloat.leb 0.7 (Premeditation.premeditation_score analysis) = (4 <=? points).
Proof.
  intros text ta ca.
  unfold indicator_flags, DeepReasoner._analyze_premeditation,
    DeepReasoner.premeditation_indicators.
  cbn [map nth fst].
  name_flags.
  destruct flag, flag0, flag1, flag2, flag3; vm_compute; repeat split.
Qed.

(** ** Evidence *)

Section EvidenceFacts.
Import DeepReasoner.

Lemma EvidenceType_eqb_eq (a b : EvidenceType) : EvidenceType_eqb a b = true <-> a = b.
Proof.
  destruct a, b; simpl; split; intros H; try reflexivity; try discriminate.
  - apply Nat.eqb_eq in H. subst. reflexivity.
  - injection H as ->. apply Nat.eqb_refl.
Qed.

Lemma has_type_iff (ty : EvidenceType) (evidences : list Evidence.t) :
  existsb (EvidenceType_eqb ty) (map Evidence.evidence_type evidences) = true <->
  exists ev, In ev evidences /\ Evidence.evidence_type ev = ty.
Proof.
  rewrite existsb_exists. split.
  - intros (ty' & Hin & Heq). apply EvidenceType_eqb_eq in Heq. subst ty'.
    apply in_map_iff in Hin. destruct Hin as (ev & H1 & H2). eauto.
  - intros (ev & Hin & Hty). exists ty. split; [|apply EvidenceType_eqb_eq; reflexivity].
    rewrite <- Hty. apply in_map. exact Hin.
Qed.

Lemma three_types_three_evidences (evidences : list Evidence.t) (e1 e2 e3 : Evidence.t) :
  In e1 evidences -> In e2 evidences -> In e3 evidences ->
  Evidence.evidence_type e1 = DOCUMENT ->
  Evidence.evidence_type e2 = ELECTRONIC ->
  Evidence.evidence_type e3 = AUDIO_VIDEO ->
  3 <= length evidences.
Proof.
  intros H1 H2 H3 T1 T2 T3.
  assert (Hnd : NoDup (map Evidence.evidence_type [e1; e2; e3])).
  { simpl. rewrite T1, T2, T3. repeat constructor; simpl; intuition discriminate. }
  apply NoDup_map_inv in Hnd.
  apply (NoDup_incl_length Hnd). intros x [<-|[<-|[<-|[]]]]; assumption.
Qed.

Lemma suggestions_nonempty (evidences : list Evidence.t) :
  EvidenceChain.suggestions (_analyze_evidence_chain evidences) <> [].
Proof.
  destruct evidences as [|ev evidences]; simpl; [discriminate|].
  unfold _generate_evidence_suggestions.
  destruct (_identify_evidence_gaps (ev :: evidences)); discriminate.
Qed.

End EvidenceFacts.

(** X20. [_identify_evidence_gaps] reports no gap exactly when the
    evidences include a document, an electronic evidence and an audio-video
    evidence; the test on the number of evidences then adds nothing. *)
Theorem evidence_gaps_none_iff_three_types :
  forall evidences : list Evidence.t,
    DeepReasoner._identify_evidence_gaps evidences = [] <->
    (forall ty, In ty [DOCUMENT; ELECTRONIC; AUDIO_VIDEO] ->
                exists ev, In ev evidences /\ Evidence.evidence_type ev = ty).
Proof.
  intros evidences. unfold DeepReasoner._identify_evidence_gaps. cbn [flat_map].
  split.
  - intros H ty Hty.
    destruct (existsb (EvidenceType_eqb DOCUMENT) (map Evidence.evidence_type evidences))
      eqn:E1; [|discriminate].
    destruct (existsb (EvidenceType_eqb ELECTRONIC) (map Evidence.evidence_type evidences))
      eqn:E2; [|discriminate].
    destruct (existsb (EvidenceType_eqb AUDIO_VIDEO) (map Evidence.evidence_type evidences))
      eqn:E3; [|discriminate].
    destruct Hty as [<-|[<-|[<-|[]]]]; apply has_type_iff; assumption.
  - intros H.
    pose proof (H DOCUMENT (or_introl eq_refl)) as H1.
    pose proof (H ELECTRONIC (or_intror (or_introl eq_refl))) as H2.
    pose proof (H AUDIO_VIDEO (or_intror (or_intror (or_introl eq_refl)))) as H3.
    destruct H1 as (e1 & I1 & T1). destruct H2 as (e2 & I2 & T2).
    destruct H3 as (e3 & I3 & T3).
    pose proof (three_types_three_evidences evidences e1 e2 e3 I1 I2 I3 T1 T2 T3) as Hlen.
    rewrite (proj2 (has_type_iff DOCUMENT evidences)) by eauto.
    rewrite (proj2 (has_type_iff ELECTRONIC evidences)) by eauto.
    rewrite (proj2 (has_type_iff AUDIO_VIDEO evidences)) by eauto.
    apply Nat.ltb_ge in Hlen. rewrite Hlen. reflexivity.
Qed.

(** ** The recommendations of [reason] *)

Section Recommendations.
Import DeepReasoner.

Definition closing_note : fstring := [PStr (u "ℹ️ 建议基于以上发现进一步调查取证")].

Definition all_clear : fstring := [PStr (u "✅ 深度推理未发现明显问题,逻辑清晰")].

Lemma is_empty_app_r (A : Type) (l1 l2 : list A) :
  l2 <> [] -> is_empty (l1 ++ l2) = false.
Proof.
  intros H. destruct l1; simpl; [|reflexivity]. destruct l2; [contradiction|reflexivity].
Qed.

Lemma generate_recommendations_shape (time_analysis : TimeAnalysis.t)
    (causal_analysis : CausalSummary.t) (conflict_analysis : ConflictAnalysis.t)
    (logical_analysis : LogicalAnalysis.t) (premeditation_analysis : Premeditation.t)
    (evidence_chain : EvidenceChain.t) :
  EvidenceChain.suggestions evidence_chain <> [] ->
  exists body,
    _generate_recommendations time_analysis causal_analysis conflict_analysis
      logical_analysis premeditation_analysis evidence_chain
    = body ++ map (fun s => [PStr s]) (EvidenceChain.suggestions evidence_chain)
           ++ [closing_note].
Proof.
  intros Hs. unfold _generate_recommendations.
  set (a1 := if is_empty (TimeAnalysis.logic_issues time_analysis) then [] else _).
  set (a2 := if 0 <? CausalSummary.gaps_count causal_analysis then _ else []).
  set (a3 := if 0 <? ConflictAnalysis.total_conflicts conflict_analysis then _ else []).
  set (a4 := if LogicalAnalysis.logic_valid logical_analysis then [] else _).
  set (a5 := if Premeditation.is_premeditated premeditation_analysis && _ then _ else []).
  set (s := map (fun s => [PStr s]) (EvidenceChain.suggestions evidence_chain)).
  assert (Hne : s <> []).
  { subst s. destruct (EvidenceChain.suggestions evidence_chain);
      [contradiction|discriminate]. }
  replace (a1 ++ a2 ++ a3 ++ a4 ++ a5 ++ s) with ((a1 ++ a2 ++ a3 ++ a4 ++ a5) ++ s)
    by (rewrite <- !app_assoc; reflexivity).
  rewrite (is_empty_app_r _ _ _ Hne).
  exists (a1 ++ a2 ++ a3 ++ a4 ++ a5). rewrite <- !app_assoc. reflexivity.
Qed.

Lemma reason_result (self : self_t) (text : str) (evidences : option (list Evidence.t))
    (context : option (list (str * str))) (clk : clock) (n n' : nat)
    (r : DeepReasoningResult.t) :
  reason self text evidences context clk n = Ok (r, n') ->
  DeepReasoningResult.timestamp r = clk n /\
  DeepReasoningResult.evidence_chain r =
    _analyze_evidence_chain (match evidences with Some l => l | None => [] end) /\
  DeepReasoningResult.recommendations r =
    _generate_recommendations
      (DeepReasoningResult.time_analysis r) (DeepReasoningResult.causal_analysis r)
      (DeepReasoningResult.conflict_analysis r) (DeepReasoningResult.logical_analysis r)
      (DeepReasoningResult.premeditation_analysis r) (DeepReasoningResult.evidence_chain r).
Proof.
  unfold reason, bindIO, now, ret.
  destruct (_analyze_time_series text clk (S n)) as [[ta n1]|e]; [|discriminate].
  destruct (_analyze_logic text _ clk n1) as [[la n2]|e]; [|discriminate].
  intros H. injection H as <- <-. cbn. repeat split.
Qed.

End Recommendations.

(** X21. Whenever [reason] returns, its recommendations end with the
    suggestions of the evidence chain, of which there is at least one,
    followed by the closing note. The list is therefore never the single
    all-clear message "✅ 深度推理未发现明显问题,逻辑清晰" that the code keeps for
    an empty list. *)
Theorem recommendations_never_all_clear :
  forall (self : DeepReasoner.self_t) (text : str)
         (evidences : option (list Evidence.t)) (context : option (list (str * str)))
         (clk : clock) (n n' : nat) (r : DeepReasoningResult.t),
    DeepReasoner.reason self text evidences context clk n = Ok (r, n') ->
    let suggestions :=
      EvidenceChain.suggestions (DeepReasoningResult.evidence_chain r) in
    suggestions <> [] /\
    (exists body,
       DeepReasoningResult.recommendations r =
       body ++ map (fun s => [PStr s]) suggestions ++ [closing_note]) /\
    DeepReasoningResult.recommendations r <> [all_clear].
Proof.
  intros self text evidences context clk n n' r H suggestions.
  destruct (reason_result _ _ _ _ _ _ _ _ H) as (_ & Hec & Hrec).
  assert (Hs : suggestions <> []).
  { subst suggestions. rewrite Hec. apply suggestions_nonempty. }
  destruct (generate_recommendations_shape
              (DeepReasoningResult.time_analysis r) (DeepReasoningResult.causal_analysis r)
              (DeepReasoningResult.conflict_analysis r)
              (DeepReasoningResult.logical_analysis r)
              (DeepReasoningResult.premeditation_analysis r)
              (DeepReasoningResult.evidence_chain r) Hs) as (body & Hbody).
  fold suggestions in Hbody. rewrite <- Hrec in Hbody.
  split; [exact Hs|]. split; [exists body; exact Hbody|].
  rewrite Hbody. intros Heq.
  apply (f_equal (@length fstring)) in Heq.
  rewrite !length_app, length_map in Heq. simpl in Heq.
  destruct suggestions; [contradiction|]. simpl in Heq. lia.
Qed.

Lemma recommendations_never_all_clear_witness :
  exists r n',
    DeepReasoner.reason reasoner_2024 [] None None (fun _ => may_10_2024) 0 = Ok (r, n') /\
    EvidenceChain.suggestions (DeepReasoningResult.evidence_chain r) <> [] /\
    (exists body,
       DeepReasoningResult.recommendations r =
       body ++ map (fun s => [PStr s])
                   (EvidenceChain.suggestions (DeepReasoningResult.evidence_chain r))
            ++ [closing_note]) /\
    DeepReasoningResult.recommendations r <> [all_clear].
Proof.
  destruct (DeepReasoner.reason reasoner_2024 [] None None (fun _ => may_10_2024) 0)
    as [[r n']|e] eqn:E.
  - exists r, n'. split; [reflexivity|].
    exact (recommendations_never_all_clear reasoner_2024 [] None None
             (fun _ => may_10_2024) 0 n' r E).
  - vm_compute in E. discriminate.
Defined.

(** ** Nodes and relations of a chain *)

Section SimpleChains.
Import CausalReasoner.

Lemma nodup_app (l1 l2 : list str) :
  NoDup l1 -> NoDup l2 -> (forall x, In x l1 -> ~ In x l2) -> NoDup (l1 ++ l2).
Proof.
  induction l1 as [|a l1 IH]; intros H1 H2 Hd; simpl; [exact H2|].
  inversion H1; subst. constructor.
  - rewrite in_app_iff. intros [H|H]; [contradiction|].
    apply (Hd a (or_introl eq_refl) H).
  - apply IH; auto. intros x Hx. apply Hd. right. exact Hx.
Qed.

(** Every effect listed in the graph is a key of the graph. *)
Definition closed (graph : graph_t) : Prop :=
  forall k x, In x (get graph k) -> has_key x graph = true.

Lemma build_graph_closed (relations : list CausalRelation.t) :
  closed (_build_causal_graph relations).
Proof.
  intros k x Hx. destruct (build_graph_spec relations) as (_ & Hkeys & Hget).
  rewrite Hget in Hx. apply has_key_iff. apply Hkeys.
  unfold effects_of in Hx. apply in_map_iff in Hx. destruct Hx as (r & <- & Hr).
  apply filter_In in Hr. destruct Hr as (Hr & _).
  unfold is_node. exists r. auto.
Qed.

(** What a traversal adds: nodes not seen before, each once, all of them
    marked as visited afterwards. *)
Definition fresh (visited ext visited' : list str) : Prop :=
  NoDup ext /\
  (forall x, In x ext -> ~ In x visited) /\
  (forall x, In x visited' <-> In x ext \/ In x visited).

Lemma trace_loop_fresh (graph : graph_t)
    (rec : str -> list str -> option (list str * list str)) (nodes : list str) :
  (forall n v sub v', In n nodes -> mem n v = false ->
                      rec n v = Some (sub, v') -> fresh v sub v') ->
  forall chain visited chain' visited',
    trace_loop rec nodes chain visited = Some (chain', visited') ->
    exists ext, chain' = chain ++ ext /\ fresh visited ext visited'.
Proof.
  induction nodes as [|n nodes IH]; intros Hrec chain visited chain' visited'; simpl.
  - intros H. injection H as <- <-. exists []. rewrite app_nil_r.
    split; [reflexivity|]. split; [constructor|]. split; [intros x []|].
    intros x. simpl. tauto.
  - assert (Hrec' : forall n0 v sub v0, In n0 nodes -> mem n0 v = false ->
                      rec n0 v = Some (sub, v0) -> fresh v sub v0).
    { intros n0 v sub v0 Hin. apply Hrec. right. exact Hin. }
    destruct (mem n visited) eqn:Em.
    + apply IH. exact Hrec'.
    + destruct (rec n visited) as [[sub v1]|] eqn:E; [|discriminate].
      destruct (Hrec n visited sub v1 (or_introl eq_refl) Em E) as (Hs1 & Hs2 & Hs3).
      intros H. destruct (IH Hrec' _ _ _ _ H) as (ext & -> & He1 & He2 & He3).
      exists (sub ++ ext). split; [rewrite app_assoc; reflexivity|]. split; [|split].
      * apply nodup_app; auto. intros x Hx Hx'. apply (He2 x Hx'). apply Hs3. auto.
      * intros x Hx Hv. apply in_app_iff in Hx. destruct Hx as [Hx|Hx].
        -- apply (Hs2 x Hx Hv).
        -- apply (He2 x Hx). apply Hs3. auto.
      * intros x. rewrite He3, Hs3, in_app_iff. tauto.
Qed.

Lemma trace_chain_fresh (graph : graph_t) (fuel : nat) :
  closed graph ->
  forall start visited chain visited',
    mem start visited = false -> has_key start graph = true ->
    _trace_chain fuel start graph visited = Some (chain, visited') ->
    fresh visited chain visited'.
Proof.
  intros Hclosed. induction fuel as [|fuel IH]; intros start visited chain visited' Hm Hk;
    simpl; [discriminate|].
  rewrite Hm, Hk. simpl. intros H.
  apply (trace_loop_fresh graph) in H.
  - destruct H as (ext & -> & He1 & He2 & He3). apply mem_false_iff in Hm.
    split; [|split].
    + simpl. constructor; [|exact He1]. intros Hx. apply (He2 start Hx). left. reflexivity.
    + intros x [<-|Hx]; [exact Hm|]. intros Hv. apply (He2 x Hx). right. exact Hv.
    + intros x. rewrite He3. simpl. tauto.
  - intros n v sub v0 Hn Hmn Hsub. apply (IH n v sub v0 Hmn); [|exact Hsub].
    apply (Hclosed start). exact Hn.
Qed.

Lemma links_ends (nodes : list str) (relations : list CausalRelation.t)
    (r : CausalRelation.t) :
  In r (links nodes relations) ->
  In (CausalRelation.cause r) (removelast nodes) /\
  In (CausalRelation.effect r) (tl nodes).
Proof.
  induction nodes as [|c nodes IH]; [intros []|].
  destruct nodes as [|e nodes]; [intros []|].
  change (links (c :: e :: nodes) relations)
    with (match find_relation relations c e with
          | Some rel => [rel]
          | None => []
          end ++ links (e :: nodes) relations).
  change (removelast (c :: e :: nodes)) with (c :: removelast (e :: nodes)).
  change (tl (c :: e :: nodes)) with (e :: nodes).
  rewrite in_app_iff. intros [H|H].
  - destruct (find_relation relations c e) as [rel|] eqn:E; [|destruct H].
    destruct H as [<-|[]]. unfold find_relation in E. apply find_some in E.
    destruct E as (_ & E). apply andb_true_iff in E. rewrite !str_eqb_eq in E.
    destruct E as (-> & ->). split; left; reflexivity.
  - destruct (IH H) as (H1 & H2). split; right; [exact H1|exact H2].
Qed.

Lemma removelast_In (A : Type) (l : list A) (x : A) : In x (removelast l) -> In x l.
Proof.
  induction l as [|a l IH]; [intros []|].
  destruct l as [|b l]; [intros []|].
  change (removelast (a :: b :: l)) with (a :: removelast (b :: l)).
  intros [H|H]; [left; exact H|right; apply IH; exact H].
Qed.

Lemma links_distinct (nodes : list str) (relations : list CausalRelation.t) :
  NoDup nodes ->
  NoDup (map CausalRelation.cause (links nodes relations)) /\
  NoDup (map CausalRelation.effect (links nodes relations)).
Proof.
  induction nodes as [|c nodes IH]; [intros _; split; constructor|].
  destruct nodes as [|e nodes]; [intros _; split; constructor|].
  intros Hnd. inversion Hnd as [|? ? Hc Hnd']; subst.
  destruct (IH Hnd') as (IH1 & IH2).
  change (links (c :: e :: nodes) relations)
    with (match find_relation relations c e with
          | Some rel => [rel]
          | None => []
          end ++ links (e :: nodes) relations).
  destruct (find_relation relations c e) as [rel|] eqn:E; [|split; assumption].
  unfold find_relation in E. apply find_some in E.
  destruct E as (_ & E). apply andb_true_iff in E. rewrite !str_eqb_eq in E.
  destruct E as (Ec & Ee). cbn [app map]. rewrite Ec, Ee. split; constructor; auto.
  - intros H. apply in_map_iff in H. destruct H as (r & Hr & Hin).
    apply links_ends in Hin. destruct Hin as (Hin & _). rewrite Hr in Hin.
    apply Hc. apply removelast_In. exact Hin.
  - intros H. apply in_map_iff in H. destruct H as (r & Hr & Hin).
    apply links_ends in Hin. destruct Hin as (_ & Hin). rewrite Hr in Hin.
    inversion Hnd' as [|? ? He _]; subst. apply He. exact Hin.
Qed.

Lemma create_chain_relations (nodes : list str) (relations : list CausalRelation.t) :
  CausalChain.relations (_create_causal_chain nodes relations) = links nodes relations.
Proof.
  unfold _create_causal_chain. rewrite add_links_fold.
  cbn [CausalChain.relations].
  match goal with
  | |- CausalChain.relations (fold_left _ ?L ?c) = _ =>
      destruct (add_relations_fields L c) as (H & _); rewrite H
  end.
  reflexivity.
Qed.

Definition distinct_ends (chain : CausalChain.t) : Prop :=
  NoDup (map CausalRelation.cause (CausalChain.relations chain)) /\
  NoDup (map CausalRelation.effect (CausalChain.relations chain)).

Lemma chains_from_distinct (fuel : nat) (all : list CausalRelation.t) :
  forall todo chains visited result,
    (forall rel, In rel todo -> In rel all) ->
    chains_from fuel (_build_causal_graph all) all todo chains visited = Some result ->
    Forall distinct_ends chains -> Forall distinct_ends result.
Proof.
  induction todo as [|rel todo IH]; intros chains visited result Hall; simpl.
  - intros H Hc. injection H as <-. exact Hc.
  - assert (Hall' : forall r, In r todo -> In r all) by (intros r Hr; apply Hall; right; exact Hr).
    destruct (mem (CausalRelation.cause rel) visited).
    + apply IH. exact Hall'.
    + destruct (_trace_chain fuel (CausalRelation.cause rel) (_build_causal_graph all) [])
        as [[chain v']|] eqn:E; [|discriminate].
      intros H Hc. apply IH in H; [exact H|exact Hall'|].
      destruct (1 <? length chain); [|exact Hc].
      apply Forall_app. split; [exact Hc|]. constructor; [|constructor].
      apply trace_chain_fresh in E.
      * destruct E as (Hnd & _). unfold distinct_ends. rewrite create_chain_relations.
        apply links_distinct. exact Hnd.
      * apply build_graph_closed.
      * reflexivity.
      * apply has_key_iff. destruct (build_graph_spec all) as (_ & Hkeys & _).
        apply Hkeys. exists rel. split; [apply Hall; left; reflexivity|].
        left. reflexivity.
Qed.

End SimpleChains.

(** X22. No chain of [build_causal_chain] holds two relations with the same
    cause, nor two with the same effect: the nodes of a chain are visited
    once each, so of the relations that leave a node where the graph
    branches, or that close a cycle, a chain keeps at most one. *)
Theorem chain_relations_distinct_ends :
  forall relations : list CausalRelation.t,
    Forall distinct_ends (CausalReasoner.build_causal_chain relations).
Proof.
  intros relations.
  unfold CausalReasoner.build_causal_chain, CausalReasoner.build_causal_chain_fuel.
  destruct relations as [|rel relations]; [constructor|].
  set (all := rel :: relations).
  destruct (CausalReasoner.chains_from (CausalReasoner.enough_fuel all)
              (CausalReasoner._build_causal_graph all) all all [] []) as [result|] eqn:E;
    [|constructor].
  apply chains_from_distinct in E; [exact E|auto|constructor].
Qed.
